(** * SAE-PK (src/common/sae_pk.c): a shallow embedding and its properties

    The development follows the C file top to bottom: the base-32 password
    codec, the KeyAuth transcript hash, the confirm element builder of the
    AP, the fingerprint check and the confirm element parser of the STA.

    Conventions.
    - [char] is [ascii], [u8] is [byte]; a [char *] or [u8 *] is the list of
      the cells it points to.  A C string is a list of characters read up
      to its first NUL; reading the cell just behind the list yields the
      terminating NUL.
    - [size_t] and [u64] are 64 bits wide.  Arithmetic on them is done in
      [Z] and reduced with [size_t]/[u64] wherever the value is not the
      length of an object that exists in memory.
    - Heap allocation ([os_malloc], [os_zalloc], [wpabuf_alloc]) succeeds.
    - The crypto library is an interface ([Crypto]); every call through it
      is recorded in the trace of the run. *)

From Stdlib Require Import ZArith Ascii String List Bool Lia.
From coqutil Require Import Byte.
Import ListNotations.
Local Open Scope Z_scope.

(** ** Machine integers *)

Definition SIZE_MAX : Z := 2 ^ 64 - 1.
Definition size_t (z : Z) : Z := z mod 2 ^ 64.
Definition u64 (z : Z) : Z := z mod 2 ^ 64.

Definition u8 : Type := byte.
Definition char : Type := ascii.

(** [(u8) c] and [(char) b] *)
Definition u8_of_char (c : char) : u8 := byte_of_ascii c.
Definition char_of_u8 (b : u8) : char := ascii_of_byte b.

Definition NUL : char := Ascii.zero.

(** [s[i]] on a character array whose last cell is followed by NUL *)
Definition char_at (s : list char) (i : Z) : char :=
  if i <? 0 then NUL else nth (Z.to_nat i) s NUL.

(** [strlen] *)
Fixpoint os_strlen (s : list char) : Z :=
  match s with
  | [] => 0
  | c :: s' => if (c =? NUL)%char then 0 else 1 + os_strlen s'
  end.

(** [strchr]: the offset of the first [c] in [s]; the terminator counts
    as part of the string. *)
Fixpoint os_strchr (s : list char) (c : char) : option Z :=
  match s with
  | [] => if (c =? NUL)%char then Some 0 else None
  | x :: s' =>
      if (x =? c)%char then Some 0
      else if (x =? NUL)%char then None
      else option_map Z.succ (os_strchr s' c)
  end.

(** ** Base-32 password codec *)

(** RFC 4648 base 32 alphabet with lowercase characters *)
Definition sae_pk_base32_table : list char :=
  list_ascii_of_string "abcdefghijklmnopqrstuvwxyz234567".

(** The [for (pos = 0; pw[pos]; pos++)] loop of [sae_pk_valid_password]:
    [None] when the body returns false, otherwise the value of [pos] at
    loop exit. *)
Fixpoint valid_password_loop (pw : list char) (pos : Z) : option Z :=
  match pw with
  | [] => Some pos
  | c :: rest =>
      if (c =? NUL)%char then Some pos
      else if negb (pos =? 0) && (pos mod 5 =? 4) then
        if negb (c =? "-")%char then None
        else valid_password_loop rest (pos + 1)
      else
        match os_strchr sae_pk_base32_table c with
        | None => None
        | Some _ => valid_password_loop rest (pos + 1)
        end
  end.

Definition sae_pk_valid_password (pw : list char) : bool :=
  if os_strlen pw <? 9 then false
  else
    match valid_password_loop pw 0 with
    | None => false
    | Some pos =>
        if pos =? 0 then false
        else negb (char_at pw (pos - 1) =? "-")%char
    end.

(** The index range of [for (i = 0; i < n; i++)] *)
Definition upto (n : Z) : list Z := map Z.of_nat (seq 0 (Z.to_nat n)).

(** [a[i] = v] on an array *)
Fixpoint array_set {A : Type} (a : list A) (i : nat) (v : A) : list A :=
  match a, i with
  | [], _ => []
  | _ :: t, O => v :: t
  | h :: t, S i' => h :: array_set t i' v
  end.

(** [add_char(start, pos, idx, bits)]: [out] is the text between [start]
    and [pos]; the result is the text up to the returned position and the
    updated [*bits]. *)
Definition add_char (out : list char) (idx : u8) (bits : Z) : list char * Z :=
  if bits =? 0 then (out, bits)
  else
    let bits' := if bits >? 5 then bits - 5 else 0 in
    let out' :=
      if Z.of_nat (length out) mod 5 =? 4 then out ++ ["-"%char] else out in
    (out' ++ [char_at sae_pk_base32_table (byte.unsigned idx)], bits').

(** The eight [add_char] calls made for one 40-bit block, [j = 7 .. 0] *)
Definition encode_block (block : Z) (out : list char) (nleft : Z)
  : list char * Z :=
  fold_left
    (fun (st : list char * Z) (j : Z) =>
       add_char (fst st)
                (byte.of_Z (Z.land (Z.shiftr block (j * 5)) 0x1f))
                (snd st))
    [7; 6; 5; 4; 3; 2; 1; 0] (out, nleft).

(** One iteration of the octet loop of [sae_pk_base32_encode]; the state
    is [(block, text written so far, left)], [left] being written
    [nleft]. *)
Definition encode_step (src : list u8) (len : Z)
           (st : Z * list char * Z) (i : Z) : Z * list char * Z :=
  let '(block, out, nleft) := st in
  let val := if i <? len then nth (Z.to_nat i) src Byte.x00 else Byte.x00 in
  let block := u64 (Z.shiftl block 8) in
  let block := Z.lor block (byte.unsigned val) in
  if i mod 5 =? 4 then
    let '(out', nleft') := encode_block block out nleft in
    (0, out', nleft')
  else (block, out, nleft).

(** [sae_pk_base32_encode(src, len_bits)]; [None] is the NULL return,
    otherwise the text written into the zeroed buffer [out].  [src] holds
    at least [(len_bits + 7) / 8] octets. *)
Definition sae_pk_base32_encode (src : list u8) (len_bits : Z)
  : option (list char) :=
  let len := size_t (len_bits + 7) / 8 in
  let nleft := len_bits in
  if (len =? 0) || (len >=? SIZE_MAX / 8) then None
  else
    let extra_pad := (5 - len mod 5) mod 5 in
    let '(_, out, _) :=
      fold_left (encode_step src len) (upto (len + extra_pad)) (0, [], nleft)
    in
    Some out.

(** The decoding table built at the start of [sae_pk_base32_decode] *)
Definition dtable : list u8 :=
  let t := repeat (byte.of_Z 0x80) 256 in
  let t :=
    fold_left
      (fun (t : list u8) (i : Z) =>
         array_set t
           (Z.to_nat (byte.unsigned (u8_of_char (char_at sae_pk_base32_table i))))
           (byte.of_Z i))
      (upto (os_strlen sae_pk_base32_table)) t in
  array_set t (Z.to_nat (byte.unsigned (u8_of_char "="%char))) (byte.of_Z 0).

(** [dtable[(u8) c]] *)
Definition dtable_at (c : char) : u8 :=
  nth (Z.to_nat (byte.unsigned (u8_of_char c))) dtable Byte.x00.

(** The first loop of [sae_pk_base32_decode]: the number of positions
    below [len] whose character has a table entry *)
Definition decode_count (src : list char) (len : Z) : Z :=
  fold_left
    (fun (count : Z) (i : Z) =>
       if negb (byte.unsigned (dtable_at (char_at src i)) =? 0x80)
       then count + 1 else count)
    (upto len) 0.

(** The second loop of [sae_pk_base32_decode] over the remaining indices
    [idxs]; [out] is the output between [out] and [pos].  The result is
    the output at loop exit, after the [pos -= pad * 5 / 8] of the
    [break] branch. *)
Fixpoint decode_loop (src : list char) (len : Z) (idxs : list Z)
         (block count pad : Z) (out : list u8) : list u8 :=
  match idxs with
  | [] => out
  | i :: rest =>
      let val : char := if i >=? len then "="%char else char_at src i in
      let tmp := dtable_at val in
      if byte.unsigned tmp =? 0x80 then
        decode_loop src len rest block count pad out
      else
        let pad := if (val =? "=")%char then pad + 1 else pad in
        let block := u64 (Z.shiftl block 5) in
        let block := Z.lor block (byte.unsigned tmp) in
        let count := count + 1 in
        if count =? 8 then
          let out :=
            out ++ [byte.of_Z (Z.land (Z.shiftr block 32) 0xff);
                    byte.of_Z (Z.land (Z.shiftr block 24) 0xff);
                    byte.of_Z (Z.land (Z.shiftr block 16) 0xff);
                    byte.of_Z (Z.land (Z.shiftr block 8) 0xff);
                    byte.of_Z (Z.land block 0xff)] in
          if negb (pad =? 0) then
            firstn (length out - Z.to_nat (pad * 5 / 8)) out
          else decode_loop src len rest 0 0 pad out
        else decode_loop src len rest block count pad out
  end.

(** [sae_pk_base32_decode(src, len, &out_len)]: [None] is the NULL return;
    otherwise the octets between [out] and [out + *out_len]. *)
Definition sae_pk_base32_decode (src : list char) (len : Z)
  : option (list u8) :=
  let count := decode_count src len in
  if count =? 0 then None
  else
    let extra_pad := (8 - count mod 8) mod 8 in
    Some (decode_loop src len (upto (len + extra_pad)) 0 0 0 []).

(** ** Runs of the code

    A run yields the sequence of calls made into the crypto library and
    either a result, or one of the two ways the C code stops without
    returning. *)

Inductive event : Type :=
| Ev_sha256_vector
| Ev_sha384_vector
| Ev_sha512_vector
| Ev_crypto_ec_point_to_bin
| Ev_crypto_bignum_to_bin
| Ev_crypto_ec_key_sign
| Ev_aes_siv_encrypt
| Ev_aes_siv_decrypt
| Ev_crypto_ec_key_parse_pub
| Ev_crypto_ec_key_group
| Ev_crypto_ec_key_verify_signature.

Inductive outcome (A : Type) : Type :=
| Ret (a : A)   (* the function returned *)
| Overflow      (* wpabuf_put() beyond the size of the buffer *)
| Fault.        (* NULL dereference or access outside an object *)

Arguments Ret {A} a.
Arguments Overflow {A}.
Arguments Fault {A}.

Definition run (A : Type) : Type := (list event * outcome A)%type.

Definition ret {A : Type} (a : A) : run A := ([], Ret a).
Definition overflow {A : Type} : run A := ([], Overflow).
Definition fault {A : Type} : run A := ([], Fault).

Definition bind {A B : Type} (m : run A) (k : A -> run B) : run B :=
  match m with
  | (t, Ret a) => let (t', r) := k a in (t ++ t', r)
  | (t, Overflow) => (t, Overflow)
  | (t, Fault) => (t, Fault)
  end.

(** A call into the crypto library *)
Definition call {A : Type} (e : event) (a : A) : run A := ([e], Ret a).

(** Dereference of a pointer that may be NULL *)
Definition deref {A : Type} (p : option A) : run A :=
  match p with
  | Some a => ret a
  | None => fault
  end.

Notation "x <- m ;; k" := (bind m (fun x => k))
  (at level 61, m at next level, right associativity).
Notation "' p <- m ;; k" := (bind m (fun p => k))
  (at level 61, p pattern, m at next level, right associativity).

(** ** Octet buffers (struct wpabuf) *)

(** Modelled from the spec: struct wpabuf and its accessors
    (utils/wpabuf.h) are not part of the file; the spec names the buffer
    an octet buffer with a remaining tailroom to which elements are
    appended.  [wpabuf_size] is the allocated size, [wpabuf_data] the
    [used] octets from the head. *)
Record wpabuf : Type := {
  wpabuf_size : Z;
  wpabuf_data : list u8
}.

Definition wpabuf_len (b : wpabuf) : Z := Z.of_nat (length (wpabuf_data b)).
Definition wpabuf_head (b : wpabuf) : list u8 := wpabuf_data b.
Definition wpabuf_tailroom (b : wpabuf) : Z := wpabuf_size b - wpabuf_len b.

Definition wpabuf_alloc (len : Z) : wpabuf :=
  {| wpabuf_size := len; wpabuf_data := [] |}.

(** [wpabuf_put(buf, len)]: reserves [len] octets at the tail and returns
    the offset of the reserved area. *)
Definition wpabuf_put (b : wpabuf) (len : Z) : run (Z * wpabuf) :=
  if wpabuf_len b + len >? wpabuf_size b then overflow
  else ret (wpabuf_len b,
            {| wpabuf_size := wpabuf_size b;
               wpabuf_data := wpabuf_data b ++ repeat Byte.x00 (Z.to_nat len) |}).

(** A store of [d] at offset [off] into the used part of the buffer, as
    done by a callee that was handed the pointer [wpabuf_put] returned. *)
Definition wpabuf_store (b : wpabuf) (off : Z) (d : list u8) : run wpabuf :=
  if (off <? 0) || (off + Z.of_nat (length d) >? wpabuf_len b) then fault
  else ret {| wpabuf_size := wpabuf_size b;
              wpabuf_data :=
                firstn (Z.to_nat off) (wpabuf_data b) ++ d ++
                skipn (Z.to_nat off + length d) (wpabuf_data b) |}.

Definition wpabuf_put_data (b : wpabuf) (d : list u8) : run wpabuf :=
  '(off, b') <- wpabuf_put b (Z.of_nat (length d)) ;;
  wpabuf_store b' off d.

Definition wpabuf_put_u8 (b : wpabuf) (v : Z) : run wpabuf :=
  wpabuf_put_data b [byte.of_Z v].

Definition wpabuf_put_be32 (b : wpabuf) (v : Z) : run wpabuf :=
  wpabuf_put_data b [byte.of_Z (Z.shiftr v 24); byte.of_Z (Z.shiftr v 16);
                     byte.of_Z (Z.shiftr v 8); byte.of_Z v].

Definition wpabuf_put_buf (dst src : wpabuf) : run wpabuf :=
  wpabuf_put_data dst (wpabuf_head src).

(** ** Constants of the headers *)

(** Modelled from the spec: the constants of sae.h, crypto/aes.h and
    common/ieee802_11_defs.h.  The spec fixes SAE_PK_M_LEN = 16,
    AES_BLOCK_SIZE = 16, VENDOR_SPECIFIC = 0xDD and EID_EXT = 0xFF; the
    vendor type and the two FILS extension identifiers are the published
    assignments. *)
Definition SAE_PK_M_LEN : Z := 16.
Definition AES_BLOCK_SIZE : Z := 16.
Definition SAE_MAX_HASH_LEN : Z := 64.
Definition ETH_ALEN : Z := 6.
Definition WLAN_EID_VENDOR_SPECIFIC : Z := 221.
Definition WLAN_EID_EXTENSION : Z := 255.
Definition WLAN_EID_EXT_FILS_KEY_CONFIRM : Z := 3.
Definition WLAN_EID_EXT_FILS_PUBLIC_KEY : Z := 12.
Definition SAE_PK_IE_VENDOR_TYPE : Z := 0x506f9a1f.

Definition sae_group_2_hash_len (group : Z) : Z :=
  if group =? 19 then 32
  else if group =? 20 then 48
  else if group =? 21 then 64
  else 0.

(** Modelled from the spec: [os_memcmp_const] (utils/os.h) is not part of
    the file; the spec asks for a branch-free comparison of the first
    [len] octets that is zero iff they are equal.  Reading beyond either
    array is a fault. *)
Definition os_memcmp_const (a b : list u8) (len : Z) : run Z :=
  if (len >? Z.of_nat (length a)) || (len >? Z.of_nat (length b)) then fault
  else
    ret (fold_left
           (fun (res : Z) (i : Z) =>
              byte.wrap
                (Z.lor res
                   (Z.lxor (byte.unsigned (nth (Z.to_nat i) a Byte.x00))
                           (byte.unsigned (nth (Z.to_nat i) b Byte.x00)))))
           (upto len) 0).

(** [a[i]] on an octet array of known extent *)
Definition read (a : list u8) (i : Z) : run Z :=
  if i <? 0 then fault
  else
    match nth_error a (Z.to_nat i) with
    | Some v => ret (byte.unsigned v)
    | None => fault
    end.

(** The [len] octets at [a + off] *)
Definition slice (a : list u8) (off len : Z) : run (list u8) :=
  if (off <? 0) || (len <? 0) || (off + len >? Z.of_nat (length a)) then fault
  else ret (firstn (Z.to_nat len) (skipn (Z.to_nat off) a)).

(** ** The collaborators

    The functions of crypto/*.h and of common/ieee802_11_common.h used by
    the file.  An [int] status below zero and a NULL result are [None]; an
    output parameter is the value of a [Some].  The build options
    CONFIG_SHA384 and CONFIG_SHA512 are part of the interface. *)
Class Externals : Type := {
  crypto_ec : Type;
  crypto_ec_point : Type;
  crypto_bignum : Type;
  crypto_ec_key : Type;
  CONFIG_SHA384 : bool;
  CONFIG_SHA512 : bool;
  sha256_vector : list u8 -> option (list u8);
  sha384_vector : list u8 -> option (list u8);
  sha512_vector : list u8 -> option (list u8);
  (* the X and the Y coordinate *)
  crypto_ec_point_to_bin :
    crypto_ec -> crypto_ec_point -> option (list u8 * list u8);
  (* [crypto_bignum_to_bin(a, buf, buflen, padlen)] *)
  crypto_bignum_to_bin : crypto_bignum -> Z -> Z -> option (list u8);
  crypto_ec_key_sign : crypto_ec_key -> list u8 -> option (list u8);
  (* [aes_siv_encrypt(key, key_len, pw, pwlen, 0, NULL, NULL, out)] *)
  aes_siv_encrypt : list u8 -> list u8 -> option (list u8);
  aes_siv_decrypt : list u8 -> list u8 -> option (list u8);
  crypto_ec_key_parse_pub : list u8 -> option crypto_ec_key;
  crypto_ec_key_group : crypto_ec_key -> Z;
  crypto_ec_key_verify_signature :
    crypto_ec_key -> list u8 -> list u8 -> Z;
  (* the offset of the element found in [ies] *)
  get_vendor_ie : list u8 -> Z -> option Z
}.

Section SAE_PK.

Context {X : Externals}.

(** Modelled from the spec: the structures of sae.h, restricted to the
    members the file reads or writes.  A pointer member that may be NULL
    is an [option]; [pw] carries its [pw_len] as its length. *)
Record sae_pk : Type := {
  m : list u8;
  key : crypto_ec_key;
  pk_group : Z;
  pubkey : list u8
}.

Record sae_temporary_data : Type := {
  ec : option crypto_ec;
  prime_len : Z;
  own_commit_scalar : crypto_bignum;
  own_commit_element_ecc : crypto_ec_point;
  peer_commit_element_ecc : crypto_ec_point;
  own_addr : list u8;
  peer_addr : list u8;
  kek : list u8;
  kek_len : Z;
  pw : option (list u8);
  lambda : Z;
  ssid : list u8;
  ssid_len : Z;
  ap_pk : option sae_pk
}.

Record sae_data : Type := {
  tmp : option sae_temporary_data;
  peer_commit_scalar : crypto_bignum;
  group : Z;
  pk : bool
}.

Definition pw_len (t : sae_temporary_data) : Z :=
  match pw t with
  | Some p => Z.of_nat (length p)
  | None => 0
  end.

(** [sae_pk_set_password(sae, password)]: the status and the session
    after the call. *)
Definition sae_pk_set_password (sae : sae_data) (password : list char)
  : Z * sae_data :=
  let len := os_strlen password in
  match tmp sae with
  | None => (-1, sae)
  | Some t =>
      if len <? 1 then (-1, sae)
      else
        let pw' := sae_pk_base32_decode password len in
        let t' :=
          {| ec := ec t; prime_len := prime_len t;
             own_commit_scalar := own_commit_scalar t;
             own_commit_element_ecc := own_commit_element_ecc t;
             peer_commit_element_ecc := peer_commit_element_ecc t;
             own_addr := own_addr t; peer_addr := peer_addr t;
             kek := kek t; kek_len := kek_len t;
             pw := pw';
             lambda := size_t (len - len / 5);
             ssid := ssid t; ssid_len := ssid_len t;
             ap_pk := ap_pk t |} in
        ((match pw' with Some _ => 0 | None => -1 end),
         {| tmp := Some t'; peer_commit_scalar := peer_commit_scalar sae;
            group := group sae; pk := pk sae |})
  end.

(** [sae_hash(hash_len, data, len, hash)]: [Some] of the digest when the
    status is not negative. *)
Definition sae_hash (hash_len : Z) (data : list u8)
  : run (option (list u8)) :=
  if hash_len =? 32 then call Ev_sha256_vector (sha256_vector data)
  else if CONFIG_SHA384 && (hash_len =? 48) then
    call Ev_sha384_vector (sha384_vector data)
  else if CONFIG_SHA512 && (hash_len =? 64) then
    call Ev_sha512_vector (sha512_vector data)
  else ret None.

(** The first part of [sae_pk_hash_sig_data]: the buffer [sig_data] at the
    point where it is handed to [sae_hash]; [None] is a [goto fail]. *)
Definition sae_pk_sig_data (sae : sae_data) (ap : bool)
           (m : list u8) (pubkey : list u8) : run (option wpabuf) :=
  t <- deref (tmp sae) ;;
  let m_len := Z.of_nat (length m) in
  let pubkey_len := Z.of_nat (length pubkey) in
  let sig_data :=
    wpabuf_alloc (prime_len t * 6 + m_len + pubkey_len + 2 * ETH_ALEN) in
  '(pos, sig_data) <- wpabuf_put sig_data (2 * prime_len t) ;;
  e <- deref (ec t) ;;
  r <- call Ev_crypto_ec_point_to_bin
         (crypto_ec_point_to_bin e
            (if ap then own_commit_element_ecc t
             else peer_commit_element_ecc t)) ;;
  match r with
  | None => ret None
  | Some (x, y) =>
  sig_data <- wpabuf_store sig_data pos x ;;
  sig_data <- wpabuf_store sig_data (pos + prime_len t) y ;;
  '(pos, sig_data) <- wpabuf_put sig_data (2 * prime_len t) ;;
  r <- call Ev_crypto_ec_point_to_bin
         (crypto_ec_point_to_bin e
            (if ap then peer_commit_element_ecc t
             else own_commit_element_ecc t)) ;;
  match r with
  | None => ret None
  | Some (x, y) =>
  sig_data <- wpabuf_store sig_data pos x ;;
  sig_data <- wpabuf_store sig_data (pos + prime_len t) y ;;
  '(pos, sig_data) <- wpabuf_put sig_data (prime_len t) ;;
  r <- call Ev_crypto_bignum_to_bin
         (crypto_bignum_to_bin
            (if ap then own_commit_scalar t else peer_commit_scalar sae)
            (prime_len t) (prime_len t)) ;;
  match r with
  | None => ret None
  | Some sca =>
  sig_data <- wpabuf_store sig_data pos sca ;;
  '(pos, sig_data) <- wpabuf_put sig_data (prime_len t) ;;
  r <- call Ev_crypto_bignum_to_bin
         (crypto_bignum_to_bin
            (if ap then peer_commit_scalar sae else own_commit_scalar t)
            (prime_len t) (prime_len t)) ;;
  match r with
  | None => ret None
  | Some sca =>
  sig_data <- wpabuf_store sig_data pos sca ;;
  sig_data <- wpabuf_put_data sig_data m ;;
  sig_data <- wpabuf_put_data sig_data pubkey ;;
  sig_data <- wpabuf_put_data sig_data
                (firstn (Z.to_nat ETH_ALEN)
                        (if ap then own_addr t else peer_addr t)) ;;
  sig_data <- wpabuf_put_data sig_data
                (firstn (Z.to_nat ETH_ALEN)
                        (if ap then peer_addr t else own_addr t)) ;;
  ret (Some sig_data)
  end end end end.

(** [sae_pk_hash_sig_data(sae, hash_len, ap, m, m_len, pubkey, pubkey_len,
    hash)]: [Some] of the octets written to [hash] when the result is 0,
    [None] when it is -1. *)
Definition sae_pk_hash_sig_data (sae : sae_data) (hash_len : Z) (ap : bool)
           (m : list u8) (pubkey : list u8) : run (option (list u8)) :=
  r <- sae_pk_sig_data sae ap m pubkey ;;
  match r with
  | None => ret None
  | Some sig_data => sae_hash hash_len (wpabuf_head sig_data)
  end.

(** [sae_write_confirm_pk(sae, buf)]: the status and the caller's buffer
    after the call. *)
Definition sae_write_confirm_pk (sae : sae_data) (buf : wpabuf)
  : run (Z * wpabuf) :=
  match tmp sae with
  | None => ret (-1, buf)
  | Some t =>
  match ap_pk t with
  | None => ret (0, buf)
  | Some pk =>
  if negb (kek_len t =? 32) && negb (kek_len t =? 48)
     && negb (kek_len t =? 64) then ret (-1, buf)
  else
  match ec t with
  | None => ret (-1, buf)
  | Some _ =>
  let hash_len := sae_group_2_hash_len (pk_group pk) in
  r <- sae_pk_hash_sig_data sae hash_len true (m pk) (pubkey pk) ;;
  match r with
  | None => ret (-1, buf)
  | Some hash =>
  r <- call Ev_crypto_ec_key_sign
         (crypto_ec_key_sign (key pk) (firstn (Z.to_nat hash_len) hash)) ;;
  match r with
  | None => ret (-1, buf)
  | Some sig_octets =>
  let sig := {| wpabuf_size := Z.of_nat (length sig_octets);
                wpabuf_data := sig_octets |} in
  let elem := wpabuf_alloc (1500 + wpabuf_len sig) in
  (* EncryptedModifier = AES-SIV-Q(M); no AAD *)
  let encr_mod_len := Z.of_nat (length (m pk)) + AES_BLOCK_SIZE in
  elem <- wpabuf_put_u8 elem encr_mod_len ;;
  '(encr_mod, elem) <- wpabuf_put elem encr_mod_len ;;
  r <- call Ev_aes_siv_encrypt
         (aes_siv_encrypt (firstn (Z.to_nat (kek_len t)) (kek t)) (m pk)) ;;
  match r with
  | None => ret (-1, buf)
  | Some c =>
  elem <- wpabuf_store elem encr_mod c ;;
  (* FILS Public Key element *)
  elem <- wpabuf_put_u8 elem WLAN_EID_EXTENSION ;;
  elem <- wpabuf_put_u8 elem (2 + Z.of_nat (length (pubkey pk))) ;;
  elem <- wpabuf_put_u8 elem WLAN_EID_EXT_FILS_PUBLIC_KEY ;;
  elem <- wpabuf_put_u8 elem 3 ;;
  elem <- wpabuf_put_data elem (pubkey pk) ;;
  (* FILS Key Confirmation element (KeyAuth) *)
  elem <- wpabuf_put_u8 elem WLAN_EID_EXTENSION ;;
  elem <- wpabuf_put_u8 elem (1 + wpabuf_len sig) ;;
  elem <- wpabuf_put_u8 elem WLAN_EID_EXT_FILS_KEY_CONFIRM ;;
  elem <- wpabuf_put_buf elem sig ;;
  let extra := 6 in
  if wpabuf_tailroom elem <? extra + wpabuf_len buf then ret (-1, buf)
  else
  (* SAE-PK element *)
  buf <- wpabuf_put_u8 buf WLAN_EID_VENDOR_SPECIFIC ;;
  buf <- wpabuf_put_u8 buf (4 + wpabuf_len elem) ;;
  buf <- wpabuf_put_be32 buf SAE_PK_IE_VENDOR_TYPE ;;
  buf <- wpabuf_put_buf buf elem ;;
  ret (0, buf)
  end end end end end end.

(** The expected fingerprint built by [sae_pk_valid_fingerprint]:
    [os_zalloc(sec + pw_len)] followed by the loop over [pw]. *)
Definition fingerprint_exp (sec : Z) (pw : list u8) : list u8 :=
  repeat Byte.x00 (Z.to_nat sec) ++
  map (fun i : Z =>
         let next :=
           if i + 1 <? Z.of_nat (length pw)
           then byte.unsigned (nth (Z.to_nat (i + 1)) pw Byte.x00) else 0 in
         byte.of_Z
           (Z.lor (Z.shiftl (byte.unsigned (nth (Z.to_nat i) pw Byte.x00)) 2)
                  (Z.shiftr next 6)))
      (upto (Z.of_nat (length pw))).

(** [sae_pk_valid_fingerprint(sae, m, m_len, k_ap, k_ap_len, group)] *)
Definition sae_pk_valid_fingerprint (sae : sae_data) (m : list u8)
           (k_ap : list u8) (group : Z) : run bool :=
  t <- deref (tmp sae) ;;
  match pw t with
  | None => ret false
  | Some pw =>
  if Z.of_nat (length pw) <? 1 then ret false
  else
  (* Fingerprint = L(Hash(SSID || M || K_AP), 0, 8*Sec + 5*Lambda - 2) *)
  let hash_len := sae_group_2_hash_len group in
  let hash_data := firstn (Z.to_nat (ssid_len t)) (ssid t) ++ m ++ k_ap in
  res <- sae_hash hash_len hash_data ;;
  match res with
  | None => ret false
  | Some hash =>
  let sec := Z.shiftr (byte.unsigned (nth 0 pw Byte.x00)) 6 + 2 in
  let fingerprint_bits := size_t (8 * sec + 5 * lambda t - 2) in
  if fingerprint_bits >? hash_len * 8 then ret false
  else
  let fingerprint_bytes := (fingerprint_bits + 7) / 8 in
  hash <-
    (if negb (fingerprint_bits mod 8 =? 0) then
       (* Zero out the extra bits in the last octet *)
       let extra := 8 - fingerprint_bits mod 8 in
       v <- read hash (fingerprint_bits / 8) ;;
       ret (array_set hash (Z.to_nat (fingerprint_bits / 8))
                      (byte.of_Z (Z.shiftl (Z.shiftr v extra) extra)))
     else ret hash) ;;
  res <- os_memcmp_const hash (fingerprint_exp sec pw) fingerprint_bytes ;;
  if negb (res =? 0) then ret false else ret true
  end end.

(** [sae_check_confirm_pk(sae, ies, ies_len)]; [ies_len] is the length of
    [ies]. *)
Definition sae_check_confirm_pk (sae : sae_data) (ies : list u8) : run Z :=
  match tmp sae with
  | None => ret (-1)
  | Some t =>
  if negb (pk sae) || (match ap_pk t with Some _ => true | None => false end)
  then ret 0
  else
  if negb (kek_len t =? 32) && negb (kek_len t =? 48)
     && negb (kek_len t =? 64) then ret (-1)
  else
  match ec t with
  | None => ret (-1)
  | Some _ =>
  match get_vendor_ie ies SAE_PK_IE_VENDOR_TYPE with
  | None => ret (-1)
  | Some sae_pk =>
  let pos := sae_pk + 2 in
  l <- read ies (sae_pk + 1) ;;
  let end_ := pos + l in
  if end_ - pos <? 4 + 1 + SAE_PK_M_LEN + AES_BLOCK_SIZE then ret (-1)
  else
  let pos := pos + 4 in
  v <- read ies pos ;;
  if negb (v =? SAE_PK_M_LEN + AES_BLOCK_SIZE) then ret (-1)
  else
  let pos := pos + 1 in
  let encr_mod := pos in
  let pos := pos + (SAE_PK_M_LEN + AES_BLOCK_SIZE) in
  if end_ - pos <? 4 then ret (-1)
  else
  p0 <- read ies pos ;;
  if negb (p0 =? WLAN_EID_EXTENSION) then ret (-1)
  else
  p1 <- read ies (pos + 1) ;;
  if (p1 <? 2) || (p1 >? end_ - pos - 2) then ret (-1)
  else
  p2 <- read ies (pos + 2) ;;
  if negb (p2 =? WLAN_EID_EXT_FILS_PUBLIC_KEY) then ret (-1)
  else
  p3 <- read ies (pos + 3) ;;
  if negb (p3 =? 3) then ret (-1)
  else
  let k_ap_len := p1 - 2 in
  let pos := pos + 4 in
  let k_ap_off := pos in
  let pos := pos + k_ap_len in
  if end_ - pos <? 4 then ret (-1)
  else
  p0 <- read ies pos ;;
  if negb (p0 =? WLAN_EID_EXTENSION) then ret (-1)
  else
  p1 <- read ies (pos + 1) ;;
  if (p1 <? 1) || (p1 >? end_ - pos - 2) then ret (-1)
  else
  p2 <- read ies (pos + 2) ;;
  if negb (p2 =? WLAN_EID_EXT_FILS_KEY_CONFIRM) then ret (-1)
  else
  let key_auth_len := p1 - 1 in
  let pos := pos + 3 in
  let key_auth_off := pos in
  encr <- slice ies encr_mod (SAE_PK_M_LEN + AES_BLOCK_SIZE) ;;
  r <- call Ev_aes_siv_decrypt
         (aes_siv_decrypt (firstn (Z.to_nat (kek_len t)) (kek t)) encr) ;;
  match r with
  | None => ret (-1)
  | Some m =>
  k_ap <- slice ies k_ap_off k_ap_len ;;
  r <- call Ev_crypto_ec_key_parse_pub (crypto_ec_key_parse_pub k_ap) ;;
  match r with
  | None => ret (-1)
  | Some key =>
  group' <- call Ev_crypto_ec_key_group (crypto_ec_key_group key) ;;
  ok <- sae_pk_valid_fingerprint sae (firstn (Z.to_nat SAE_PK_M_LEN) m)
          k_ap group' ;;
  if negb ok then ret (-1)
  else
  if negb (group' =? group sae) then ret (-1)
  else
  let hash_len := sae_group_2_hash_len group' in
  r <- sae_pk_hash_sig_data sae hash_len false
         (firstn (Z.to_nat SAE_PK_M_LEN) m) k_ap ;;
  match r with
  | None => ret (-1)
  | Some hash =>
  key_auth <- slice ies key_auth_off key_auth_len ;;
  res <- call Ev_crypto_ec_key_verify_signature
           (crypto_ec_key_verify_signature key
              (firstn (Z.to_nat hash_len) hash) key_auth) ;;
  if negb (res =? 1) then ret (-1) else ret 0
  end end end end end end.

End SAE_PK.
(** ** Auxiliary definitions used by the statements and proofs *)

(** What the loop body demands of the character at position [pos] *)
Definition position_ok (pos : Z) (c : char) : Prop :=
  if negb (pos =? 0) && (pos mod 5 =? 4) then c = "-"%char
  else In c sae_pk_base32_table.

(** The character the second loop of [sae_pk_base32_decode] examines at
    index [i] *)
Definition decode_val (src : list char) (len : Z) (i : Z) : char :=
  if i >=? len then "="%char else char_at src i.

(** [decode_loop] as a function of the characters examined *)
Fixpoint decode_chars (vals : list char) (block count pad : Z)
         (out : list u8) : list u8 :=
  match vals with
  | [] => out
  | val :: rest =>
      let tmp := dtable_at val in
      if byte.unsigned tmp =? 0x80 then decode_chars rest block count pad out
      else
        let pad := if (val =? "=")%char then pad + 1 else pad in
        let block := u64 (Z.shiftl block 5) in
        let block := Z.lor block (byte.unsigned tmp) in
        let count := count + 1 in
        if count =? 8 then
          let out :=
            out ++ [byte.of_Z (Z.land (Z.shiftr block 32) 0xff);
                    byte.of_Z (Z.land (Z.shiftr block 24) 0xff);
                    byte.of_Z (Z.land (Z.shiftr block 16) 0xff);
                    byte.of_Z (Z.land (Z.shiftr block 8) 0xff);
                    byte.of_Z (Z.land block 0xff)] in
          if negb (pad =? 0) then
            firstn (length out - Z.to_nat (pad * 5 / 8)) out
          else decode_chars rest 0 0 pad out
        else decode_chars rest block count pad out
  end.

(** The characters the decoder does not skip *)
Definition valid_char (c : char) : bool :=
  negb (byte.unsigned (dtable_at c) =? 0x80).

Definition is_alphabet (c : char) : bool :=
  existsb (Ascii.eqb c) sae_pk_base32_table.

(** The 40-bit block held by the five octets of [src] from index [i] *)
Definition block_at (src : list u8) (i : nat) : Z :=
  byte.unsigned (nth i src Byte.x00) * 2 ^ 32
  + byte.unsigned (nth (i + 1) src Byte.x00) * 2 ^ 24
  + byte.unsigned (nth (i + 2) src Byte.x00) * 2 ^ 16
  + byte.unsigned (nth (i + 3) src Byte.x00) * 2 ^ 8
  + byte.unsigned (nth (i + 4) src Byte.x00).

(** The eight characters and the five octets of a block *)
Definition chars8 (v : Z) : list char :=
  map (fun j : Z =>
         char_at sae_pk_base32_table
                 (byte.unsigned (byte.of_Z (Z.land (Z.shiftr v (j * 5)) 0x1f))))
      [7; 6; 5; 4; 3; 2; 1; 0].

Definition bytes5 (v : Z) : list u8 :=
  [byte.of_Z (Z.land (Z.shiftr v 32) 0xff);
   byte.of_Z (Z.land (Z.shiftr v 24) 0xff);
   byte.of_Z (Z.land (Z.shiftr v 16) 0xff);
   byte.of_Z (Z.land (Z.shiftr v 8) 0xff);
   byte.of_Z (Z.land v 0xff)].

(** Text without ['='] and without NUL *)
Definition clean (s : list char) : Prop :=
  forall x, In x s -> (x =? "=")%char = false /\ (x =? NUL)%char = false.


(** A buffer with [d] appended to its used part *)
Definition wpabuf_app (b : wpabuf) (d : list u8) : wpabuf :=
  {| wpabuf_size := wpabuf_size b; wpabuf_data := wpabuf_data b ++ d |}.

(** *** The fingerprint check in the words of the spec *)

(** [Sec = (pw[0] >> 6) + 2] *)
Definition spec_Sec (pw : list u8) : Z :=
  Z.shiftr (byte.unsigned (hd Byte.x00 pw)) 6 + 2.

(** [bits = 8 * Sec + 5 * lambda - 2] *)
Definition spec_bits (pw : list u8) (lambda : Z) : Z :=
  8 * spec_Sec pw + 5 * lambda - 2.

(** [ceil(bits / 8)] *)
Definition spec_byte_count (bits : Z) : nat := Z.to_nat ((bits + 7) / 8).

(** An octet with its low [n] bits cleared *)
Definition clear_low_bits (n : Z) (b : u8) : u8 :=
  byte.of_Z (Z.ldiff (byte.unsigned b) (Z.ones n)).

(** The digest with the low [8 - bits mod 8] bits of octet
    [floor(bits / 8)] cleared when [bits mod 8 <> 0] *)
Definition spec_trimmed (h : list u8) (bits : Z) : list u8 :=
  if bits mod 8 =? 0 then h
  else
    let k := Z.to_nat (bits / 8) in
    firstn k h
    ++ match skipn k h with
       | [] => []
       | x :: rest => clear_low_bits (8 - bits mod 8) x :: rest
       end.

(** [pw] shifted left by two bits as a bit stream:
    [(pw[i] << 2) | (pw[i+1] >> 6)] with [pw[|pw|] = 0] *)
Fixpoint spec_shifted (pw : list u8) : list u8 :=
  match pw with
  | [] => []
  | a :: rest =>
      byte.of_Z (Z.lor (Z.shiftl (byte.unsigned a) 2)
                       (Z.shiftr (byte.unsigned (hd Byte.x00 rest)) 6))
      :: spec_shifted rest
  end.

(** [Sec] zero octets followed by the shifted password *)
Definition spec_expected (pw : list u8) : list u8 :=
  repeat Byte.x00 (Z.to_nat (spec_Sec pw)) ++ spec_shifted pw.

(** ** A stand-in for the collaborators

    It lets the code run on concrete sessions: every digest is made of
    zero octets, a point is the pair of its coordinates, a number is its
    octets, a key is the group it belongs to, a signature is eight zero
    octets, and the SIV tag is sixteen zero octets in front of the
    plaintext. *)
Definition test_externals : Externals := {|
  crypto_ec := unit;
  crypto_ec_point := list u8 * list u8;
  crypto_bignum := list u8;
  crypto_ec_key := Z;
  CONFIG_SHA384 := true;
  CONFIG_SHA512 := true;
  sha256_vector := fun _ => Some (repeat Byte.x00 32);
  sha384_vector := fun _ => Some (repeat Byte.x00 48);
  sha512_vector := fun _ => Some (repeat Byte.x00 64);
  crypto_ec_point_to_bin := fun _ p => Some p;
  crypto_bignum_to_bin := fun a _ _ => Some a;
  crypto_ec_key_sign := fun _ _ => Some (repeat Byte.x00 8);
  aes_siv_encrypt := fun _ p => Some (repeat Byte.x00 16 ++ p);
  aes_siv_decrypt := fun _ c => Some (skipn 16 c);
  crypto_ec_key_parse_pub := fun _ => Some 19;
  crypto_ec_key_group := fun k => k;
  crypto_ec_key_verify_signature := fun _ _ _ => 1;
  get_vendor_ie := fun _ _ => None
|}.

Definition test_pk : @sae_pk test_externals :=
  @Build_sae_pk test_externals (repeat Byte.x00 16) 19 19 (repeat Byte.x00 8).

(** The temporary data of a group 19 session of the stand-in with the
    given [kek_len] and key container.  The members are listed in the
    order of the record: [ec], [prime_len], own scalar, own and peer
    element, own and peer address, [kek], [kek_len], [pw] (five zero
    octets, decoded from eight characters), [lambda], [ssid], [ssid_len],
    [ap_pk]. *)
Definition test_tmp (kek_len0 : Z) (container : option (@sae_pk test_externals))
  : @sae_temporary_data test_externals :=
  @Build_sae_temporary_data test_externals
    (Some tt) 32
    (repeat Byte.x01 32)
    (repeat Byte.x02 32, repeat Byte.x03 32)
    (repeat Byte.x04 32, repeat Byte.x05 32)
    [Byte.x02; Byte.x00; Byte.x00; Byte.x00; Byte.x00; Byte.x01]
    [Byte.x02; Byte.x00; Byte.x00; Byte.x00; Byte.x00; Byte.x02]
    (repeat Byte.x00 64) kek_len0
    (Some (repeat Byte.x00 5)) 8
    (repeat Byte.x00 32) 4
    container.

(** The session around [test_tmp]: peer scalar, group 19 and the SAE-PK
    flag. *)
Definition test_session (kek_len0 : Z) (container : option (@sae_pk test_externals))
           (pk0 : bool) : @sae_data test_externals :=
  @Build_sae_data test_externals
    (Some (test_tmp kek_len0 container)) (repeat Byte.x06 32) 19 pk0.

(** The STA side that mirrors [test_session]: own and peer values
    exchanged. *)
Definition test_peer_session : @sae_data test_externals :=
  @Build_sae_data test_externals
    (Some (@Build_sae_temporary_data test_externals
             (Some tt) 32
             (repeat Byte.x06 32)
             (repeat Byte.x04 32, repeat Byte.x05 32)
             (repeat Byte.x02 32, repeat Byte.x03 32)
             [Byte.x02; Byte.x00; Byte.x00; Byte.x00; Byte.x00; Byte.x02]
             [Byte.x02; Byte.x00; Byte.x00; Byte.x00; Byte.x00; Byte.x01]
             (repeat Byte.x00 64) 32
             (Some (repeat Byte.x00 5)) 8
             (repeat Byte.x00 32) 4
             None))
    (repeat Byte.x01 32) 19 true.

(** The length of the inner container [sae_write_confirm_pk] assembles in
    [elem]: the EncryptedModifier with its length octet, the FILS Public
    Key element and the FILS Key Confirmation element *)
Definition inner_len {X : Externals} (pk0 : sae_pk) (sig : list u8) : Z :=
  1 + (Z.of_nat (length (m pk0)) + AES_BLOCK_SIZE)
  + 4 + Z.of_nat (length (pubkey pk0))
  + 3 + Z.of_nat (length sig).

(** [H_group]: SHA-256, SHA-384, SHA-512 for the groups 19, 20, 21 *)
Definition spec_H_group {X : Externals} (group : Z) (data : list u8)
  : option (list u8) :=
  if group =? 19 then sha256_vector data
  else if group =? 20 then sha384_vector data
  else if group =? 21 then sha512_vector data
  else None.

(** The octets [sae_pk_hash_sig_data] hands to [sae_hash], when it gets
    that far *)
Definition sig_data_octets {X : Externals} (sae : sae_data) (ap : bool)
           (m : list u8) (pubkey : list u8) : option (list u8) :=
  option_map wpabuf_head
    (match snd (sae_pk_sig_data sae ap m pubkey) with
     | Ret r => r
     | _ => None
     end).

(** The size [olen] of the text buffer [sae_pk_base32_encode] allocates
    (plus one cell for the terminator) *)
Definition encode_olen (len : Z) : Z :=
  let olen := len * 8 / 5 + 1 in
  olen + olen / 4.

(** The length of a text of [n] alphabet characters with a ['-'] after
    every fourth one but the last *)
Definition text_len (n : Z) : Z := if n =? 0 then 0 else n + (n - 1) / 4.

(** What the encoder maintains between two [add_char] calls: [n]
    characters have been written and at most [5 * n] bits were paid for *)
Definition encode_inv (len_bits : Z) (out : list char) (nleft : Z) : Prop :=
  exists n : Z,
    0 <= n /\ Z.of_nat (length out) = text_len n /\ 0 <= nleft
    /\ (0 < nleft -> nleft = len_bits - 5 * n)
    /\ 5 * n < len_bits + 5.

(** ** Further auxiliary definitions *)

(** The layout of a password text: every character stands where the
    validity loop accepts it, and the text does not end in ['-']. *)
Definition text_shape (out : list char) : Prop :=
  (forall (i : nat) (c : char),
      nth_error out i = Some c -> position_ok (Z.of_nat i) c)
  /\ last out "a"%char <> "-"%char.

(** The encoder after [k] calls of [add_char]: [out] holds [n] alphabet
    characters in password layout, one for each call made while bits
    were left. *)
Definition encode_ok (len_bits k : Z) (out : list char) (nleft : Z) : Prop :=
  let n := Z.of_nat (length (filter valid_char out)) in
  0 <= nleft /\ n <= k
  /\ (0 < nleft -> n = k /\ nleft = len_bits - 5 * k)
  /\ len_bits <= nleft + 5 * n /\ 5 * n < len_bits + 5
  /\ Z.of_nat (length out) = text_len n
  /\ text_shape out.

(** The octets of the inner container and of the whole SAE-PK element, as
    laid out by the comments of [sae_write_confirm_pk]: EncryptedModifier
    with its length octet, the FILS Public Key element, the FILS Key
    Confirmation element; in front of them the vendor specific header. *)
Definition sae_pk_inner {X : Externals} (pk0 : sae_pk) (c sig : list u8)
  : list u8 :=
  [byte.of_Z (Z.of_nat (length (m pk0)) + AES_BLOCK_SIZE)] ++ c
  ++ [byte.of_Z WLAN_EID_EXTENSION;
      byte.of_Z (2 + Z.of_nat (length (pubkey pk0)));
      byte.of_Z WLAN_EID_EXT_FILS_PUBLIC_KEY; byte.of_Z 3]
  ++ pubkey pk0
  ++ [byte.of_Z WLAN_EID_EXTENSION; byte.of_Z (1 + Z.of_nat (length sig));
      byte.of_Z WLAN_EID_EXT_FILS_KEY_CONFIRM]
  ++ sig.

Definition sae_pk_element {X : Externals} (pk0 : sae_pk) (c sig : list u8)
  : list u8 :=
  [byte.of_Z WLAN_EID_VENDOR_SPECIFIC;
   byte.of_Z (4 + Z.of_nat (length (sae_pk_inner pk0 c sig)));
   byte.of_Z (Z.shiftr SAE_PK_IE_VENDOR_TYPE 24);
   byte.of_Z (Z.shiftr SAE_PK_IE_VENDOR_TYPE 16);
   byte.of_Z (Z.shiftr SAE_PK_IE_VENDOR_TYPE 8);
   byte.of_Z SAE_PK_IE_VENDOR_TYPE]
  ++ sae_pk_inner pk0 c sig.

(** ** The key container of the AP *)

(** The collaborators of [sae_parse_pk] (utils/common.h, utils/base64.h,
    crypto/crypto.h).  [hexstr2bin(hex, buf, len)] is given the text and
    [len] and yields the octets it stores at [buf]; [base64_decode] is
    given the text and its length. *)
Class KeyExternals {X : Externals} : Type := {
  hexstr2bin : list char -> Z -> option (list u8);
  base64_decode : list char -> Z -> option (list u8);
  crypto_ec_key_parse_priv : list u8 -> option crypto_ec_key;
  crypto_ec_key_get_subject_public_key : crypto_ec_key -> option (list u8)
}.

(** The calls [sae_parse_pk] makes: the two decoders, the two key
    functions only it uses, and the calls shared with the rest of the
    file. *)
Inductive key_event : Type :=
| Ev_hexstr2bin
| Ev_base64_decode
| Ev_crypto_ec_key_parse_priv
| Ev_crypto_ec_key_get_subject_public_key
| Ev_crypto (e : event).

(** A run of [sae_parse_pk]: its calls in order, and how it ended *)
Definition key_run (A : Type) : Type := (list key_event * outcome A)%type.

Definition key_ret {A : Type} (a : A) : key_run A := ([], Ret a).

Definition key_bind {A B : Type} (r : key_run A) (k : A -> key_run B)
  : key_run B :=
  match r with
  | (t, Ret a) => let (t', o) := k a in (t ++ t', o)
  | (t, Overflow) => (t, Overflow)
  | (t, Fault) => (t, Fault)
  end.

Definition key_call {A : Type} (e : key_event) (a : A) : key_run A :=
  ([e], Ret a).

(** A step that is a run in the sense above, such as a buffer operation *)
Definition key_lift {A : Type} (r : run A) : key_run A :=
  (map Ev_crypto (fst r), snd r).

(** [sae_parse_pk(val)]: the container, or [None] for NULL.  [pos] is the
    offset of the first colon; after [pos++] it is the text behind the
    colon. *)
Definition sae_parse_pk {X : Externals} {K : KeyExternals} (val : list char)
  : key_run (option sae_pk) :=
  match os_strchr val ":"%char with
  | None => key_ret None
  | Some pos =>
  if negb (Z.land pos 1 =? 0) then key_ret None
  else
  let len := pos / 2 in
  if negb (len =? SAE_PK_M_LEN) then key_ret None
  else
  key_bind (key_lift (wpabuf_put (wpabuf_alloc len) len)) (fun '(off, pk_m) =>
  key_bind (key_call Ev_hexstr2bin (hexstr2bin val len)) (fun r =>
  match r with
  | None => key_ret None
  | Some d =>
  key_bind (key_lift (wpabuf_store pk_m off d)) (fun pk_m =>
  let pos := skipn (Z.to_nat (pos + 1)) val in
  key_bind (key_call Ev_base64_decode (base64_decode pos (os_strlen pos)))
           (fun r =>
  match r with
  | None => key_ret None
  | Some der =>
  key_bind (key_call Ev_crypto_ec_key_parse_priv
                     (crypto_ec_key_parse_priv der)) (fun r =>
  match r with
  | None => key_ret None
  | Some k =>
  key_bind (key_call (Ev_crypto Ev_crypto_ec_key_group)
                     (crypto_ec_key_group k)) (fun group0 =>
  key_bind (key_call Ev_crypto_ec_key_get_subject_public_key
                     (crypto_ec_key_get_subject_public_key k)) (fun r =>
  match r with
  | None => key_ret None
  | Some pub =>
  key_ret (Some {| m := wpabuf_head pk_m; key := k;
                   pk_group := group0; pubkey := pub |})
  end))
  end)
  end))
  end))
  end.

(** *** A second stand-in

    As [test_externals], but the element scanner finds the element at the
    head of the frame, the build has no SHA-384, and signing fails for
    the key 0. *)
Definition test_externals_sta : Externals := {|
  crypto_ec := unit;
  crypto_ec_point := list u8 * list u8;
  crypto_bignum := list u8;
  crypto_ec_key := Z;
  CONFIG_SHA384 := false;
  CONFIG_SHA512 := true;
  sha256_vector := fun _ => Some (repeat Byte.x00 32);
  sha384_vector := fun _ => Some (repeat Byte.x00 48);
  sha512_vector := fun _ => Some (repeat Byte.x00 64);
  crypto_ec_point_to_bin := fun _ p => Some p;
  crypto_bignum_to_bin := fun a _ _ => Some a;
  crypto_ec_key_sign :=
    fun k _ => if k =? 0 then None else Some (repeat Byte.x00 8);
  aes_siv_encrypt := fun _ p => Some (repeat Byte.x00 16 ++ p);
  aes_siv_decrypt := fun _ c => Some (skipn 16 c);
  crypto_ec_key_parse_pub := fun _ => Some 19;
  crypto_ec_key_group := fun k => k;
  crypto_ec_key_verify_signature := fun _ _ _ => 1;
  get_vendor_ie := fun _ _ => Some 0
|}.

(** A container of the second stand-in with the given key and group *)
Definition test_pk_sta (key0 group0 : Z) : @sae_pk test_externals_sta :=
  @Build_sae_pk test_externals_sta (repeat Byte.x00 16) key0 group0
                (repeat Byte.x00 8).

(** The AP's session of the second stand-in, as [test_session] *)
Definition test_tmp_ap (container : option (@sae_pk test_externals_sta))
  : @sae_temporary_data test_externals_sta :=
  @Build_sae_temporary_data test_externals_sta
    (Some tt) 32
    (repeat Byte.x01 32)
    (repeat Byte.x02 32, repeat Byte.x03 32)
    (repeat Byte.x04 32, repeat Byte.x05 32)
    [Byte.x02; Byte.x00; Byte.x00; Byte.x00; Byte.x00; Byte.x01]
    [Byte.x02; Byte.x00; Byte.x00; Byte.x00; Byte.x00; Byte.x02]
    (repeat Byte.x00 64) 32
    (Some (repeat Byte.x00 5)) 8
    (repeat Byte.x00 32) 4
    container.

Definition test_session_ap (container : option (@sae_pk test_externals_sta))
  : @sae_data test_externals_sta :=
  @Build_sae_data test_externals_sta
    (Some (test_tmp_ap container)) (repeat Byte.x06 32) 19 true.

(** The STA's session that mirrors it *)
Definition test_tmp_sta : @sae_temporary_data test_externals_sta :=
  @Build_sae_temporary_data test_externals_sta
    (Some tt) 32
    (repeat Byte.x06 32)
    (repeat Byte.x04 32, repeat Byte.x05 32)
    (repeat Byte.x02 32, repeat Byte.x03 32)
    [Byte.x02; Byte.x00; Byte.x00; Byte.x00; Byte.x00; Byte.x02]
    [Byte.x02; Byte.x00; Byte.x00; Byte.x00; Byte.x00; Byte.x01]
    (repeat Byte.x00 64) 32
    (Some (repeat Byte.x00 5)) 8
    (repeat Byte.x00 32) 4
    None.

Definition test_session_sta : @sae_data test_externals_sta :=
  @Build_sae_data test_externals_sta
    (Some test_tmp_sta) (repeat Byte.x01 32) 19 true.

(** Stand-ins for the collaborators of [sae_parse_pk]: the modifier is
    read as zero octets, the key text as an empty DER string, which
    parses to the key 19 with a public key of eight octets unless the
    text is empty. *)
Definition test_key_externals : @KeyExternals test_externals :=
  @Build_KeyExternals test_externals
    (fun _ len => Some (repeat Byte.x00 (Z.to_nat len)))
    (fun _ len => if len =? 0 then None else Some [])
    (fun _ => Some 19)
    (fun _ => Some (repeat Byte.x00 8)).
(** ** Password validity *)

Lemma os_strlen_no_nul (p : list char) :
  ~ In NUL p -> os_strlen p = Z.of_nat (length p).
Proof.
  induction p as [|c p IH]; intros Hn; [reflexivity|].
  cbn [os_strlen length].
  destruct (Ascii.eqb_spec c NUL) as [->|_].
  - exfalso; apply Hn; left; reflexivity.
  - rewrite IH by (intros H; apply Hn; right; exact H). lia.
Qed.

Lemma os_strchr_found (s : list char) (c : char) :
  ~ In NUL s -> c <> NUL ->
  (exists k, os_strchr s c = Some k) <-> In c s.
Proof.
  intros Hs Hc. induction s as [|x s IH]; cbn [os_strchr In].
  - destruct (Ascii.eqb_spec c NUL); [contradiction|].
    split; [intros [k Hk]; discriminate | tauto].
  - assert (Hx : x <> NUL) by (intros ->; apply Hs; left; reflexivity).
    assert (Hs' : ~ In NUL s) by (intros H; apply Hs; right; exact H).
    destruct (Ascii.eqb_spec x c) as [->|Hxc].
    + split; [intros _; left; reflexivity | intros _; eexists; reflexivity].
    + destruct (Ascii.eqb_spec x NUL); [contradiction|].
      specialize (IH Hs'). split.
      * intros [k Hk]. right. apply IH.
        destruct (os_strchr s c); [eexists; reflexivity | discriminate].
      * intros [H|H]; [contradiction|].
        apply IH in H. destruct H as [k ->]. eexists; reflexivity.
Qed.

Lemma table_no_nul : ~ In NUL sae_pk_base32_table.
Proof.
  intros H. cbv [sae_pk_base32_table list_ascii_of_string In] in H.
  repeat (destruct H as [H|H]; [discriminate H|]). exact H.
Qed.

Lemma valid_password_loop_spec (p : list char) (pos : Z) :
  ~ In NUL p ->
  (valid_password_loop p pos = Some (pos + Z.of_nat (length p)) /\
   forall (i : nat) (c : char), nth_error p i = Some c ->
                                position_ok (pos + Z.of_nat i) c)
  \/
  (valid_password_loop p pos = None /\
   exists (i : nat) (c : char), nth_error p i = Some c /\
                                ~ position_ok (pos + Z.of_nat i) c).
Proof.
  revert pos. induction p as [|c p IH]; intros pos Hn.
  - left. cbn. split; [f_equal; lia|]. intros [|i] c H; discriminate.
  - assert (Hc : c <> NUL) by (intros ->; apply Hn; left; reflexivity).
    assert (Hp : ~ In NUL p) by (intros H; apply Hn; right; exact H).
    cbn [valid_password_loop].
    destruct (Ascii.eqb_spec c NUL); [contradiction|].
    assert (Hstep :
      (position_ok pos c /\
       (if negb (pos =? 0) && (pos mod 5 =? 4)
        then if negb (c =? "-")%char then None
             else valid_password_loop p (pos + 1)
        else match os_strchr sae_pk_base32_table c with
             | Some _ => valid_password_loop p (pos + 1)
             | None => None
             end) = valid_password_loop p (pos + 1))
      \/
      (~ position_ok pos c /\
       (if negb (pos =? 0) && (pos mod 5 =? 4)
        then if negb (c =? "-")%char then None
             else valid_password_loop p (pos + 1)
        else match os_strchr sae_pk_base32_table c with
             | Some _ => valid_password_loop p (pos + 1)
             | None => None
             end) = None)).
    { unfold position_ok.
      destruct (negb (pos =? 0) && (pos mod 5 =? 4)).
      - destruct (Ascii.eqb_spec c "-"%char); cbn [negb]; [left|right]; tauto.
      - pose proof (os_strchr_found sae_pk_base32_table c table_no_nul Hc) as Hf.
        destruct (os_strchr sae_pk_base32_table c) as [k|].
        + left. split; [apply Hf; eexists; reflexivity | reflexivity].
        + right. split; [|reflexivity].
          intros Hin. apply Hf in Hin. destruct Hin as [k Hk]. discriminate. }
    destruct Hstep as [[Hok ->]|[Hbad ->]].
    + destruct (IH (pos + 1) Hp) as [[He Hall]|[He [i [d [Hi Hd]]]]].
      * left. split.
        -- rewrite He. f_equal. cbn [length]. lia.
        -- intros [|i] d Hi.
           ++ cbn in Hi. injection Hi as <-. rewrite Z.add_0_r. exact Hok.
           ++ cbn in Hi. specialize (Hall i d Hi).
              replace (pos + Z.of_nat (S i)) with (pos + 1 + Z.of_nat i) by lia.
              exact Hall.
      * right. split; [exact He|]. exists (S i), d. split; [exact Hi|].
        replace (pos + Z.of_nat (S i)) with (pos + 1 + Z.of_nat i) by lia.
        exact Hd.
    + right. split; [reflexivity|]. exists 0%nat, c. split; [reflexivity|].
      rewrite Z.add_0_r. exact Hbad.
Qed.

Lemma char_at_last (p : list char) :
  p <> [] -> char_at p (Z.of_nat (length p) - 1) = last p NUL.
Proof.
  intros Hp. unfold char_at.
  destruct (Z.ltb_spec (Z.of_nat (length p) - 1) 0) as [H|H].
  - destruct p; [contradiction | cbn [length] in H; lia].
  - replace (Z.to_nat (Z.of_nat (length p) - 1)) with (length p - 1)%nat by lia.
    destruct (exists_last Hp) as [q [a ->]].
    rewrite last_last, length_app. cbn [length].
    replace (length q + 1 - 1)%nat with (length q) by lia.
    rewrite app_nth2, Nat.sub_diag by lia. reflexivity.
Qed.

(** C5: for a C string [p], [sae_pk_valid_password] answers true exactly
    when [p] has at least 9 characters, every character at an index
    [i > 0] with [i mod 5 = 4] is ['-'], every character at another index
    belongs to the base-32 alphabet, and the last character is not
    ['-']. *)
Theorem sae_pk_valid_password_iff (p : list char) :
  ~ In NUL p ->
  sae_pk_valid_password p = true <->
  (9 <= Z.of_nat (length p)
   /\ (forall (i : nat) (c : char),
          nth_error p i = Some c ->
          if (0 <? i)%nat && (i mod 5 =? 4)%nat then c = "-"%char
          else In c sae_pk_base32_table)
   /\ last p NUL <> "-"%char).
Proof.
  intros Hn. unfold sae_pk_valid_password.
  rewrite (os_strlen_no_nul p Hn).
  assert (Hpos : forall (i : nat) (c : char),
             position_ok (0 + Z.of_nat i) c <->
             (if (0 <? i)%nat && (i mod 5 =? 4)%nat then c = "-"%char
              else In c sae_pk_base32_table)).
  { intros i c. unfold position_ok. rewrite Z.add_0_l.
    replace (negb (Z.of_nat i =? 0)) with (0 <? i)%nat
      by (destruct (Nat.ltb_spec 0 i), (Z.eqb_spec (Z.of_nat i) 0);
          cbn; lia || reflexivity).
    replace (Z.of_nat i mod 5 =? 4) with (i mod 5 =? 4)%nat.
    - reflexivity.
    - change 5 with (Z.of_nat 5). rewrite <- Nat2Z.inj_mod.
      destruct (Nat.eqb_spec (i mod 5) 4), (Z.eqb_spec (Z.of_nat (i mod 5)) 4);
        lia || reflexivity. }
  destruct (Z.ltb_spec (Z.of_nat (length p)) 9) as [Hlen|Hlen].
  - split; [discriminate | intros [H _]; lia].
  - assert (Hne : p <> []) by (intros ->; cbn in Hlen; lia).
    destruct (valid_password_loop_spec p 0 Hn) as [[He Hall]|[He [i [c [Hi Hc]]]]];
      rewrite He.
    + rewrite Z.add_0_l.
      destruct (Z.eqb_spec (Z.of_nat (length p)) 0) as [H0|_]; [lia|].
      rewrite (char_at_last p Hne).
      destruct (Ascii.eqb_spec (last p NUL) "-"%char) as [Hl|Hl]; cbn [negb].
      * split; [discriminate | intros [_ [_ H]]; contradiction].
      * split; [|reflexivity]. intros _. split; [exact Hlen|]. split; [|exact Hl].
        intros i c Hi. apply Hpos. apply Hall. exact Hi.
    + split; [discriminate|]. intros [_ [Hall _]]. exfalso. apply Hc.
      apply Hpos. apply Hall. exact Hi.
Qed.

(** A nine-character password in groups of four satisfies the hypothesis
    and both sides of C5. *)
Lemma sae_pk_valid_password_iff_witness :
  ~ In NUL (list_ascii_of_string "abcd-efgh") /\
  (sae_pk_valid_password (list_ascii_of_string "abcd-efgh") = true <->
   (9 <= Z.of_nat (length (list_ascii_of_string "abcd-efgh"))
    /\ (forall (i : nat) (c : char),
           nth_error (list_ascii_of_string "abcd-efgh") i = Some c ->
           if (0 <? i)%nat && (i mod 5 =? 4)%nat then c = "-"%char
           else In c sae_pk_base32_table)
    /\ last (list_ascii_of_string "abcd-efgh") NUL <> "-"%char)).
Proof.
  assert (H : ~ In NUL (list_ascii_of_string "abcd-efgh")).
  { cbv [list_ascii_of_string In]. intros H.
    repeat (destruct H as [H|H]; [discriminate H|]). exact H. }
  split; [exact H|].
  apply (sae_pk_valid_password_iff (list_ascii_of_string "abcd-efgh") H).
Defined.

(** C6 (as the code evaluates the four literals of scenario 1): all four
    are rejected; the first and the third carry an alphabet character at
    index 4, where the code demands ['-']. *)
Theorem sae_pk_valid_password_scenario :
  sae_pk_valid_password (list_ascii_of_string "abcde-fghij-klmno") = false
  /\ sae_pk_valid_password (list_ascii_of_string "abcde-fghij-") = false
  /\ sae_pk_valid_password (list_ascii_of_string "abcdefghi") = false
  /\ sae_pk_valid_password (list_ascii_of_string "abcd") = false.
Proof. repeat split; vm_compute; reflexivity. Qed.

(** C6, the claim as written fails on its first literal. *)
Lemma sae_pk_valid_password_scenario_counterexample :
  ~ (sae_pk_valid_password (list_ascii_of_string "abcde-fghij-klmno") = true
     /\ sae_pk_valid_password (list_ascii_of_string "abcde-fghij-") = false
     /\ sae_pk_valid_password (list_ascii_of_string "abcdefghi") = true
     /\ sae_pk_valid_password (list_ascii_of_string "abcd") = false).
Proof. intros [H _]. vm_compute in H. discriminate H. Qed.

(** The same alphabet characters in groups of four are accepted. *)
Example sae_pk_valid_password_groups_of_four :
  sae_pk_valid_password (list_ascii_of_string "abcd-efgh-ijkl") = true
  /\ sae_pk_valid_password (list_ascii_of_string "abcd-efgh") = true.
Proof. split; vm_compute; reflexivity. Qed.
(** ** Bit arithmetic *)

Lemma land_shiftl_low (x y k : Z) :
  0 <= k -> 0 <= y < 2 ^ k -> Z.land (Z.shiftl x k) y = 0.
Proof.
  intros Hk Hy. apply Z.bits_inj'. intros n Hn.
  rewrite Z.land_spec, Z.bits_0.
  destruct (Z.ltb_spec n k) as [Hlt|Hge].
  - rewrite Z.shiftl_spec_low by exact Hlt. reflexivity.
  - replace (Z.testbit y n) with false; [apply andb_false_r|].
    symmetry. destruct (Z.eq_dec y 0) as [->|Hy0]; [apply Z.bits_0|].
    apply Z.bits_above_log2; [lia|].
    apply Z.lt_le_trans with k; [|exact Hge].
    apply Z.log2_lt_pow2; lia.
Qed.

Lemma lor_shiftl_add (x y k : Z) :
  0 <= k -> 0 <= y < 2 ^ k ->
  Z.lor (Z.shiftl x k) y = x * 2 ^ k + y.
Proof.
  intros Hk Hy.
  rewrite <- Z.shiftl_mul_pow2 by exact Hk.
  pose proof (land_shiftl_low x y k Hk Hy) as H0.
  rewrite <- Z.lxor_lor by exact H0.
  symmetry. apply Z.add_nocarry_lxor. exact H0.
Qed.

Lemma land_ones_mod (x k : Z) : 0 <= k -> Z.land x (2 ^ k - 1) = x mod 2 ^ k.
Proof.
  intros Hk. rewrite <- Z.land_ones by exact Hk.
  rewrite Z.ones_equiv, Z.sub_1_r. reflexivity.
Qed.

Lemma u64_small (x : Z) : 0 <= x < 2 ^ 64 -> u64 x = x.
Proof. intros H. unfold u64. apply Z.mod_small. exact H. Qed.

Lemma size_t_small (x : Z) : 0 <= x < 2 ^ 64 -> size_t x = x.
Proof. intros H. unfold size_t. apply Z.mod_small. exact H. Qed.
(** ** The decoding table *)

Lemma valid_char_cases (c : char) :
  valid_char c = is_alphabet c || (c =? "=")%char.
Proof.
  destruct c as [[] [] [] [] [] [] [] []]; vm_compute; reflexivity.
Qed.

Lemma is_alphabet_In (c : char) :
  is_alphabet c = true <-> In c sae_pk_base32_table.
Proof.
  unfold is_alphabet. rewrite existsb_exists. split.
  - intros [x [Hx He]]. apply Ascii.eqb_eq in He. subst x. exact Hx.
  - intros H. exists c. split; [exact H | apply Ascii.eqb_refl].
Qed.

Lemma dtable_digit (d : Z) :
  0 <= d < 32 ->
  let c := char_at sae_pk_base32_table d in
  dtable_at c = byte.of_Z d /\ (c =? "=")%char = false
  /\ (c =? NUL)%char = false /\ valid_char c = true.
Proof.
  intros Hd.
  assert (Hall :
    forallb (fun d : Z =>
               let c := char_at sae_pk_base32_table d in
               Byte.eqb (dtable_at c) (byte.of_Z d)
               && negb (c =? "=")%char && negb (c =? NUL)%char
               && valid_char c) (upto 32) = true)
    by (vm_compute; reflexivity).
  rewrite forallb_forall in Hall. specialize (Hall d).
  cbv zeta in Hall |- *.
  rewrite !andb_true_iff, !negb_true_iff in Hall.
  destruct Hall as [[[H1 H2] H3] H4].
  - unfold upto. apply in_map_iff. exists (Z.to_nat d). split; [lia|].
    apply in_seq. lia.
  - repeat split; try assumption. apply Byte.byte_dec_bl. exact H1.
Qed.
(** ** The decoder as a function of the characters it examines *)

Lemma decode_loop_chars (src : list char) (len : Z) (idxs : list Z)
      (block count pad : Z) (out : list u8) :
  decode_loop src len idxs block count pad out =
  decode_chars (map (decode_val src len) idxs) block count pad out.
Proof.
  revert block count pad out.
  induction idxs as [|i rest IH]; intros block count pad out; [reflexivity|].
  cbn [decode_loop map decode_chars]. unfold decode_val at 1 2 3 4.
  rewrite !IH. reflexivity.
Qed.

Lemma map_nth_seq {A : Type} (l : list A) (d : A) (f : nat -> A) :
  (forall i, (i < length l)%nat -> f i = nth i l d) ->
  map f (seq 0 (length l)) = l.
Proof.
  revert f. induction l as [|a l IH]; intros f Hf; [reflexivity|].
  cbn [length seq map]. rewrite (Hf 0%nat) by (cbn; lia). cbn [nth]. f_equal.
  rewrite <- seq_shift, map_map. apply IH.
  intros i Hi. rewrite (Hf (S i)) by (cbn; lia). reflexivity.
Qed.

Lemma map_char_at (src : list char) :
  map (char_at src) (upto (Z.of_nat (length src))) = src.
Proof.
  unfold upto. rewrite Nat2Z.id, map_map.
  apply map_nth_seq with (d := NUL). intros i Hi. unfold char_at.
  destruct (Z.ltb_spec (Z.of_nat i) 0); [lia|]. rewrite Nat2Z.id. reflexivity.
Qed.

Lemma map_decode_val (src : list char) (e : Z) :
  0 <= e ->
  map (decode_val src (Z.of_nat (length src)))
      (upto (Z.of_nat (length src) + e))
  = src ++ repeat "="%char (Z.to_nat e).
Proof.
  intros He. unfold upto.
  replace (Z.to_nat (Z.of_nat (length src) + e))
    with (length src + Z.to_nat e)%nat by lia.
  rewrite seq_app, !map_app, !map_map. f_equal.
  - apply map_nth_seq with (d := NUL). intros i Hi. unfold decode_val, char_at.
    destruct (Z.geb_spec (Z.of_nat i) (Z.of_nat (length src))); [lia|].
    destruct (Z.ltb_spec (Z.of_nat i) 0); [lia|]. rewrite Nat2Z.id. reflexivity.
  - transitivity (map (fun _ : nat => "="%char)
                       (seq (0 + length src) (Z.to_nat e))).
    + apply map_ext_in. intros i Hi. apply in_seq in Hi. unfold decode_val.
      destruct (Z.geb_spec (Z.of_nat i) (Z.of_nat (length src)));
        [reflexivity|lia].
    + rewrite map_const, length_seq. reflexivity.
Qed.

Lemma decode_count_filter (src : list char) :
  decode_count src (Z.of_nat (length src))
  = Z.of_nat (length (filter valid_char src)).
Proof.
  unfold decode_count.
  assert (H : forall (idxs : list Z) (a : Z),
             fold_left
               (fun (count i : Z) =>
                  if negb (byte.unsigned (dtable_at (char_at src i)) =? 0x80)
                  then count + 1 else count) idxs a
             = a + Z.of_nat (length (filter valid_char (map (char_at src) idxs)))).
  { induction idxs as [|i rest IH]; intros a; cbn [fold_left map filter].
    - cbn. lia.
    - rewrite IH. unfold valid_char at 2.
      destruct (negb (byte.unsigned (dtable_at (char_at src i)) =? 0x80));
        cbn [length]; lia. }
  rewrite H, map_char_at. lia.
Qed.

(** ** Inputs without alphabet characters *)

Lemma decode_chars_padding_only (vals : list char) (c : Z) :
  (forall x, In x vals -> valid_char x = true -> x = "="%char) ->
  0 <= c < 8 ->
  8 <= c + Z.of_nat (length (filter valid_char vals)) ->
  decode_chars vals 0 c c [] = [].
Proof.
  revert c. induction vals as [|x vals IH]; intros c Hall Hc Hlen.
  - cbn in Hlen. lia.
  - cbn [decode_chars]. cbn [filter] in Hlen.
    pose proof (Hall x (or_introl eq_refl)) as Hx.
    assert (E' : valid_char x = negb (byte.unsigned (dtable_at x) =? 0x80))
      by reflexivity.
    assert (Hrest : forall y, In y vals -> valid_char y = true -> y = "="%char)
      by (intros y Hy; apply Hall; right; exact Hy).
    destruct (byte.unsigned (dtable_at x) =? 0x80) eqn:E;
      cbn [negb] in E'; rewrite E' in Hlen, Hx.
    + apply IH; assumption.
    + rewrite (Hx eq_refl). cbn [length] in Hlen.
      change (dtable_at "="%char) with (byte.of_Z 0).
      change ("=" =? "=")%char with true. cbv iota.
      change (Z.lor (u64 (Z.shiftl 0 5)) (byte.unsigned (byte.of_Z 0))) with 0.
      destruct (Z.eqb_spec (c + 1) 8) as [H8|H8].
      * rewrite H8. reflexivity.
      * apply IH; [exact Hrest | lia | lia].
Qed.

Lemma no_alphabet_valid (src : list char) :
  (forall c, In c src -> ~ In c sae_pk_base32_table) ->
  forall x, In x src -> valid_char x = true -> x = "="%char.
Proof.
  intros Hno x Hx Hv. rewrite valid_char_cases in Hv.
  apply orb_true_iff in Hv. destruct Hv as [Hv|Hv].
  - apply is_alphabet_In in Hv. exfalso. exact (Hno x Hx Hv).
  - apply Ascii.eqb_eq. exact Hv.
Qed.

Lemma filter_valid_repeat_pad (n : nat) :
  filter valid_char (repeat "="%char n) = repeat "="%char n.
Proof. induction n as [|n IH]; [reflexivity|]. cbn [repeat filter].
  change (valid_char "="%char) with true. cbv iota. f_equal. exact IH.
Qed.

(** C7 (as the code behaves): an input without alphabet characters makes
    [sae_pk_base32_decode] return NULL when it holds no ['='] either; when
    it holds at least one ['='] the result is a non-NULL buffer of length
    0. *)
Theorem sae_pk_base32_decode_no_alphabet (src : list char) :
  (forall c, In c src -> ~ In c sae_pk_base32_table) ->
  (~ In "="%char src ->
   sae_pk_base32_decode src (Z.of_nat (length src)) = None)
  /\ (In "="%char src ->
      sae_pk_base32_decode src (Z.of_nat (length src)) = Some []).
Proof.
  intros Hno. pose proof (no_alphabet_valid src Hno) as Hv.
  unfold sae_pk_base32_decode. rewrite decode_count_filter. split.
  - intros Hne.
    destruct (filter valid_char src) as [|x l] eqn:E; [reflexivity|].
    exfalso. apply Hne.
    assert (Hx : In x (filter valid_char src)) by (rewrite E; left; reflexivity).
    apply filter_In in Hx. destruct Hx as [Hx Hvx].
    rewrite <- (Hv x Hx Hvx). exact Hx.
  - intros Hin.
    assert (Hk : (0 < length (filter valid_char src))%nat).
    { assert (Hin' : In "="%char (filter valid_char src))
        by (apply filter_In; split; [exact Hin | reflexivity]).
      destruct (filter valid_char src); [destruct Hin' | cbn; lia]. }
    set (k := Z.of_nat (length (filter valid_char src))) in *.
    destruct (Z.eqb_spec k 0) as [H0|_]; [lia|].
    f_equal. rewrite decode_loop_chars, map_decode_val
      by (apply Z.mod_pos_bound; lia).
    apply decode_chars_padding_only.
    + intros x Hx Hvx. apply in_app_or in Hx. destruct Hx as [Hx|Hx].
      * exact (Hv x Hx Hvx).
      * apply repeat_spec in Hx. exact Hx.
    + lia.
    + rewrite filter_app, length_app, filter_valid_repeat_pad, repeat_length.
      rewrite Nat2Z.inj_add, Z2Nat.id by (apply Z.mod_pos_bound; lia).
      fold k. rewrite Z.add_0_l.
      assert (0 < k) by lia.
      pose proof (Z.mod_pos_bound k 8 eq_refl) as Hm.
      destruct (Z.eq_dec (k mod 8) 0) as [Hz|Hz].
      * rewrite Hz. change ((8 - 0) mod 8) with 0.
        pose proof (Z.div_mod k 8 ltac:(lia)). lia.
      * rewrite (Z.mod_small (8 - k mod 8) 8) by lia.
        pose proof (Z.mod_le k 8 ltac:(lia) ltac:(lia)). lia.
Qed.

(** The hypothesis of the amended C7 holds of the input ["-="]. *)
Lemma sae_pk_base32_decode_no_alphabet_witness :
  (forall c, In c (list_ascii_of_string "-=") -> ~ In c sae_pk_base32_table)
  /\ ((~ In "="%char (list_ascii_of_string "-=") ->
       sae_pk_base32_decode (list_ascii_of_string "-=")
         (Z.of_nat (length (list_ascii_of_string "-="))) = None)
      /\ (In "="%char (list_ascii_of_string "-=") ->
          sae_pk_base32_decode (list_ascii_of_string "-=")
            (Z.of_nat (length (list_ascii_of_string "-="))) = Some [])).
Proof.
  assert (H : forall c, In c (list_ascii_of_string "-=") ->
                        ~ In c sae_pk_base32_table).
  { intros c Hc Ht. apply is_alphabet_In in Ht.
    cbv [list_ascii_of_string In] in Hc.
    destruct Hc as [<-|[<-|[]]]; vm_compute in Ht; discriminate Ht. }
  split; [exact H|].
  apply (sae_pk_base32_decode_no_alphabet (list_ascii_of_string "-=") H).
Defined.

(** C7, the claim as written: the input ["="] holds no alphabet character
    and is decoded to a non-NULL result. *)
Lemma sae_pk_base32_decode_no_alphabet_counterexample :
  ~ (forall src : list char,
        (forall c, In c src -> ~ In c sae_pk_base32_table) ->
        sae_pk_base32_decode src (Z.of_nat (length src)) = None).
Proof.
  intros H. specialize (H ["="%char]).
  assert (Hno : forall c, In c ["="%char] -> ~ In c sae_pk_base32_table).
  { intros c [<-|[]] Ht. apply is_alphabet_In in Ht.
    vm_compute in Ht. discriminate Ht. }
  specialize (H Hno). vm_compute in H. discriminate H.
Qed.

(** ** Decoding the characters of whole blocks *)

Lemma decode_chars_skip (vals : list char) (block count : Z) (out : list u8) :
  (forall x, In x vals -> (x =? "=")%char = false) ->
  decode_chars vals block count 0 out
  = decode_chars (filter valid_char vals) block count 0 out.
Proof.
  revert block count out.
  induction vals as [|x vals IH]; intros block count out Hne; [reflexivity|].
  assert (Hx : (x =? "=")%char = false) by (apply Hne; left; reflexivity).
  assert (Hrest : forall y, In y vals -> (y =? "=")%char = false)
    by (intros y Hy; apply Hne; right; exact Hy).
  cbn [filter]. unfold valid_char at 1.
  destruct (byte.unsigned (dtable_at x) =? 0x80) eqn:E; cbn [negb].
  - cbn [decode_chars]. rewrite E. apply IH. exact Hrest.
  - cbn [decode_chars]. rewrite E, Hx. change (0 =? 0) with true. cbn [negb].
    rewrite !IH by exact Hrest. reflexivity.
Qed.

Lemma decode_chars_digit (d : Z) (rest : list char) (block count : Z)
      (out : list u8) :
  0 <= d < 32 -> 0 <= block < 2 ^ 35 ->
  decode_chars (char_at sae_pk_base32_table d :: rest) block count 0 out
  = if count + 1 =? 8
    then decode_chars rest 0 0 0 (out ++ bytes5 (block * 32 + d))
    else decode_chars rest (block * 32 + d) (count + 1) 0 out.
Proof.
  intros Hd Hb. destruct (dtable_digit d Hd) as [Ht [He [_ _]]].
  cbn [decode_chars]. rewrite Ht, He, byte.unsigned_of_Z.
  unfold byte.wrap. rewrite (Z.mod_small d) by lia.
  destruct (Z.eqb_spec d 0x80) as [H|_]; [lia|].
  rewrite Z.shiftl_mul_pow2 by lia.
  rewrite u64_small by lia.
  replace (Z.lor (block * 2 ^ 5) d) with (block * 32 + d).
  - change (0 =? 0) with true. cbn [negb]. reflexivity.
  - rewrite <- Z.shiftl_mul_pow2 by lia.
    rewrite lor_shiftl_add by lia. reflexivity.
Qed.

Lemma digit_val (v j : Z) :
  0 <= j ->
  byte.unsigned (byte.of_Z (Z.land (Z.shiftr v (j * 5)) 0x1f))
  = (v / 2 ^ (j * 5)) mod 32.
Proof.
  intros Hj. rewrite byte.unsigned_of_Z. unfold byte.wrap.
  change 0x1f with (2 ^ 5 - 1). rewrite land_ones_mod by lia.
  rewrite Z.shiftr_div_pow2 by lia. change (2 ^ 5) with 32.
  apply Z.mod_small.
  pose proof (Z.mod_pos_bound (v / 2 ^ (j * 5)) 32 eq_refl). lia.
Qed.

Lemma digits_recompose (v : Z) :
  0 <= v < 2 ^ 40 ->
  (((((((0 * 32 + (v / 2 ^ 35) mod 32) * 32 + (v / 2 ^ 30) mod 32) * 32
       + (v / 2 ^ 25) mod 32) * 32 + (v / 2 ^ 20) mod 32) * 32
     + (v / 2 ^ 15) mod 32) * 32 + (v / 2 ^ 10) mod 32) * 32
   + (v / 2 ^ 5) mod 32) * 32 + (v / 2 ^ 0) mod 32 = v.
Proof.
  intros Hv.
  change (2 ^ 35) with 34359738368. change (2 ^ 30) with 1073741824.
  change (2 ^ 25) with 33554432. change (2 ^ 20) with 1048576.
  change (2 ^ 15) with 32768. change (2 ^ 10) with 1024.
  change (2 ^ 5) with 32. change (2 ^ 0) with 1.
  change (2 ^ 40) with 1099511627776 in Hv.
  Z.div_mod_to_equations. lia.
Qed.

Lemma decode_chars_block (v : Z) (rest : list char) (out : list u8) :
  0 <= v < 2 ^ 40 ->
  decode_chars (chars8 v ++ rest) 0 0 0 out
  = decode_chars rest 0 0 0 (out ++ bytes5 v).
Proof.
  intros Hv. unfold chars8. cbn [map app].
  rewrite !digit_val by lia.
  change (7 * 5) with 35. change (6 * 5) with 30. change (5 * 5) with 25.
  change (4 * 5) with 20. change (3 * 5) with 15. change (2 * 5) with 10.
  change (1 * 5) with 5. change (0 * 5) with 0.
  rewrite <- (digits_recompose v Hv) at 9.
  pose proof (Z.mod_pos_bound (v / 2 ^ 35) 32 eq_refl).
  pose proof (Z.mod_pos_bound (v / 2 ^ 30) 32 eq_refl).
  pose proof (Z.mod_pos_bound (v / 2 ^ 25) 32 eq_refl).
  pose proof (Z.mod_pos_bound (v / 2 ^ 20) 32 eq_refl).
  pose proof (Z.mod_pos_bound (v / 2 ^ 15) 32 eq_refl).
  pose proof (Z.mod_pos_bound (v / 2 ^ 10) 32 eq_refl).
  pose proof (Z.mod_pos_bound (v / 2 ^ 5) 32 eq_refl).
  pose proof (Z.mod_pos_bound (v / 2 ^ 0) 32 eq_refl).
  generalize dependent ((v / 2 ^ 35) mod 32). intros d7 ?.
  generalize dependent ((v / 2 ^ 30) mod 32). intros d6 ?.
  generalize dependent ((v / 2 ^ 25) mod 32). intros d5 ?.
  generalize dependent ((v / 2 ^ 20) mod 32). intros d4 ?.
  generalize dependent ((v / 2 ^ 15) mod 32). intros d3 ?.
  generalize dependent ((v / 2 ^ 10) mod 32). intros d2 ?.
  generalize dependent ((v / 2 ^ 5) mod 32). intros d1 ?.
  generalize dependent ((v / 2 ^ 0) mod 32). intros d0 ?.
  change (2 ^ 35) with 34359738368 in *.
  do 8 (rewrite decode_chars_digit by lia;
        match goal with
        | |- context [?a + 1 =? 8] =>
            let b := eval cbv in (a + 1 =? 8) in
            let c := eval cbv in (a + 1) in
            change (a + 1 =? 8) with b; change (a + 1) with c
        end; cbv iota).
  reflexivity.
Qed.

Lemma decode_chars_blocks (vs : list Z) (out : list u8) :
  Forall (fun v => 0 <= v < 2 ^ 40) vs ->
  decode_chars (concat (map chars8 vs)) 0 0 0 out
  = out ++ concat (map bytes5 vs).
Proof.
  intros Hvs. revert out.
  induction Hvs as [|v vs Hv _ IH]; intros out; cbn [map concat decode_chars].
  - rewrite app_nil_r. reflexivity.
  - rewrite decode_chars_block by exact Hv. rewrite IH, app_assoc. reflexivity.
Qed.

Lemma length_concat_chars8 (vs : list Z) :
  length (concat (map chars8 vs)) = (8 * length vs)%nat.
Proof.
  induction vs as [|v vs IH]; [reflexivity|].
  cbn [map concat]. rewrite length_app, IH. cbn [chars8 map length]. lia.
Qed.

(** ** The encoder on whole blocks *)

Lemma add_char_spec (out : list char) (idx : u8) (bits : Z) :
  0 <= byte.unsigned idx < 32 -> 5 <= bits -> clean out ->
  snd (add_char out idx bits) = bits - 5
  /\ filter valid_char (fst (add_char out idx bits))
     = filter valid_char out ++ [char_at sae_pk_base32_table (byte.unsigned idx)]
  /\ clean (fst (add_char out idx bits)).
Proof.
  intros Hd Hb Hc. unfold add_char.
  destruct (Z.eqb_spec bits 0) as [H0|_]; [lia|].
  destruct (dtable_digit (byte.unsigned idx) Hd) as [_ [He [Hn Hv]]].
  cbn [fst snd]. split; [|split].
  - destruct (Z.gtb_spec bits 5); lia.
  - destruct (Z.of_nat (length out) mod 5 =? 4);
      rewrite ?filter_app; cbn [filter]; rewrite Hv;
      change (valid_char "-"%char) with false; cbv iota;
      rewrite ?app_nil_r; reflexivity.
  - intros x Hx.
    assert (Hx' : In x out \/ x = "-"%char
                  \/ x = char_at sae_pk_base32_table (byte.unsigned idx)).
    { destruct (Z.of_nat (length out) mod 5 =? 4);
        repeat (apply in_app_or in Hx; destruct Hx as [Hx|Hx]);
        cbn [In] in Hx; intuition auto. }
    destruct Hx' as [Hx'|[->| ->]]; [apply Hc; exact Hx' | split; reflexivity |].
    split; assumption.
Qed.

Lemma digit_range (v j : Z) :
  0 <= j ->
  0 <= byte.unsigned (byte.of_Z (Z.land (Z.shiftr v (j * 5)) 0x1f)) < 32.
Proof.
  intros Hj. rewrite digit_val by exact Hj. apply Z.mod_pos_bound. reflexivity.
Qed.

Lemma encode_block_spec (v : Z) (out : list char) (nleft : Z) :
  40 <= nleft -> clean out ->
  snd (encode_block v out nleft) = nleft - 40
  /\ filter valid_char (fst (encode_block v out nleft))
     = filter valid_char out ++ chars8 v
  /\ clean (fst (encode_block v out nleft)).
Proof.
  intros Hl Hc. unfold encode_block, chars8. cbn [fold_left map fst snd].
  repeat
    match goal with
    | |- context [add_char ?o (byte.of_Z (Z.land (Z.shiftr v (?j * 5)) 0x1f)) ?b] =>
        lazymatch o with
        | context [add_char] => fail
        | _ => idtac
        end;
        let Hs := fresh "Hs" in
        let Hf := fresh "Hf" in
        let Hk := fresh "Hk" in
        destruct (add_char_spec o
                    (byte.of_Z (Z.land (Z.shiftr v (j * 5)) 0x1f)) b
                    (digit_range v j ltac:(lia)) ltac:(lia) ltac:(assumption))
          as [Hs [Hf Hk]];
        generalize dependent
          (add_char o (byte.of_Z (Z.land (Z.shiftr v (j * 5)) 0x1f)) b);
        intros [? ?]; cbn [fst snd]; intros; subst
    end.
  split; [lia|]. split; [|assumption].
  repeat match goal with H : filter valid_char _ = _ |- _ => rewrite H; clear H end.
  rewrite <- !app_assoc. reflexivity.
Qed.

Lemma encode_step_val (src : list u8) (len : Z) (block : Z)
      (out : list char) (nleft : Z) (i : Z) :
  0 <= i < len -> 0 <= block < 2 ^ 32 ->
  encode_step src len (block, out, nleft) i
  = let v := block * 256 + byte.unsigned (nth (Z.to_nat i) src Byte.x00) in
    if i mod 5 =? 4
    then (0, fst (encode_block v out nleft), snd (encode_block v out nleft))
    else (v, out, nleft).
Proof.
  intros Hi Hb. unfold encode_step.
  destruct (Z.ltb_spec i len) as [_|H]; [|lia].
  pose proof (byte.unsigned_range (nth (Z.to_nat i) src Byte.x00)) as Hr.
  rewrite Z.shiftl_mul_pow2 by lia. rewrite u64_small by lia.
  rewrite <- Z.shiftl_mul_pow2 by lia. rewrite lor_shiftl_add by lia.
  change (2 ^ 8) with 256. cbv zeta.
  destruct (i mod 5 =? 4); [|reflexivity].
  destruct (encode_block _ out nleft). reflexivity.
Qed.

Lemma mod5_offset (j t : Z) : 0 <= t < 5 -> (5 * j + t) mod 5 = t.
Proof.
  intros Ht. rewrite Z.add_comm, Z.mul_comm, Z.mod_add by lia.
  apply Z.mod_small. exact Ht.
Qed.

Lemma block_at_range (src : list u8) (i : nat) : 0 <= block_at src i < 2 ^ 40.
Proof.
  unfold block_at.
  pose proof (byte.unsigned_range (nth i src Byte.x00)).
  pose proof (byte.unsigned_range (nth (i + 1) src Byte.x00)).
  pose proof (byte.unsigned_range (nth (i + 2) src Byte.x00)).
  pose proof (byte.unsigned_range (nth (i + 3) src Byte.x00)).
  pose proof (byte.unsigned_range (nth (i + 4) src Byte.x00)).
  lia.
Qed.

(** The five iterations that consume the block starting at index [5 * j] *)
Lemma encode_five_steps (src : list u8) (j : nat) (out : list char)
      (nleft : Z) :
  (5 * j + 5 <= length src)%nat ->
  fold_left (encode_step src (Z.of_nat (length src)))
            (map Z.of_nat (seq (5 * j) 5)) (0, out, nleft)
  = (0, fst (encode_block (block_at src (5 * j)) out nleft),
        snd (encode_block (block_at src (5 * j)) out nleft)).
Proof.
  intros Hlen.
  pose proof (byte.unsigned_range (nth (5 * j) src Byte.x00)).
  pose proof (byte.unsigned_range (nth (5 * j + 1) src Byte.x00)).
  pose proof (byte.unsigned_range (nth (5 * j + 2) src Byte.x00)).
  pose proof (byte.unsigned_range (nth (5 * j + 3) src Byte.x00)).
  pose proof (byte.unsigned_range (nth (5 * j + 4) src Byte.x00)).
  replace (map Z.of_nat (seq (5 * j) 5))
    with [5 * Z.of_nat j + 0; 5 * Z.of_nat j + 1; 5 * Z.of_nat j + 2;
          5 * Z.of_nat j + 3; 5 * Z.of_nat j + 4]
    by (cbn [seq map]; repeat f_equal; lia).
  cbn [fold_left].
  rewrite encode_step_val by lia. cbv zeta. rewrite mod5_offset by lia.
  change (0 =? 4) with false. cbv iota.
  replace (Z.to_nat (5 * Z.of_nat j + 0)) with (5 * j)%nat by lia.
  rewrite encode_step_val by lia. cbv zeta. rewrite mod5_offset by lia.
  change (1 =? 4) with false. cbv iota.
  replace (Z.to_nat (5 * Z.of_nat j + 1)) with (5 * j + 1)%nat by lia.
  rewrite encode_step_val by lia. cbv zeta. rewrite mod5_offset by lia.
  change (2 =? 4) with false. cbv iota.
  replace (Z.to_nat (5 * Z.of_nat j + 2)) with (5 * j + 2)%nat by lia.
  rewrite encode_step_val by lia. cbv zeta. rewrite mod5_offset by lia.
  change (3 =? 4) with false. cbv iota.
  replace (Z.to_nat (5 * Z.of_nat j + 3)) with (5 * j + 3)%nat by lia.
  rewrite encode_step_val by lia. cbv zeta. rewrite mod5_offset by lia.
  change (4 =? 4) with true. cbv iota.
  replace (Z.to_nat (5 * Z.of_nat j + 4)) with (5 * j + 4)%nat by lia.
  match goal with
  | |- context [encode_block ?v out nleft] =>
      replace v with (block_at src (5 * j)) by (unfold block_at; lia)
  end.
  reflexivity.
Qed.

Lemma encode_blocks (src : list u8) (k j : nat) (out : list char)
      (nleft : Z) :
  (5 * (j + k) <= length src)%nat -> 40 * Z.of_nat k <= nleft -> clean out ->
  exists out',
    fold_left (encode_step src (Z.of_nat (length src)))
              (map Z.of_nat (seq (5 * j) (5 * k))) (0, out, nleft)
    = (0, out', nleft - 40 * Z.of_nat k)
    /\ filter valid_char out'
       = filter valid_char out
         ++ concat (map (fun t => chars8 (block_at src (5 * t))) (seq j k))
    /\ clean out'.
Proof.
  revert j out nleft. induction k as [|k IH]; intros j out nleft Hlen Hl Hc.
  - exists out. replace (5 * 0)%nat with 0%nat by lia.
    cbn [seq map fold_left concat]. rewrite app_nil_r.
    split; [f_equal; lia | split; [reflexivity | exact Hc]].
  - replace (5 * S k)%nat with (5 + 5 * k)%nat by lia.
    rewrite seq_app, map_app, fold_left_app.
    rewrite encode_five_steps by lia.
    destruct (encode_block_spec (block_at src (5 * j)) out nleft
                ltac:(lia) Hc) as [Hs [Hf Hk]].
    replace (5 * j + 5)%nat with (5 * S j)%nat by lia.
    destruct (IH (S j) (fst (encode_block (block_at src (5 * j)) out nleft))
                 (snd (encode_block (block_at src (5 * j)) out nleft))
                 ltac:(lia) ltac:(lia) Hk) as [out' [He [Hf' Hk']]].
    exists out'. split; [|split].
    + rewrite He. f_equal. lia.
    + rewrite Hf', Hf. cbn [seq map concat]. rewrite <- app_assoc. reflexivity.
    + exact Hk'.
Qed.

(** ** Octets of a block and the chunks of an array *)

Lemma of_Z_mod_eq (z : Z) (b : u8) :
  z mod 256 = byte.unsigned b -> byte.of_Z z = b.
Proof.
  intros H. apply byte.unsigned_inj. rewrite byte.unsigned_of_Z.
  unfold byte.wrap. exact H.
Qed.

Lemma bytes5_block_at (src : list u8) (i : nat) :
  bytes5 (block_at src i)
  = [nth i src Byte.x00; nth (i + 1) src Byte.x00; nth (i + 2) src Byte.x00;
     nth (i + 3) src Byte.x00; nth (i + 4) src Byte.x00].
Proof.
  unfold bytes5, block_at.
  pose proof (byte.unsigned_range (nth i src Byte.x00)).
  pose proof (byte.unsigned_range (nth (i + 1) src Byte.x00)).
  pose proof (byte.unsigned_range (nth (i + 2) src Byte.x00)).
  pose proof (byte.unsigned_range (nth (i + 3) src Byte.x00)).
  pose proof (byte.unsigned_range (nth (i + 4) src Byte.x00)).
  change 0xff with (2 ^ 8 - 1). rewrite !land_ones_mod by lia.
  rewrite !Z.shiftr_div_pow2 by lia.
  change (2 ^ 8) with 256 in *. change (2 ^ 32) with 4294967296.
  change (2 ^ 24) with 16777216. change (2 ^ 16) with 65536.
  rewrite (of_Z_mod_eq _ (nth i src Byte.x00))
    by (Z.div_mod_to_equations; lia).
  rewrite (of_Z_mod_eq _ (nth (i + 1) src Byte.x00))
    by (Z.div_mod_to_equations; lia).
  rewrite (of_Z_mod_eq _ (nth (i + 2) src Byte.x00))
    by (Z.div_mod_to_equations; lia).
  rewrite (of_Z_mod_eq _ (nth (i + 3) src Byte.x00))
    by (Z.div_mod_to_equations; lia).
  rewrite (of_Z_mod_eq _ (nth (i + 4) src Byte.x00))
    by (Z.div_mod_to_equations; lia).
  reflexivity.
Qed.

Lemma concat_chunks5 (k : nat) (src : list u8) :
  length src = (5 * k)%nat ->
  concat (map (fun t => [nth (5 * t) src Byte.x00;
                         nth (5 * t + 1) src Byte.x00;
                         nth (5 * t + 2) src Byte.x00;
                         nth (5 * t + 3) src Byte.x00;
                         nth (5 * t + 4) src Byte.x00]) (seq 0 k)) = src.
Proof.
  revert src. induction k as [|k IH]; intros src Hlen.
  - destruct src; [reflexivity | discriminate Hlen].
  - destruct src as [|a0 [|a1 [|a2 [|a3 [|a4 rest]]]]];
      try (cbn [length] in Hlen; lia).
    cbn [seq map]. rewrite <- seq_shift, map_map. cbn [concat].
    change (5 * 0)%nat with 0%nat. cbn [Nat.add nth app]. do 5 f_equal.
    etransitivity; [|apply (IH rest); cbn [length] in Hlen; lia].
    f_equal. apply map_ext. intros t.
    replace (5 * S t)%nat with (S (S (S (S (S (5 * t)))))) by lia.
    cbn [Nat.add nth]. reflexivity.
Qed.

Lemma clean_no_nul (s : list char) : clean s -> ~ In NUL s.
Proof.
  intros Hc Hin. destruct (Hc NUL Hin) as [_ H]. discriminate H.
Qed.

(** C3: for every octet string [b] whose length is a positive multiple
    of 5 (and whose bit length [8 * |b|] is a [size_t]),
    [sae_pk_base32_encode(b, 8 * |b|)] returns a string and
    [sae_pk_base32_decode] of that string returns exactly [b], hence an
    output of length [|b|]. *)
Theorem sae_pk_base32_round_trip (b : list u8) :
  (0 < length b)%nat -> (length b mod 5 = 0)%nat ->
  8 * Z.of_nat (length b) <= SIZE_MAX ->
  exists s : list char,
    sae_pk_base32_encode b (8 * Z.of_nat (length b)) = Some s
    /\ sae_pk_base32_decode s (os_strlen s) = Some b
    /\ forall out, sae_pk_base32_decode s (os_strlen s) = Some out ->
                   length out = length b.
Proof.
  intros Hpos Hmod Hmax.
  assert (Hk : exists k : nat, length b = (5 * k)%nat /\ (0 < k)%nat).
  { exists (length b / 5)%nat.
    pose proof (Nat.div_mod_eq (length b) 5). lia. }
  destruct Hk as [k [Hlen Hk]].
  unfold SIZE_MAX in Hmax. change (2 ^ 64 - 1) with 18446744073709551615 in Hmax.
  assert (Hclean0 : clean []) by (intros x []).
  destruct (encode_blocks b k 0 [] (8 * Z.of_nat (length b))
              ltac:(lia) ltac:(lia) Hclean0) as [s [He [Hf Hc]]].
  exists s.
  assert (Henc : sae_pk_base32_encode b (8 * Z.of_nat (length b)) = Some s).
  { unfold sae_pk_base32_encode.
    rewrite size_t_small
      by (change (2 ^ 64) with 18446744073709551616; lia).
    replace ((8 * Z.of_nat (length b) + 7) / 8) with (Z.of_nat (length b))
      by (Z.div_mod_to_equations; lia).
    destruct (Z.eqb_spec (Z.of_nat (length b)) 0) as [H0|_]; [lia|].
    change (SIZE_MAX / 8) with 2305843009213693951.
    destruct (Z.geb_spec (Z.of_nat (length b)) 2305843009213693951) as [Hge|_];
      [lia|].
    cbn [orb].
    replace ((5 - Z.of_nat (length b) mod 5) mod 5) with 0
      by (rewrite Hlen, Nat2Z.inj_mul, Z.mul_comm, Z.mod_mul by lia;
          reflexivity).
    rewrite Z.add_0_r. unfold upto. rewrite Nat2Z.id.
    rewrite Hlen at 2. change (5 * 0)%nat with 0%nat in He.
    rewrite He. reflexivity. }
  assert (Hdec : sae_pk_base32_decode s (os_strlen s) = Some b).
  { rewrite (os_strlen_no_nul s (clean_no_nul s Hc)).
    unfold sae_pk_base32_decode. rewrite decode_count_filter.
    cbn [filter app] in Hf. rewrite Hf.
    rewrite <- (map_map (fun t => block_at b (5 * t)) chars8).
    rewrite length_concat_chars8, length_map, length_seq.
    destruct (Z.eqb_spec (Z.of_nat (8 * k)) 0) as [H0|_]; [lia|].
    replace ((8 - Z.of_nat (8 * k) mod 8) mod 8) with 0
      by (rewrite Nat2Z.inj_mul, Z.mul_comm, Z.mod_mul by lia; reflexivity).
    f_equal. rewrite decode_loop_chars, map_decode_val by lia.
    change (Z.to_nat 0) with 0%nat. cbn [repeat]. rewrite app_nil_r.
    rewrite decode_chars_skip by (intros x Hx; apply (Hc x Hx)).
    rewrite Hf.
    rewrite <- (map_map (fun t => block_at b (5 * t)) chars8).
    rewrite decode_chars_blocks
      by (apply Forall_forall; intros v Hv; apply in_map_iff in Hv;
          destruct Hv as [t [<- _]]; apply block_at_range).
    cbn [app]. rewrite map_map.
    erewrite map_ext by (intros t; apply bytes5_block_at).
    apply concat_chunks5. exact Hlen. }
  split; [exact Henc|]. split; [exact Hdec|].
  intros out Hout. rewrite Hdec in Hout. injection Hout as <-. reflexivity.
Qed.

(** The hypotheses of C3 hold of the five octets 01 23 45 67 89. *)
Lemma sae_pk_base32_round_trip_witness :
  (0 < length [Byte.x01; Byte.x23; Byte.x45; Byte.x67; Byte.x89])%nat
  /\ (length [Byte.x01; Byte.x23; Byte.x45; Byte.x67; Byte.x89] mod 5 = 0)%nat
  /\ 8 * Z.of_nat (length [Byte.x01; Byte.x23; Byte.x45; Byte.x67; Byte.x89])
     <= SIZE_MAX
  /\ exists s : list char,
      sae_pk_base32_encode [Byte.x01; Byte.x23; Byte.x45; Byte.x67; Byte.x89]
        (8 * Z.of_nat (length [Byte.x01; Byte.x23; Byte.x45; Byte.x67; Byte.x89]))
      = Some s
      /\ sae_pk_base32_decode s (os_strlen s)
         = Some [Byte.x01; Byte.x23; Byte.x45; Byte.x67; Byte.x89]
      /\ forall out, sae_pk_base32_decode s (os_strlen s) = Some out ->
                     length out
                     = length [Byte.x01; Byte.x23; Byte.x45; Byte.x67; Byte.x89].
Proof.
  assert (H1 : (0 < length [Byte.x01; Byte.x23; Byte.x45; Byte.x67; Byte.x89])%nat)
    by (cbn; lia).
  assert (H2 : (length [Byte.x01; Byte.x23; Byte.x45; Byte.x67; Byte.x89] mod 5
                = 0)%nat) by reflexivity.
  assert (H3 : 8 * Z.of_nat (length [Byte.x01; Byte.x23; Byte.x45; Byte.x67;
                                     Byte.x89]) <= SIZE_MAX)
    by (vm_compute; discriminate).
  split; [exact H1|]. split; [exact H2|]. split; [exact H3|].
  exact (sae_pk_base32_round_trip
           [Byte.x01; Byte.x23; Byte.x45; Byte.x67; Byte.x89] H1 H2 H3).
Defined.

(** Scenario 2 of the spec: five zero octets are written ["aaaa-aaaa"] and
    read back. *)
Example sae_pk_base32_zero_block :
  sae_pk_base32_encode (repeat Byte.x00 5) 40
  = Some (list_ascii_of_string "aaaa-aaaa")
  /\ sae_pk_base32_decode (list_ascii_of_string "aaaa-aaaa") 9
     = Some (repeat Byte.x00 5).
Proof. split; vm_compute; reflexivity. Qed.

(** ** The encoder stays inside its buffer *)

Lemma add_char_inv (len_bits : Z) (out : list char) (idx : u8) (bits : Z) :
  encode_inv len_bits out bits ->
  encode_inv len_bits (fst (add_char out idx bits)) (snd (add_char out idx bits)).
Proof.
  intros [n [Hn [Hlen [Hb [Hpaid Hlt]]]]]. unfold add_char.
  destruct (Z.eqb_spec bits 0) as [H0|H0]; cbn [fst snd].
  - exists n. repeat split; assumption || lia.
  - exists (n + 1). specialize (Hpaid ltac:(lia)).
    split; [lia|]. split; [|split; [|split]].
    + unfold text_len in *.
      destruct (Z.eqb_spec (n + 1) 0) as [H|_]; [lia|].
      replace (n + 1 - 1) with n by lia.
      destruct (Z.eqb_spec n 0) as [->|Hn0].
      * rewrite Hlen. cbn. destruct out; [reflexivity | discriminate Hlen].
      * rewrite Hlen.
        destruct (Z.eqb_spec ((n + (n - 1) / 4) mod 5) 4) as [H4|H4];
          rewrite !length_app; cbn [length]; rewrite ?Nat2Z.inj_add, Hlen;
          change (Z.of_nat 1) with 1;
          Z.div_mod_to_equations; lia.
    + destruct (Z.gtb_spec bits 5); lia.
    + destruct (Z.gtb_spec bits 5); lia.
    + lia.
Qed.

Lemma encode_block_inv (len_bits v : Z) (out : list char) (nleft : Z) :
  encode_inv len_bits out nleft ->
  encode_inv len_bits (fst (encode_block v out nleft))
             (snd (encode_block v out nleft)).
Proof.
  intros H. unfold encode_block. cbn [fold_left fst snd].
  repeat apply add_char_inv. exact H.
Qed.

Lemma encode_step_inv (len_bits : Z) (src : list u8) (len : Z)
      (st : Z * list char * Z) (i : Z) :
  encode_inv len_bits (snd (fst st)) (snd st) ->
  encode_inv len_bits (snd (fst (encode_step src len st i)))
             (snd (encode_step src len st i)).
Proof.
  destruct st as [[block out] nleft]. cbn [fst snd]. intros H.
  unfold encode_step. destruct (i mod 5 =? 4); [|exact H].
  match goal with
  | |- context [encode_block ?v out nleft] =>
      pose proof (encode_block_inv len_bits v out nleft H) as Hb;
      destruct (encode_block v out nleft)
  end.
  exact Hb.
Qed.

Lemma encode_fold_inv (len_bits : Z) (src : list u8) (len : Z)
      (idxs : list Z) (st : Z * list char * Z) :
  encode_inv len_bits (snd (fst st)) (snd st) ->
  encode_inv len_bits
             (snd (fst (fold_left (encode_step src len) idxs st)))
             (snd (fold_left (encode_step src len) idxs st)).
Proof.
  revert st. induction idxs as [|i idxs IH]; intros st H; [exact H|].
  cbn [fold_left]. apply IH. apply encode_step_inv. exact H.
Qed.

(** Whatever [sae_pk_base32_encode] returns fits the [olen] characters it
    allocated, so the zero behind the text is the terminator. *)
Lemma sae_pk_base32_encode_fits (src : list u8) (len_bits : Z) (s : list char) :
  0 <= len_bits <= SIZE_MAX ->
  sae_pk_base32_encode src len_bits = Some s ->
  Z.of_nat (length s) <= encode_olen (size_t (len_bits + 7) / 8).
Proof.
  intros Hrange. unfold sae_pk_base32_encode.
  unfold SIZE_MAX in Hrange.
  change (2 ^ 64 - 1) with 18446744073709551615 in Hrange.
  set (len := size_t (len_bits + 7) / 8).
  destruct (Z.eqb_spec len 0) as [H0|H0]; [discriminate|].
  destruct (len >=? SIZE_MAX / 8); [discriminate|]. cbn [orb].
  assert (Hlen : len = (len_bits + 7) / 8 /\ 0 < len_bits).
  { unfold len in *. unfold size_t in *.
    change (2 ^ 64) with 18446744073709551616 in *.
    destruct (Z_lt_le_dec (len_bits + 7) 18446744073709551616) as [Hs|Hs].
    - rewrite Z.mod_small in * by lia. split; [reflexivity|].
      Z.div_mod_to_equations. lia.
    - exfalso. apply H0. Z.div_mod_to_equations. lia. }
  destruct Hlen as [Hlen Hpos].
  pose proof (encode_fold_inv len_bits src len
                (upto (len + (5 - len mod 5) mod 5)) (0, [], len_bits)) as Hinv.
  destruct (fold_left (encode_step src len)
                      (upto (len + (5 - len mod 5) mod 5)) (0, [], len_bits))
    as [[block out] nleft].
  cbn [fst snd] in Hinv. intros Hs. injection Hs as <-.
  destruct Hinv as [n [Hn [Hl [_ [_ Hlt]]]]].
  - exists 0. cbn. repeat split; lia.
  - rewrite Hl. unfold encode_olen, text_len.
    destruct (Z.eqb_spec n 0); Z.div_mod_to_equations; lia.
Qed.

(** ** Runs *)

Lemma bind_ret {A B : Type} (a : A) (k : A -> run B) : bind (ret a) k = k a.
Proof. unfold bind, ret. destruct (k a). reflexivity. Qed.

Lemma snd_bind {A B : Type} (m : run A) (k : A -> run B) :
  snd (bind m k)
  = match snd m with
    | Ret a => snd (k a)
    | Overflow => Overflow
    | Fault => Fault
    end.
Proof.
  destruct m as [t [a| |]]; cbn [bind snd]; [|reflexivity|reflexivity].
  destruct (k a). reflexivity.
Qed.

(** ** Octet buffers *)

Lemma wpabuf_len_app (b : wpabuf) (d : list u8) :
  wpabuf_len (wpabuf_app b d) = wpabuf_len b + Z.of_nat (length d).
Proof. unfold wpabuf_len, wpabuf_app. cbn. rewrite length_app. lia. Qed.

Lemma wpabuf_len_alloc (n : Z) : wpabuf_len (wpabuf_alloc n) = 0.
Proof. reflexivity. Qed.

Lemma wpabuf_size_app (b : wpabuf) (d : list u8) :
  wpabuf_size (wpabuf_app b d) = wpabuf_size b.
Proof. reflexivity. Qed.

Lemma wpabuf_size_alloc (n : Z) : wpabuf_size (wpabuf_alloc n) = n.
Proof. reflexivity. Qed.

Lemma wpabuf_app_app (b : wpabuf) (d1 d2 : list u8) :
  wpabuf_app (wpabuf_app b d1) d2 = wpabuf_app b (d1 ++ d2).
Proof. unfold wpabuf_app. cbn. rewrite app_assoc. reflexivity. Qed.

Lemma wpabuf_put_eq (b : wpabuf) (len : Z) :
  wpabuf_put b len
  = if wpabuf_len b + len >? wpabuf_size b then overflow
    else ret (wpabuf_len b, wpabuf_app b (repeat Byte.x00 (Z.to_nat len))).
Proof. reflexivity. Qed.

(** A store that replaces [old] between [pre] and [post] *)
Lemma wpabuf_store_at (sz : Z) (pre old post d : list u8) :
  length d = length old ->
  wpabuf_store {| wpabuf_size := sz; wpabuf_data := pre ++ old ++ post |}
               (Z.of_nat (length pre)) d
  = ret {| wpabuf_size := sz; wpabuf_data := pre ++ d ++ post |}.
Proof.
  intros Hd. unfold wpabuf_store, wpabuf_len. cbn [wpabuf_data wpabuf_size].
  destruct (Z.ltb_spec (Z.of_nat (length pre)) 0) as [H|_]; [lia|].
  destruct (Z.gtb_spec (Z.of_nat (length pre) + Z.of_nat (length d))
                       (Z.of_nat (length (pre ++ old ++ post)))) as [H|_];
    [rewrite !length_app in H; lia|].
  cbn [orb]. unfold ret. do 3 f_equal. rewrite Nat2Z.id.
  rewrite firstn_app, firstn_all, Nat.sub_diag, firstn_0, app_nil_r.
  f_equal. f_equal.
  rewrite skipn_app, skipn_all2 by lia. cbn [app].
  replace (length pre + length d - length pre)%nat with (length old) by lia.
  rewrite skipn_app, skipn_all, Nat.sub_diag. reflexivity.
Qed.

Lemma wpabuf_store_reserved (b : wpabuf) (d : list u8) :
  wpabuf_store (wpabuf_app b (repeat Byte.x00 (length d))) (wpabuf_len b) d
  = ret (wpabuf_app b d).
Proof.
  unfold wpabuf_app, wpabuf_len.
  rewrite <- (app_nil_r (repeat Byte.x00 (length d))).
  rewrite wpabuf_store_at by (rewrite repeat_length; reflexivity).
  rewrite app_nil_r. reflexivity.
Qed.

Lemma wpabuf_store_first_half (b : wpabuf) (x : list u8) :
  wpabuf_store (wpabuf_app b (repeat Byte.x00 (length x + length x)))
               (wpabuf_len b) x
  = ret (wpabuf_app b (x ++ repeat Byte.x00 (length x))).
Proof.
  unfold wpabuf_app, wpabuf_len. rewrite repeat_app.
  apply wpabuf_store_at. rewrite repeat_length. reflexivity.
Qed.

Lemma wpabuf_store_second_half (b : wpabuf) (x y : list u8) (n : Z) :
  Z.of_nat (length x) = n -> length y = length x ->
  wpabuf_store (wpabuf_app b (x ++ repeat Byte.x00 (length x)))
               (wpabuf_len b + n) y
  = ret (wpabuf_app b (x ++ y)).
Proof.
  intros <- Hy. unfold wpabuf_app, wpabuf_len. cbn [wpabuf_size wpabuf_data].
  rewrite <- Nat2Z.inj_add, <- length_app.
  rewrite <- (app_nil_r (repeat Byte.x00 (length x))).
  rewrite !app_assoc. rewrite <- (app_assoc _ (repeat Byte.x00 (length x)) []).
  rewrite wpabuf_store_at by (rewrite repeat_length; exact Hy).
  rewrite app_nil_r. reflexivity.
Qed.

Lemma wpabuf_put_data_eq (b : wpabuf) (d : list u8) :
  wpabuf_put_data b d
  = if wpabuf_len b + Z.of_nat (length d) >? wpabuf_size b then overflow
    else ret (wpabuf_app b d).
Proof.
  unfold wpabuf_put_data. rewrite wpabuf_put_eq.
  destruct (wpabuf_len b + Z.of_nat (length d) >? wpabuf_size b);
    [reflexivity|].
  rewrite bind_ret, Nat2Z.id. apply wpabuf_store_reserved.
Qed.

Lemma snd_bind_put {B : Type} (b : wpabuf) (n : Z)
      (k : Z * wpabuf -> run B) :
  wpabuf_len b + n <= wpabuf_size b ->
  snd (bind (wpabuf_put b n) k)
  = snd (k (wpabuf_len b, wpabuf_app b (repeat Byte.x00 (Z.to_nat n)))).
Proof.
  intros H. rewrite snd_bind, wpabuf_put_eq.
  destruct (Z.gtb_spec (wpabuf_len b + n) (wpabuf_size b)); [lia | reflexivity].
Qed.

Lemma snd_bind_put_data {B : Type} (b : wpabuf) (d : list u8)
      (k : wpabuf -> run B) :
  wpabuf_len b + Z.of_nat (length d) <= wpabuf_size b ->
  snd (bind (wpabuf_put_data b d) k) = snd (k (wpabuf_app b d)).
Proof.
  intros H. rewrite snd_bind, wpabuf_put_data_eq.
  destruct (Z.gtb_spec (wpabuf_len b + Z.of_nat (length d)) (wpabuf_size b));
    [lia | reflexivity].
Qed.

Lemma snd_bind_put_data_overflow {B : Type} (b : wpabuf) (d : list u8)
      (k : wpabuf -> run B) :
  wpabuf_size b < wpabuf_len b + Z.of_nat (length d) ->
  snd (bind (wpabuf_put_data b d) k) = Overflow.
Proof.
  intros H. rewrite snd_bind, wpabuf_put_data_eq.
  destruct (Z.gtb_spec (wpabuf_len b + Z.of_nat (length d)) (wpabuf_size b));
    [reflexivity | lia].
Qed.

Ltac buffer_lengths :=
  rewrite ?wpabuf_len_app, ?wpabuf_len_alloc, ?wpabuf_size_app,
    ?wpabuf_size_alloc, ?length_app, ?Nat2Z.inj_add, ?length_firstn;
  cbn [length]; unfold AES_BLOCK_SIZE, ETH_ALEN in *.

Section Transcript.

Context {X : Externals}.

(** The layout of the data to be signed: with [ap = true] the own values
    stand in the AP positions. *)
Lemma sae_pk_sig_data_layout
      (sae : sae_data) (t : sae_temporary_data) (e : crypto_ec)
      (m0 pubkey0 x_own y_own x_peer y_peer s_own s_peer : list u8) :
  tmp sae = Some t -> ec t = Some e ->
  crypto_ec_point_to_bin e (own_commit_element_ecc t) = Some (x_own, y_own) ->
  crypto_ec_point_to_bin e (peer_commit_element_ecc t)
  = Some (x_peer, y_peer) ->
  crypto_bignum_to_bin (own_commit_scalar t) (prime_len t) (prime_len t)
  = Some s_own ->
  crypto_bignum_to_bin (peer_commit_scalar sae) (prime_len t) (prime_len t)
  = Some s_peer ->
  Z.of_nat (length x_own) = prime_len t ->
  Z.of_nat (length y_own) = prime_len t ->
  Z.of_nat (length x_peer) = prime_len t ->
  Z.of_nat (length y_peer) = prime_len t ->
  Z.of_nat (length s_own) = prime_len t ->
  Z.of_nat (length s_peer) = prime_len t ->
  sig_data_octets sae true m0 pubkey0
  = Some (x_own ++ y_own ++ x_peer ++ y_peer ++ s_own ++ s_peer
          ++ m0 ++ pubkey0
          ++ firstn (Z.to_nat ETH_ALEN) (own_addr t)
          ++ firstn (Z.to_nat ETH_ALEN) (peer_addr t)).
Proof.
  intros Ht Hec Hpo Hpp Hso Hsp Lxo Lyo Lxp Lyp Lso Lsp.
  unfold sig_data_octets, sae_pk_sig_data. rewrite Ht. cbn [deref]. rewrite bind_ret.
  cbv iota.
  pose proof (Nat2Z.is_nonneg (length x_own)) as Hpl.
  pose proof (length_firstn (Z.to_nat ETH_ALEN) (own_addr t)) as Lo.
  pose proof (length_firstn (Z.to_nat ETH_ALEN) (peer_addr t)) as Lp.
  change (Z.to_nat ETH_ALEN) with 6%nat in *.
  rewrite snd_bind_put by (buffer_lengths; lia).
  rewrite Hec. cbn [deref]. rewrite bind_ret.
  unfold call at 1. rewrite Hpo, snd_bind. cbn [snd].
  replace (Z.to_nat (2 * prime_len t)) with (length x_own + length x_own)%nat
    by lia.
  rewrite snd_bind, wpabuf_store_first_half. cbn [snd ret].
  rewrite snd_bind, (wpabuf_store_second_half _ x_own y_own (prime_len t))
    by lia.
  cbn [snd ret].
  rewrite snd_bind_put by (buffer_lengths; lia).
  unfold call at 1. rewrite Hpp, snd_bind. cbn [snd].
  replace (Z.to_nat (2 * prime_len t)) with (length x_peer + length x_peer)%nat
    by lia.
  rewrite snd_bind, wpabuf_store_first_half. cbn [snd ret].
  rewrite snd_bind, (wpabuf_store_second_half _ x_peer y_peer (prime_len t))
    by lia.
  cbn [snd ret].
  rewrite snd_bind_put by (buffer_lengths; lia).
  unfold call at 1. rewrite Hso, snd_bind. cbn [snd].
  replace (Z.to_nat (prime_len t)) with (length s_own) by lia.
  rewrite snd_bind, wpabuf_store_reserved. cbn [snd ret].
  rewrite snd_bind_put by (buffer_lengths; lia).
  unfold call at 1. rewrite Hsp, snd_bind. cbn [snd].
  replace (Z.to_nat (prime_len t)) with (length s_peer) by lia.
  rewrite snd_bind, wpabuf_store_reserved. cbn [snd ret].
  do 4 (rewrite snd_bind_put_data by (buffer_lengths; lia)).
  cbn [snd ret option_map wpabuf_head wpabuf_data wpabuf_app wpabuf_alloc app].
  rewrite <- !app_assoc. reflexivity.
Qed.

End Transcript.
Section SAE_PK_Properties.

Context {X : Externals}.

(** ** The transcript *)

(** C8: when the AP's session and the STA's session agree -- same curve
    and prime length, each side's own element, scalar and address equal
    to the other side's peer element, scalar and address -- the run of
    [sae_pk_hash_sig_data] with [ap = true] on the AP equals the run with
    [ap = false] on the STA, for the same [m], [pubkey] and [hash_len]:
    the buffer handed to the hash is the same, and so is the hash.  When
    the points and scalars convert to [prime_len] octets each, both
    buffers hold
    eleAP || eleSTA || scaAP || scaSTA || M || K_AP || AP-BSSID || STA-MAC. *)
Theorem sae_pk_hash_sig_data_symmetric
        (ap_side sta_side : sae_data) (ta ts : sae_temporary_data)
        (hash_len : Z) (m0 pubkey0 : list u8) :
  tmp ap_side = Some ta -> tmp sta_side = Some ts ->
  ec ta = ec ts -> prime_len ta = prime_len ts ->
  own_commit_element_ecc ta = peer_commit_element_ecc ts ->
  peer_commit_element_ecc ta = own_commit_element_ecc ts ->
  own_commit_scalar ta = peer_commit_scalar sta_side ->
  peer_commit_scalar ap_side = own_commit_scalar ts ->
  own_addr ta = peer_addr ts -> peer_addr ta = own_addr ts ->
  sae_pk_sig_data ap_side true m0 pubkey0
  = sae_pk_sig_data sta_side false m0 pubkey0
  /\ sae_pk_hash_sig_data ap_side hash_len true m0 pubkey0
     = sae_pk_hash_sig_data sta_side hash_len false m0 pubkey0
  /\ forall (e : crypto_ec)
            (x_ap y_ap x_sta y_sta sca_ap sca_sta : list u8),
      ec ta = Some e ->
      crypto_ec_point_to_bin e (own_commit_element_ecc ta)
      = Some (x_ap, y_ap) ->
      crypto_ec_point_to_bin e (peer_commit_element_ecc ta)
      = Some (x_sta, y_sta) ->
      crypto_bignum_to_bin (own_commit_scalar ta) (prime_len ta) (prime_len ta)
      = Some sca_ap ->
      crypto_bignum_to_bin (peer_commit_scalar ap_side)
                           (prime_len ta) (prime_len ta)
      = Some sca_sta ->
      Z.of_nat (length x_ap) = prime_len ta ->
      Z.of_nat (length y_ap) = prime_len ta ->
      Z.of_nat (length x_sta) = prime_len ta ->
      Z.of_nat (length y_sta) = prime_len ta ->
      Z.of_nat (length sca_ap) = prime_len ta ->
      Z.of_nat (length sca_sta) = prime_len ta ->
      sig_data_octets ap_side true m0 pubkey0
      = Some (x_ap ++ y_ap ++ x_sta ++ y_sta ++ sca_ap ++ sca_sta
              ++ m0 ++ pubkey0
              ++ firstn (Z.to_nat ETH_ALEN) (own_addr ta)
              ++ firstn (Z.to_nat ETH_ALEN) (peer_addr ta))
      /\ sig_data_octets sta_side false m0 pubkey0
         = sig_data_octets ap_side true m0 pubkey0.
Proof.
  intros Ha Hs Hec Hpl Hoe Hpe Hos Hps Hoa Hpa.
  assert (Hd : sae_pk_sig_data ap_side true m0 pubkey0
               = sae_pk_sig_data sta_side false m0 pubkey0).
  { unfold sae_pk_sig_data. rewrite Ha, Hs. cbn [deref]. rewrite !bind_ret.
    cbv iota. rewrite Hec, Hpl, Hoe, Hpe, Hos, Hps, Hoa, Hpa. reflexivity. }
  split; [exact Hd|]. split.
  - unfold sae_pk_hash_sig_data. rewrite Hd. reflexivity.
  - intros e x_ap y_ap x_sta y_sta sca_ap sca_sta He H1 H2 H3 H4
           L1 L2 L3 L4 L5 L6.
    split.
    + apply (sae_pk_sig_data_layout ap_side ta e); assumption.
    + unfold sig_data_octets. rewrite Hd. reflexivity.
Qed.

(** ** The confirm element builder *)

(** C9: with a key container bound and a KEK length other than 32, 48 and
    64, [sae_write_confirm_pk] returns -1, makes no call into the crypto
    library and leaves the caller's buffer as it was. *)
Theorem sae_write_confirm_pk_no_kek
        (sae : sae_data) (t : sae_temporary_data) (pk0 : sae_pk)
        (buf : wpabuf) :
  tmp sae = Some t -> ap_pk t = Some pk0 ->
  kek_len t <> 32 -> kek_len t <> 48 -> kek_len t <> 64 ->
  sae_write_confirm_pk sae buf = ([], Ret (-1, buf)).
Proof.
  intros Ht Hpk H32 H48 H64. unfold sae_write_confirm_pk. rewrite Ht, Hpk.
  destruct (Z.eqb_spec (kek_len t) 32); [contradiction|].
  destruct (Z.eqb_spec (kek_len t) 48); [contradiction|].
  destruct (Z.eqb_spec (kek_len t) 64); [contradiction|].
  reflexivity.
Qed.

(** C10: without a key container, [sae_write_confirm_pk] returns 0, makes
    no call into the crypto library and leaves the caller's buffer as it
    was. *)
Theorem sae_write_confirm_pk_no_container
        (sae : sae_data) (t : sae_temporary_data) (buf : wpabuf) :
  tmp sae = Some t -> ap_pk t = None ->
  sae_write_confirm_pk sae buf = ([], Ret (0, buf)).
Proof.
  intros Ht Hpk. unfold sae_write_confirm_pk. rewrite Ht, Hpk. reflexivity.
Qed.

(** ** The pre-checks of the parser *)

(** C2 (as the code behaves): when SAE-PK is not enabled for the session
    or a key container is bound, [sae_check_confirm_pk] returns 0 without
    looking at the elements; otherwise a KEK length other than 32, 48 and
    64 or a session without an ECC group makes it return -1.  No call
    into the crypto library is made in either case. *)
Theorem sae_check_confirm_pk_prechecks
        (sae : sae_data) (t : sae_temporary_data) (ies : list u8) :
  tmp sae = Some t ->
  (pk sae = false \/ ap_pk t <> None ->
   sae_check_confirm_pk sae ies = ([], Ret 0))
  /\ (pk sae = true -> ap_pk t = None ->
      (kek_len t <> 32 /\ kek_len t <> 48 /\ kek_len t <> 64) \/ ec t = None ->
      sae_check_confirm_pk sae ies = ([], Ret (-1))).
Proof.
  intros Ht. unfold sae_check_confirm_pk. rewrite Ht. split.
  - intros [Hpk|Hap].
    + rewrite Hpk. reflexivity.
    + destruct (ap_pk t); [|contradiction].
      rewrite orb_true_r. reflexivity.
  - intros Hpk Hap Hbad. rewrite Hpk, Hap. cbn [negb orb].
    destruct Hbad as [[H32 [H48 H64]]|Hec].
    + destruct (Z.eqb_spec (kek_len t) 32); [contradiction|].
      destruct (Z.eqb_spec (kek_len t) 48); [contradiction|].
      destruct (Z.eqb_spec (kek_len t) 64); [contradiction|].
      reflexivity.
    + rewrite Hec.
      destruct (negb (kek_len t =? 32) && negb (kek_len t =? 48)
                && negb (kek_len t =? 64)); reflexivity.
Qed.

End SAE_PK_Properties.

(** C8 on the stand-in: the AP side and the STA side that mirrors it
    serialize the same 216 octets. *)
Lemma sae_pk_hash_sig_data_symmetric_witness :
  sae_pk_hash_sig_data (test_session 32 (Some test_pk) true) 32 true
                       (repeat Byte.x00 16) (repeat Byte.x00 8)
  = sae_pk_hash_sig_data test_peer_session 32 false
                         (repeat Byte.x00 16) (repeat Byte.x00 8)
  /\ sig_data_octets (test_session 32 (Some test_pk) true) true
                     (repeat Byte.x00 16) (repeat Byte.x00 8)
     = Some (repeat Byte.x02 32 ++ repeat Byte.x03 32
             ++ repeat Byte.x04 32 ++ repeat Byte.x05 32
             ++ repeat Byte.x01 32 ++ repeat Byte.x06 32
             ++ repeat Byte.x00 16 ++ repeat Byte.x00 8
             ++ [Byte.x02; Byte.x00; Byte.x00; Byte.x00; Byte.x00; Byte.x01]
             ++ [Byte.x02; Byte.x00; Byte.x00; Byte.x00; Byte.x00; Byte.x02]).
Proof.
  pose proof (@sae_pk_hash_sig_data_symmetric test_externals
                (test_session 32 (Some test_pk) true) test_peer_session
                (test_tmp 32 (Some test_pk))
                (@Build_sae_temporary_data test_externals
                   (Some tt) 32
                   (repeat Byte.x06 32)
                   (repeat Byte.x04 32, repeat Byte.x05 32)
                   (repeat Byte.x02 32, repeat Byte.x03 32)
                   [Byte.x02; Byte.x00; Byte.x00; Byte.x00; Byte.x00; Byte.x02]
                   [Byte.x02; Byte.x00; Byte.x00; Byte.x00; Byte.x00; Byte.x01]
                   (repeat Byte.x00 64) 32
                   (Some (repeat Byte.x00 5)) 8
                   (repeat Byte.x00 32) 4
                   None)
                32 (repeat Byte.x00 16) (repeat Byte.x00 8)
                eq_refl eq_refl eq_refl eq_refl eq_refl eq_refl eq_refl
                eq_refl eq_refl eq_refl) as [_ [Hh Hl]].
  split; [exact Hh|].
  exact (proj1 (Hl tt (repeat Byte.x02 32) (repeat Byte.x03 32)
                   (repeat Byte.x04 32) (repeat Byte.x05 32)
                   (repeat Byte.x01 32) (repeat Byte.x06 32)
                   eq_refl eq_refl eq_refl eq_refl eq_refl
                   eq_refl eq_refl eq_refl eq_refl eq_refl eq_refl)).
Defined.

(** C9 on the stand-in with [kek_len = 24] (scenario 6 of the spec). *)
Lemma sae_write_confirm_pk_no_kek_witness :
  sae_write_confirm_pk (test_session 24 (Some test_pk) true) (wpabuf_alloc 100)
  = ([], Ret (-1, wpabuf_alloc 100)).
Proof.
  eapply (@sae_write_confirm_pk_no_kek test_externals);
    [reflexivity | reflexivity | discriminate | discriminate | discriminate].
Defined.

(** C10 on the stand-in. *)
Lemma sae_write_confirm_pk_no_container_witness :
  sae_write_confirm_pk (test_session 32 None true) (wpabuf_alloc 100)
  = ([], Ret (0, wpabuf_alloc 100)).
Proof.
  eapply (@sae_write_confirm_pk_no_container test_externals); reflexivity.
Defined.

(** The amended C2 on the stand-in, for a session with SAE-PK off and
    one with [kek_len = 24]. *)
Lemma sae_check_confirm_pk_prechecks_witness :
  sae_check_confirm_pk (test_session 32 None false) [] = ([], Ret 0)
  /\ sae_check_confirm_pk (test_session 24 None true) [] = ([], Ret (-1)).
Proof.
  split.
  - apply (proj1 (@sae_check_confirm_pk_prechecks test_externals
                    (test_session 32 None false) (test_tmp 32 None) []
                    eq_refl)).
    left. reflexivity.
  - apply (proj2 (@sae_check_confirm_pk_prechecks test_externals
                    (test_session 24 None true) (test_tmp 24 None) []
                    eq_refl)).
    + reflexivity.
    + reflexivity.
    + left. repeat split; discriminate.
Defined.

(** C2, the claim as written: a session for which SAE-PK is not enabled
    fails a pre-check, and the parser returns 0. *)
Lemma sae_check_confirm_pk_prechecks_counterexample :
  ~ (forall (X : Externals) (sae : sae_data) (t : sae_temporary_data)
            (ies : list u8),
        tmp sae = Some t ->
        pk sae = false \/ ap_pk t <> None
        \/ (kek_len t <> 32 /\ kek_len t <> 48 /\ kek_len t <> 64)
        \/ ec t = None ->
        snd (sae_check_confirm_pk sae ies) = Ret (-1)).
Proof.
  intros H.
  specialize (H test_externals (test_session 32 None false) _ []
                eq_refl (or_introl eq_refl)).
  vm_compute in H. discriminate H.
Qed.

Section Builder.

Context {X : Externals}.

(** C1, what the code does when the caller's buffer lacks room.  The
    session has a key container, a valid KEK length and an ECC group, and
    the transcript hash, the signature and the encryption succeed.  The
    tailroom of [buf] is smaller than the six header octets plus the
    inner container, while the test the code makes --
    [wpabuf_tailroom(elem) < extra + wpabuf_len(buf)], on the scratch
    buffer [elem] -- does not fire.  Then the function does not return:
    it runs into a [wpabuf_put] beyond the end of [buf]. *)
Theorem sae_write_confirm_pk_no_room
        (sae : sae_data) (t : sae_temporary_data) (pk0 : sae_pk)
        (buf : wpabuf) (tr : list event) (hash sig c : list u8) :
  tmp sae = Some t -> ap_pk t = Some pk0 ->
  kek_len t = 32 \/ kek_len t = 48 \/ kek_len t = 64 ->
  ec t <> None ->
  sae_pk_hash_sig_data sae (sae_group_2_hash_len (pk_group pk0)) true
                       (m pk0) (pubkey pk0) = (tr, Ret (Some hash)) ->
  crypto_ec_key_sign (key pk0)
    (firstn (Z.to_nat (sae_group_2_hash_len (pk_group pk0))) hash) = Some sig ->
  aes_siv_encrypt (firstn (Z.to_nat (kek_len t)) (kek t)) (m pk0) = Some c ->
  Z.of_nat (length c) = Z.of_nat (length (m pk0)) + AES_BLOCK_SIZE ->
  inner_len pk0 sig <= 1500 + Z.of_nat (length sig) ->
  wpabuf_tailroom buf < 6 + inner_len pk0 sig ->
  6 + wpabuf_len buf <= 1500 + Z.of_nat (length sig) - inner_len pk0 sig ->
  snd (sae_write_confirm_pk sae buf) = Overflow.
Proof.
  intros Ht Hpk Hkek Hec Hhash Hsig Henc Hc Hfit Hroom Htest.
  unfold inner_len in *. unfold wpabuf_tailroom in Hroom.
  unfold sae_write_confirm_pk. rewrite Ht, Hpk.
  replace (negb (kek_len t =? 32) && negb (kek_len t =? 48)
           && negb (kek_len t =? 64)) with false
    by (destruct Hkek as [-> | [-> | ->]]; reflexivity).
  destruct (ec t) as [e|]; [clear Hec | contradiction].
  rewrite Hhash. rewrite snd_bind. cbn [snd].
  unfold call. rewrite Hsig. rewrite snd_bind. cbn [snd].
  unfold wpabuf_put_u8, wpabuf_put_buf, wpabuf_put_be32, wpabuf_head.
  cbn [wpabuf_data].
  unfold wpabuf_len at 1. cbn [wpabuf_data].
  rewrite snd_bind_put_data by (buffer_lengths; lia).
  rewrite snd_bind, wpabuf_put_eq.
  match goal with
  | |- context [if ?cond then overflow else _] =>
      replace cond with false
        by (symmetry; rewrite Z.gtb_ltb; apply Z.ltb_ge; buffer_lengths; lia)
  end.
  cbn [snd ret]. rewrite Henc. rewrite snd_bind. cbn [snd].
  replace (Z.to_nat (Z.of_nat (length (m pk0)) + AES_BLOCK_SIZE))
    with (length c) by lia.
  rewrite snd_bind, wpabuf_store_reserved. cbn [snd ret].
  do 9 (rewrite snd_bind_put_data by (buffer_lengths; lia)).
  unfold wpabuf_tailroom.
  match goal with
  | |- context [if ?cond then _ else _] =>
      replace cond with false
        by (symmetry; apply Z.ltb_ge; buffer_lengths; lia)
  end.
  destruct (Z_lt_le_dec (wpabuf_size buf) (wpabuf_len buf + 1)) as [H1|H1];
    [apply snd_bind_put_data_overflow; buffer_lengths; lia|].
  rewrite snd_bind_put_data by (buffer_lengths; lia).
  destruct (Z_lt_le_dec (wpabuf_size buf) (wpabuf_len buf + 2)) as [H2|H2];
    [apply snd_bind_put_data_overflow; buffer_lengths; lia|].
  rewrite snd_bind_put_data by (buffer_lengths; lia).
  destruct (Z_lt_le_dec (wpabuf_size buf) (wpabuf_len buf + 6)) as [H3|H3];
    [apply snd_bind_put_data_overflow; buffer_lengths; lia|].
  rewrite snd_bind_put_data by (buffer_lengths; lia).
  apply snd_bind_put_data_overflow.
  cbn [wpabuf_data wpabuf_app wpabuf_alloc]. buffer_lengths. lia.
Qed.

End Builder.

(** C1 on the stand-in: a caller's buffer of ten octets cannot take the
    62 octets of the element, the test does not fire, and the run leaves
    the buffer. *)
Lemma sae_write_confirm_pk_no_room_witness :
  snd (sae_write_confirm_pk (test_session 32 (Some test_pk) true)
                            (wpabuf_alloc 10)) = Overflow.
Proof.
  eapply (@sae_write_confirm_pk_no_room test_externals
            (test_session 32 (Some test_pk) true)
            (test_tmp 32 (Some test_pk)) test_pk (wpabuf_alloc 10)
            _ (repeat Byte.x00 32) (repeat Byte.x00 8)
            (repeat Byte.x00 32)).
  - reflexivity.
  - reflexivity.
  - left. reflexivity.
  - discriminate.
  - vm_compute. reflexivity.
  - reflexivity.
  - reflexivity.
  - reflexivity.
  - vm_compute. discriminate.
  - vm_compute. reflexivity.
  - vm_compute. discriminate.
Defined.

(** ** Constant-time comparison *)

Lemma wrap_lor (x y : Z) :
  byte.wrap (Z.lor x y) = Z.lor (byte.wrap x) (byte.wrap y).
Proof.
  unfold byte.wrap. rewrite <- !Z.land_ones by lia.
  apply Z.land_lor_distr_l.
Qed.

Lemma land_lxor_distr (a b c : Z) :
  Z.land (Z.lxor a b) c = Z.lxor (Z.land a c) (Z.land b c).
Proof.
  apply Z.bits_inj'. intros n Hn.
  rewrite Z.land_spec, !Z.lxor_spec, !Z.land_spec.
  destruct (Z.testbit a n), (Z.testbit b n), (Z.testbit c n); reflexivity.
Qed.

Lemma memcmp_fold_zero (a b : list u8) (idxs : list Z) (r : Z) :
  0 <= r < 2 ^ 8 ->
  fold_left
    (fun (res i : Z) =>
       byte.wrap
         (Z.lor res
            (Z.lxor (byte.unsigned (nth (Z.to_nat i) a Byte.x00))
                    (byte.unsigned (nth (Z.to_nat i) b Byte.x00)))))
    idxs r = 0
  <-> r = 0 /\ forall i, In i idxs ->
                         nth (Z.to_nat i) a Byte.x00 = nth (Z.to_nat i) b Byte.x00.
Proof.
  revert r. induction idxs as [|i idxs IH]; intros r Hr; cbn [fold_left In].
  - split; [intros ->; split; [reflexivity | intros i []] | intros [-> _]; reflexivity].
  - rewrite IH by apply byte.wrap_range.
    rewrite wrap_lor.
    assert (Hx : byte.wrap
                   (Z.lxor (byte.unsigned (nth (Z.to_nat i) a Byte.x00))
                           (byte.unsigned (nth (Z.to_nat i) b Byte.x00)))
                 = 0
                 <-> nth (Z.to_nat i) a Byte.x00 = nth (Z.to_nat i) b Byte.x00).
    { pose proof (byte.unsigned_range (nth (Z.to_nat i) a Byte.x00)) as Ha.
      pose proof (byte.unsigned_range (nth (Z.to_nat i) b Byte.x00)) as Hb.
      unfold byte.wrap. rewrite <- Z.land_ones by lia.
      rewrite land_lxor_distr, !Z.land_ones by lia.
      rewrite !Z.mod_small by lia. rewrite Z.lxor_eq_0_iff.
      split; [apply byte.unsigned_inj | intros ->; reflexivity]. }
    rewrite Z.lor_eq_0_iff. unfold byte.wrap at 1.
    rewrite (Z.mod_small r) by exact Hr. rewrite Hx.
    split.
    + intros [[Hr0 Hi] Hall]. split; [exact Hr0|].
      intros j [<-|Hj]; [exact Hi | apply Hall; exact Hj].
    + intros [Hr0 Hall]. split; [split; [exact Hr0|]|].
      * apply Hall. left. reflexivity.
      * intros j Hj. apply Hall. right. exact Hj.
Qed.

Lemma nth_firstn_lt {A : Type} (l : list A) (n i : nat) (d : A) :
  (i < n)%nat -> nth i (firstn n l) d = nth i l d.
Proof.
  revert n i. induction l as [|x l IH]; intros n i Hi.
  - rewrite firstn_nil. reflexivity.
  - destruct n as [|n]; [lia|]. destruct i as [|i]; [reflexivity|].
    cbn [firstn nth]. apply IH. lia.
Qed.

Lemma firstn_eq_nth (a b : list u8) (n : nat) :
  (n <= length a)%nat -> (n <= length b)%nat ->
  (firstn n a = firstn n b
   <-> forall i, (i < n)%nat -> nth i a Byte.x00 = nth i b Byte.x00).
Proof.
  intros Ha Hb. split.
  - intros H i Hi.
    rewrite <- (nth_firstn_lt a n i) by exact Hi.
    rewrite <- (nth_firstn_lt b n i) by exact Hi.
    rewrite H. reflexivity.
  - intros H. apply nth_ext with (d := Byte.x00) (d' := Byte.x00).
    + rewrite !length_firstn. lia.
    + intros i Hi. rewrite length_firstn in Hi.
      rewrite !nth_firstn_lt by lia. apply H. lia.
Qed.

Lemma os_memcmp_const_spec (a b : list u8) (n : nat) :
  (n <= length a)%nat -> (n <= length b)%nat ->
  exists r, os_memcmp_const a b (Z.of_nat n) = ret r
            /\ (r = 0 <-> firstn n a = firstn n b).
Proof.
  intros Ha Hb. unfold os_memcmp_const.
  destruct (Z.gtb_spec (Z.of_nat n) (Z.of_nat (length a))) as [H|_]; [lia|].
  destruct (Z.gtb_spec (Z.of_nat n) (Z.of_nat (length b))) as [H|_]; [lia|].
  cbn [orb]. eexists. split; [reflexivity|].
  rewrite memcmp_fold_zero by lia.
  rewrite (firstn_eq_nth a b n Ha Hb). unfold upto. rewrite Nat2Z.id.
  split.
  - intros [_ H] i Hi. specialize (H (Z.of_nat i)).
    rewrite Nat2Z.id in H. apply H. apply in_map, in_seq. lia.
  - intros H. split; [reflexivity|]. intros i Hi.
    apply in_map_iff in Hi. destruct Hi as [j [<- Hj]]. apply in_seq in Hj.
    rewrite Nat2Z.id. apply H. lia.
Qed.

Lemma os_memcmp_const_fault (a b : list u8) (n : Z) :
  Z.of_nat (length a) < n \/ Z.of_nat (length b) < n ->
  os_memcmp_const a b n = fault.
Proof.
  intros H. unfold os_memcmp_const.
  destruct (Z.gtb_spec n (Z.of_nat (length a))),
           (Z.gtb_spec n (Z.of_nat (length b))); cbn [orb];
    reflexivity || lia.
Qed.

(** ** The expected fingerprint and the trimmed digest *)

Lemma fingerprint_shifted (pw0 : list u8) :
  map (fun i : Z =>
         let next :=
           if i + 1 <? Z.of_nat (length pw0)
           then byte.unsigned (nth (Z.to_nat (i + 1)) pw0 Byte.x00) else 0 in
         byte.of_Z
           (Z.lor (Z.shiftl (byte.unsigned (nth (Z.to_nat i) pw0 Byte.x00)) 2)
                  (Z.shiftr next 6)))
      (upto (Z.of_nat (length pw0)))
  = spec_shifted pw0.
Proof.
  unfold upto. rewrite Nat2Z.id, map_map.
  induction pw0 as [|a rest IH]; [reflexivity|].
  cbn [length seq map spec_shifted]. f_equal.
  - change (Z.to_nat (Z.of_nat 0)) with 0%nat. cbn [nth].
    change (Z.to_nat (Z.of_nat 0 + 1)) with 1%nat.
    destruct rest as [|b rest]; cbn [length hd nth].
    + reflexivity.
    + destruct (Z.ltb_spec (Z.of_nat 0 + 1) (Z.of_nat (S (S (length rest)))));
        [reflexivity | lia].
  - rewrite <- IH, <- seq_shift, map_map. apply map_ext_in.
    intros i Hi. apply in_seq in Hi. cbv zeta.
    replace (Z.to_nat (Z.of_nat (S i))) with (S (Z.to_nat (Z.of_nat i))) by lia.
    replace (Z.to_nat (Z.of_nat (S i) + 1))
      with (S (Z.to_nat (Z.of_nat i + 1))) by lia.
    cbn [nth].
    destruct (Z.ltb_spec (Z.of_nat (S i) + 1) (Z.of_nat (S (length rest)))),
             (Z.ltb_spec (Z.of_nat i + 1) (Z.of_nat (length rest)));
      reflexivity || lia.
Qed.

Lemma fingerprint_exp_spec (pw0 : list u8) :
  pw0 <> [] ->
  fingerprint_exp (Z.shiftr (byte.unsigned (nth 0 pw0 Byte.x00)) 6 + 2) pw0
  = spec_expected pw0.
Proof.
  intros Hne. unfold fingerprint_exp, spec_expected, spec_Sec.
  rewrite fingerprint_shifted.
  destruct pw0; [contradiction | reflexivity].
Qed.

Lemma array_set_split {A : Type} (l : list A) (k : nat) (v : A) :
  (k < length l)%nat ->
  array_set l k v = firstn k l ++ v :: skipn (S k) l.
Proof.
  revert k. induction l as [|x l IH]; intros k Hk; [cbn in Hk; lia|].
  destruct k as [|k]; [reflexivity|].
  cbn [array_set firstn skipn app]. f_equal. apply IH. cbn in Hk. lia.
Qed.

Lemma skipn_nth_cons {A : Type} (l : list A) (k : nat) (d : A) :
  (k < length l)%nat -> skipn k l = nth k l d :: skipn (S k) l.
Proof.
  revert k. induction l as [|x l IH]; intros k Hk; [cbn in Hk; lia|].
  destruct k as [|k]; [reflexivity|].
  cbn [skipn nth]. apply IH. cbn in Hk. lia.
Qed.

Lemma trimmed_spec (h : list u8) (bits : Z) :
  0 <= bits -> bits mod 8 <> 0 -> bits / 8 < Z.of_nat (length h) ->
  array_set h (Z.to_nat (bits / 8))
    (byte.of_Z
       (Z.shiftl
          (Z.shiftr (byte.unsigned (nth (Z.to_nat (bits / 8)) h Byte.x00))
                    (8 - bits mod 8))
          (8 - bits mod 8)))
  = spec_trimmed h bits.
Proof.
  intros Hb Hm Hk. unfold spec_trimmed.
  destruct (Z.eqb_spec (bits mod 8) 0) as [H|_]; [contradiction|].
  assert (Hk' : (Z.to_nat (bits / 8) < length h)%nat)
    by (pose proof (Z.div_pos bits 8 Hb eq_refl); lia).
  rewrite array_set_split by exact Hk'.
  rewrite (skipn_nth_cons h _ Byte.x00 Hk').
  unfold clear_low_bits.
  pose proof (Z.mod_pos_bound bits 8 eq_refl).
  rewrite Z.ldiff_ones_r by lia. reflexivity.
Qed.

Lemma length_spec_trimmed (h : list u8) (bits : Z) :
  length (spec_trimmed h bits) = length h.
Proof.
  unfold spec_trimmed. destruct (bits mod 8 =? 0); [reflexivity|].
  rewrite <- (firstn_skipn (Z.to_nat (bits / 8)) h) at 3.
  rewrite !length_app. f_equal.
  destruct (skipn (Z.to_nat (bits / 8)) h); reflexivity.
Qed.

Lemma length_spec_shifted (pw0 : list u8) :
  length (spec_shifted pw0) = length pw0.
Proof. induction pw0 as [|a rest IH]; [reflexivity|]. cbn. f_equal. exact IH. Qed.

Lemma read_in_bounds (a : list u8) (i : Z) :
  0 <= i < Z.of_nat (length a) ->
  read a i = ret (byte.unsigned (nth (Z.to_nat i) a Byte.x00)).
Proof.
  intros Hi. unfold read. destruct (Z.ltb_spec i 0) as [H|_]; [lia|].
  destruct (nth_error a (Z.to_nat i)) as [v|] eqn:E.
  - rewrite (nth_error_nth a (Z.to_nat i) Byte.x00 E). reflexivity.
  - apply nth_error_None in E. lia.
Qed.

Lemma spec_Sec_range (pw0 : list u8) : 2 <= spec_Sec pw0 <= 5.
Proof.
  unfold spec_Sec. pose proof (byte.unsigned_range (hd Byte.x00 pw0)) as H.
  rewrite Z.shiftr_div_pow2 by lia. change (2 ^ 6) with 64.
  change (2 ^ 8) with 256 in H. Z.div_mod_to_equations. lia.
Qed.

Section Fingerprint.

Context {X : Externals}.

Lemma sae_hash_H_group (group0 : Z) (data : list u8) :
  group0 = 19 \/ group0 = 20 \/ group0 = 21 ->
  (group0 = 20 -> CONFIG_SHA384 = true) ->
  (group0 = 21 -> CONFIG_SHA512 = true) ->
  snd (sae_hash (sae_group_2_hash_len group0) data)
  = Ret (spec_H_group group0 data).
Proof.
  intros [-> | [-> | ->]] H384 H512; unfold sae_hash, spec_H_group;
    cbn [sae_group_2_hash_len Z.eqb Pos.eqb].
  - reflexivity.
  - rewrite (H384 eq_refl). reflexivity.
  - rewrite (H512 eq_refl).
    destruct CONFIG_SHA384; reflexivity.
Qed.

(** After [sae_pk_set_password] on a password shorter than [2 ^ 61]
    characters the session holds the decoded password and a [lambda] in
    the range the fingerprint check computes with exactly. *)
Lemma sae_pk_set_password_lambda
      (sae : sae_data) (t : sae_temporary_data) (password : list char) :
  tmp sae = Some t -> 1 <= os_strlen password < 2 ^ 61 ->
  exists t' : sae_temporary_data,
    tmp (snd (sae_pk_set_password sae password)) = Some t'
    /\ pw t' = sae_pk_base32_decode password (os_strlen password)
    /\ lambda t' = os_strlen password - os_strlen password / 5
    /\ 0 <= lambda t' /\ 5 * lambda t' + 38 <= SIZE_MAX.
Proof.
  intros Ht Hlen. unfold sae_pk_set_password. rewrite Ht.
  destruct (Z.ltb_spec (os_strlen password) 1) as [H|_]; [lia|].
  cbn [snd tmp]. eexists. split; [reflexivity|]. cbn [pw lambda].
  change (2 ^ 61) with 2305843009213693952 in Hlen.
  rewrite size_t_small
    by (change (2 ^ 64) with 18446744073709551616;
        Z.div_mod_to_equations; lia).
  unfold SIZE_MAX. change (2 ^ 64 - 1) with 18446744073709551615.
  repeat split; Z.div_mod_to_equations; lia.
Qed.

(** C4: the session holds the decoded password [pw] and the number
    [lambda] of its characters (small enough for [8 * Sec + 5 * lambda - 2]
    to be a [size_t]); the group is 19, 20 or 21 and [h] is
    [H_group(ssid || m || k_ap)], of [hash_len(group)] octets.
    - With [pw] missing or empty the check returns false.
    - Otherwise let [Sec = (pw[0] >> 6) + 2] and
      [bits = 8 * Sec + 5 * lambda - 2].  When [bits] exceeds
      [8 * hash_len(group)] the check returns false.  When the expected
      fingerprint, of [Sec + |pw|] octets, holds the [ceil(bits / 8)]
      octets that are compared, the check returns true or false, and it
      returns true iff [bits <= 8 * hash_len(group)] and the first
      [ceil(bits / 8)] octets of [h], the low [8 - bits mod 8] bits of
      octet [bits / 8] cleared when [bits mod 8 <> 0], are [Sec] zero
      octets followed by [pw] shifted left by two bits. *)
Theorem sae_pk_valid_fingerprint_spec
        (sae : sae_data) (t : sae_temporary_data)
        (m0 k_ap : list u8) (group0 : Z) (h : list u8) :
  tmp sae = Some t ->
  group0 = 19 \/ group0 = 20 \/ group0 = 21 ->
  (group0 = 20 -> CONFIG_SHA384 = true) ->
  (group0 = 21 -> CONFIG_SHA512 = true) ->
  0 <= lambda t -> 5 * lambda t + 38 <= SIZE_MAX ->
  spec_H_group group0
    (firstn (Z.to_nat (ssid_len t)) (ssid t) ++ m0 ++ k_ap) = Some h ->
  Z.of_nat (length h) = sae_group_2_hash_len group0 ->
  (pw t = None \/ pw t = Some [] ->
   snd (sae_pk_valid_fingerprint sae m0 k_ap group0) = Ret false)
  /\ (forall pw0 : list u8,
         pw t = Some pw0 -> pw0 <> [] ->
         let bits := spec_bits pw0 (lambda t) in
         (8 * sae_group_2_hash_len group0 < bits ->
          snd (sae_pk_valid_fingerprint sae m0 k_ap group0) = Ret false)
         /\ (Z.of_nat (spec_byte_count bits)
             <= spec_Sec pw0 + Z.of_nat (length pw0) ->
             (snd (sae_pk_valid_fingerprint sae m0 k_ap group0) = Ret true
              <-> bits <= 8 * sae_group_2_hash_len group0
                  /\ firstn (spec_byte_count bits) (spec_trimmed h bits)
                     = firstn (spec_byte_count bits) (spec_expected pw0))
             /\ (snd (sae_pk_valid_fingerprint sae m0 k_ap group0) = Ret true
                 \/ snd (sae_pk_valid_fingerprint sae m0 k_ap group0)
                    = Ret false))).
Proof.
  intros Ht Hg H384 H512 Hl0 Hl1 HH Hlen.
  unfold SIZE_MAX in Hl1. change (2 ^ 64 - 1) with 18446744073709551615 in Hl1.
  unfold sae_pk_valid_fingerprint. rewrite Ht. cbn [deref]. rewrite bind_ret.
  split.
  - intros [-> | ->]; reflexivity.
  - intros pw0 Hpw Hne. set (bits := spec_bits pw0 (lambda t)). rewrite Hpw.
    destruct (Z.ltb_spec (Z.of_nat (length pw0)) 1) as [H|_];
      [destruct pw0; [contradiction | cbn [length] in H; lia]|].
    rewrite snd_bind, (sae_hash_H_group group0 _ Hg H384 H512), HH.
    pose proof (spec_Sec_range pw0) as Hsec.
    replace (Z.shiftr (byte.unsigned (nth 0 pw0 Byte.x00)) 6 + 2)
      with (spec_Sec pw0) by (unfold spec_Sec; destruct pw0; reflexivity).
    rewrite size_t_small
      by (change (2 ^ 64) with 18446744073709551616; lia).
    fold (spec_bits pw0 (lambda t)). fold bits.
    assert (Hbits : 14 <= bits) by (unfold bits, spec_bits; lia).
    assert (Hhl : 0 <= sae_group_2_hash_len group0)
      by (destruct Hg as [-> | [-> | ->]]; cbn; lia).
    destruct (Z.gtb_spec bits (sae_group_2_hash_len group0 * 8)) as [Hgt|Hle].
    + split; [reflexivity|]. intros _.
      split; [split; [discriminate | intros [H _]; lia] | right; reflexivity].
    + split; [intros H; lia|]. intros Hbound.
      (* the trimmed digest *)
      assert (Htrim :
        (if negb (bits mod 8 =? 0)
         then
           v <- read h (bits / 8) ;;
           ret (array_set h (Z.to_nat (bits / 8))
                  (byte.of_Z
                     (Z.shiftl (Z.shiftr v (8 - bits mod 8))
                               (8 - bits mod 8))))
         else ret h) = ret (spec_trimmed h bits)).
      { destruct (Z.eqb_spec (bits mod 8) 0) as [Hz|Hnz]; cbn [negb].
        - unfold spec_trimmed. rewrite Hz. reflexivity.
        - assert (Hidx : 0 <= bits / 8 < Z.of_nat (length h))
            by (Z.div_mod_to_equations; lia).
          rewrite read_in_bounds by exact Hidx. rewrite bind_ret.
          rewrite trimmed_spec by lia. reflexivity. }
      rewrite Htrim. rewrite snd_bind. cbn [snd ret].
      replace (fingerprint_exp (spec_Sec pw0) pw0) with (spec_expected pw0)
        by (rewrite <- (fingerprint_exp_spec pw0 Hne); unfold spec_Sec;
            destruct pw0; reflexivity).
      assert (Hbc : (bits + 7) / 8 = Z.of_nat (spec_byte_count bits))
        by (unfold spec_byte_count; Z.div_mod_to_equations; lia).
      rewrite Hbc.
      assert (Hbh : (spec_byte_count bits <= length (spec_trimmed h bits))%nat)
        by (rewrite length_spec_trimmed; unfold spec_byte_count;
            Z.div_mod_to_equations; lia).
      assert (Hbe : (spec_byte_count bits <= length (spec_expected pw0))%nat).
      { unfold spec_expected.
        rewrite length_app, repeat_length, length_spec_shifted. lia. }
      destruct (os_memcmp_const_spec _ _ _ Hbh Hbe) as [r [Hr Hiff]].
      rewrite snd_bind, Hr. cbn [snd ret].
      destruct (Z.eqb_spec r 0) as [Hr0|Hr0]; cbn [negb snd ret].
      * split; [|left; reflexivity].
        split; [intros _; split; [lia | apply Hiff; exact Hr0] | reflexivity].
      * split; [|right; reflexivity].
        split; [discriminate | intros [_ H]; apply Hiff in H; contradiction].
Qed.

End Fingerprint.

(** C4 on the stand-in: the digest of zero octets matches the password of
    five zero octets ([Sec = 2], [lambda = 8], [bits = 54]). *)
Lemma sae_pk_valid_fingerprint_spec_witness :
  snd (sae_pk_valid_fingerprint (test_session 32 None true)
                                (repeat Byte.x00 16) (repeat Byte.x00 8) 19)
  = Ret true.
Proof.
  apply (proj1
           (proj2
              (proj2 (@sae_pk_valid_fingerprint_spec test_externals
                        (test_session 32 None true) (test_tmp 32 None)
                        (repeat Byte.x00 16) (repeat Byte.x00 8) 19
                        (repeat Byte.x00 32)
                        eq_refl (or_introl eq_refl)
                        (fun _ => eq_refl) (fun _ => eq_refl)
                        ltac:(vm_compute; discriminate)
                        ltac:(vm_compute; discriminate)
                        eq_refl eq_refl)
                     (repeat Byte.x00 5) eq_refl ltac:(discriminate))
              ltac:(vm_compute; discriminate))).
  split; [vm_compute; discriminate | vm_compute; reflexivity].
Defined.

(** ** The text the encoder writes *)

Lemma table_digit_In (d : Z) :
  0 <= d < 32 -> In (char_at sae_pk_base32_table d) sae_pk_base32_table.
Proof.
  intros Hd. unfold char_at. destruct (Z.ltb_spec d 0) as [H|_]; [lia|].
  apply nth_In. change (length sae_pk_base32_table) with 32%nat. lia.
Qed.

Lemma position_ok_hyphen (pos : Z) :
  pos mod 5 = 4 -> position_ok pos "-"%char.
Proof.
  intros H. unfold position_ok.
  destruct (Z.eqb_spec pos 0) as [->|_]; [discriminate H|].
  rewrite H. reflexivity.
Qed.

Lemma position_ok_alphabet (pos : Z) (c : char) :
  pos mod 5 <> 4 -> In c sae_pk_base32_table -> position_ok pos c.
Proof.
  intros H Hc. unfold position_ok.
  destruct (Z.eqb_spec (pos mod 5) 4) as [H4|_]; [contradiction|].
  rewrite andb_false_r. exact Hc.
Qed.

Lemma positions_app (out extra : list char) :
  (forall i x, nth_error out i = Some x -> position_ok (Z.of_nat i) x) ->
  (forall j x, nth_error extra j = Some x ->
               position_ok (Z.of_nat (length out) + Z.of_nat j) x) ->
  forall i x, nth_error (out ++ extra) i = Some x -> position_ok (Z.of_nat i) x.
Proof.
  intros Ho He i x Hi.
  destruct (Nat.lt_ge_cases i (length out)) as [Hlt|Hge].
  - rewrite nth_error_app1 in Hi by exact Hlt. apply Ho. exact Hi.
  - rewrite nth_error_app2 in Hi by exact Hge.
    replace (Z.of_nat i)
      with (Z.of_nat (length out) + Z.of_nat (i - length out)) by lia.
    apply He. exact Hi.
Qed.

(** The characters one emitting [add_char] appends *)
Lemma add_char_appends (out : list char) (idx : u8) (bits : Z) :
  bits <> 0 ->
  fst (add_char out idx bits)
  = out ++ (if Z.of_nat (length out) mod 5 =? 4 then ["-"%char] else [])
        ++ [char_at sae_pk_base32_table (byte.unsigned idx)]
  /\ snd (add_char out idx bits) = (if bits >? 5 then bits - 5 else 0).
Proof.
  intros Hb. unfold add_char.
  destruct (Z.eqb_spec bits 0) as [H|_]; [contradiction|]. cbn [fst snd].
  split; [|reflexivity].
  destruct (Z.of_nat (length out) mod 5 =? 4); cbn [app];
    rewrite <- ?app_assoc; reflexivity.
Qed.

Lemma add_char_ok (len_bits k : Z) (out : list char) (idx : u8) (bits : Z) :
  0 <= byte.unsigned idx < 32 ->
  encode_ok len_bits k out bits ->
  encode_ok len_bits (k + 1) (fst (add_char out idx bits))
            (snd (add_char out idx bits)).
Proof.
  intros Hd [H0 [Hnk [Hpaid [Hge [Hlt [Hlen [Hpos Hlast]]]]]]].
  destruct (Z.eq_dec bits 0) as [Hz|Hz].
  - unfold add_char. rewrite Hz. cbn [Z.eqb fst snd].
    unfold encode_ok, text_shape. repeat split; try assumption; lia.
  - destruct (add_char_appends out idx bits Hz) as [-> ->].
    destruct (Hpaid ltac:(lia)) as [Hn Hb].
    destruct (dtable_digit (byte.unsigned idx) Hd) as [_ [He [_ Hv]]].
    pose proof (table_digit_In (byte.unsigned idx) Hd) as Hin.
    set (c := char_at sae_pk_base32_table (byte.unsigned idx)) in *.
    assert (Hcne : c <> "-"%char).
    { intros E. rewrite E in Hv. vm_compute in Hv. discriminate Hv. }
    set (n := Z.of_nat (length (filter valid_char out))) in *.
    assert (Hf : Z.of_nat (length (filter valid_char
                   (out ++ (if Z.of_nat (length out) mod 5 =? 4
                            then ["-"%char] else []) ++ [c]))) = n + 1).
    { rewrite !filter_app, !length_app.
      destruct (Z.of_nat (length out) mod 5 =? 4); cbn [filter];
        change (valid_char "-"%char) with false; rewrite Hv; cbn [length];
        unfold n; lia. }
    unfold encode_ok. cbv zeta. rewrite Hf.
    split; [destruct (Z.gtb_spec bits 5); lia|].
    split; [lia|].
    split; [destruct (Z.gtb_spec bits 5); lia|].
    split; [destruct (Z.gtb_spec bits 5); lia|].
    split; [lia|].
    split; [|split].
    + rewrite !length_app. unfold text_len in *.
      destruct (Z.eqb_spec (n + 1) 0) as [Hn1|_]; [lia|].
      destruct (Z.eqb_spec (Z.of_nat (length out) mod 5) 4) as [H4|H4];
        cbn [length]; destruct (Z.eqb_spec n 0) as [Hn0|Hn0];
        Z.div_mod_to_equations; lia.
    + apply positions_app; [exact Hpos|].
      intros j x Hj.
      destruct (Z.eqb_spec (Z.of_nat (length out) mod 5) 4) as [H4|H4].
      * destruct j as [|[|j]]; cbn in Hj.
        -- injection Hj as <-. rewrite Z.add_0_r.
           apply position_ok_hyphen. exact H4.
        -- injection Hj as <-. apply position_ok_alphabet; [|exact Hin].
           change (Z.of_nat 1) with 1. Z.div_mod_to_equations. lia.
        -- destruct j; discriminate Hj.
      * destruct j as [|j]; cbn in Hj; [|destruct j; discriminate Hj].
        injection Hj as <-. rewrite Z.add_0_r.
        apply position_ok_alphabet; assumption.
    + rewrite app_assoc, last_last. exact Hcne.
Qed.

Lemma encode_block_ok (len_bits k v : Z) (out : list char) (nleft : Z) :
  encode_ok len_bits k out nleft ->
  encode_ok len_bits (k + 8) (fst (encode_block v out nleft))
            (snd (encode_block v out nleft)).
Proof.
  intros H. unfold encode_block. cbn [fold_left fst snd].
  replace (k + 8) with (k + 1 + 1 + 1 + 1 + 1 + 1 + 1 + 1) by lia.
  repeat (apply add_char_ok; [apply digit_range; lia|]). exact H.
Qed.

Lemma encode_fold_ok (len_bits : Z) (src : list u8) (len : Z) (m a : nat)
      (st : Z * list char * Z) :
  encode_ok len_bits (8 * (Z.of_nat a / 5)) (snd (fst st)) (snd st) ->
  encode_ok len_bits (8 * (Z.of_nat (a + m) / 5))
    (snd (fst (fold_left (encode_step src len) (map Z.of_nat (seq a m)) st)))
    (snd (fold_left (encode_step src len) (map Z.of_nat (seq a m)) st)).
Proof.
  revert a st. induction m as [|m IH]; intros a st H.
  - rewrite Nat.add_0_r. exact H.
  - cbn [seq map fold_left].
    replace (a + S m)%nat with (S a + m)%nat by lia. apply IH.
    destruct st as [[block out] nleft]. cbn [fst snd] in *.
    unfold encode_step.
    destruct (Z.eqb_spec (Z.of_nat a mod 5) 4) as [H4|H4].
    + match goal with
      | |- context [encode_block ?v out nleft] =>
          pose proof (encode_block_ok len_bits _ v out nleft H) as Hb;
          destruct (encode_block v out nleft)
      end.
      cbn [fst snd] in *.
      replace (8 * (Z.of_nat (S a) / 5)) with (8 * (Z.of_nat a / 5) + 8)
        by (rewrite Nat2Z.inj_succ; Z.div_mod_to_equations; lia).
      exact Hb.
    + cbn [fst snd].
      replace (8 * (Z.of_nat (S a) / 5)) with (8 * (Z.of_nat a / 5))
        by (rewrite Nat2Z.inj_succ; Z.div_mod_to_equations; lia).
      exact H.
Qed.

Lemma encode_null_iff (src : list u8) (len_bits : Z) :
  0 <= len_bits <= SIZE_MAX ->
  (sae_pk_base32_encode src len_bits = None
   <-> len_bits = 0 \/ SIZE_MAX - 15 < len_bits).
Proof.
  intros Hr. unfold sae_pk_base32_encode, SIZE_MAX, size_t in *.
  change (2 ^ 64 - 1) with 18446744073709551615 in *.
  change (2 ^ 64) with 18446744073709551616.
  change (18446744073709551615 / 8) with 2305843009213693951.
  destruct (Z.eqb_spec ((len_bits + 7) mod 18446744073709551616 / 8) 0)
    as [H0|H0];
    destruct (Z.geb_spec ((len_bits + 7) mod 18446744073709551616 / 8)
                         2305843009213693951) as [H1|H1]; cbn [orb].
  1-3: split; [intros _; Z.div_mod_to_equations; lia | reflexivity].
  destruct (fold_left _ _ _) as [[b o] l].
  split; [discriminate|]. intros H. exfalso.
  Z.div_mod_to_equations. lia.
Qed.

Lemma encode_text_shape (src : list u8) (len_bits : Z) :
  0 < len_bits <= SIZE_MAX - 15 ->
  exists s : list char,
    sae_pk_base32_encode src len_bits = Some s
    /\ Z.of_nat (length (filter valid_char s)) = (len_bits + 4) / 5
    /\ Z.of_nat (length s) = text_len ((len_bits + 4) / 5)
    /\ text_shape s.
Proof.
  intros Hr.
  destruct (sae_pk_base32_encode src len_bits) as [s|] eqn:E.
  2: { apply (encode_null_iff src len_bits) in E;
         unfold SIZE_MAX in *; lia. }
  exists s. split; [reflexivity|].
  unfold sae_pk_base32_encode in E.
  unfold SIZE_MAX in Hr. change (2 ^ 64 - 1) with 18446744073709551615 in Hr.
  rewrite size_t_small in E
    by (change (2 ^ 64) with 18446744073709551616; lia).
  set (len := (len_bits + 7) / 8) in *.
  destruct ((len =? 0) || (len >=? SIZE_MAX / 8)); [discriminate E|].
  set (N := len + (5 - len mod 5) mod 5) in *.
  assert (HN : 0 <= N /\ N mod 5 = 0 /\ len <= N).
  { unfold N, len. Z.div_mod_to_equations. lia. }
  pose proof (encode_fold_ok len_bits src len (Z.to_nat N) 0
                (0, [], len_bits)) as Hok.
  unfold upto in E.
  destruct (fold_left (encode_step src len)
                      (map Z.of_nat (seq 0 (Z.to_nat N))) (0, [], len_bits))
    as [[block out] nleft].
  injection E as ->. cbn [fst snd] in Hok.
  destruct Hok as [H0 [Hnk [Hpaid [Hge [Hlt [Hlen Hshape]]]]]].
  { unfold encode_ok, text_shape. cbn.
    repeat split; try lia.
    - intros [|i] c H; discriminate H.
    - discriminate. }
  assert (Hz : nleft = 0).
  { destruct (Z.eq_dec nleft 0) as [|Hnz]; [assumption|].
    destruct (Hpaid ltac:(lia)) as [_ Hb]. exfalso.
    replace (Z.of_nat (0 + Z.to_nat N)) with N in Hb by lia.
    unfold len in HN. Z.div_mod_to_equations. lia. }
  assert (Hn : Z.of_nat (length (filter valid_char s)) = (len_bits + 4) / 5)
    by (Z.div_mod_to_equations; lia).
  split; [exact Hn|]. split; [rewrite <- Hn; exact Hlen | exact Hshape].
Qed.

(** X1: [sae_pk_base32_encode] returns NULL when [len_bits] is 0 and when
    it is so large that [(len_bits + 7) / 8] reaches [SIZE_MAX / 8] or
    [len_bits + 7] wraps to a length of 0: for every [len_bits] above
    [SIZE_MAX - 15]. *)
Theorem sae_pk_base32_encode_null (src : list u8) (len_bits : Z) :
  0 <= len_bits <= SIZE_MAX ->
  len_bits = 0 \/ SIZE_MAX - 15 < len_bits ->
  sae_pk_base32_encode src len_bits = None.
Proof.
  intros Hr Hbad. apply (encode_null_iff src len_bits Hr). exact Hbad.
Qed.

(** X2: Whatever text the encoder returns for [len_bits] bits of a [src]
    that holds them holds exactly [ceil(len_bits / 5)] alphabet
    characters, with a ['-'] after every fourth one but the last, in the
    layout the password check accepts. *)
Theorem sae_pk_base32_encode_text
        (src : list u8) (len_bits : Z) (s : list char) :
  0 <= len_bits <= SIZE_MAX ->
  (len_bits + 7) / 8 <= Z.of_nat (length src) ->
  sae_pk_base32_encode src len_bits = Some s ->
  Z.of_nat (length (filter valid_char s)) = (len_bits + 4) / 5
  /\ Z.of_nat (length s) = text_len ((len_bits + 4) / 5)
  /\ text_shape s.
Proof.
  intros Hr _ Hs.
  assert (Hin : 0 < len_bits <= SIZE_MAX - 15).
  { destruct (Z.eq_dec len_bits 0) as [H0|H0].
    - rewrite (proj2 (encode_null_iff src len_bits Hr) (or_introl H0)) in Hs.
      discriminate Hs.
    - destruct (Z_lt_le_dec (SIZE_MAX - 15) len_bits) as [Hb|Hb]; [|lia].
      rewrite (proj2 (encode_null_iff src len_bits Hr) (or_intror Hb)) in Hs.
      discriminate Hs. }
  destruct (encode_text_shape src len_bits Hin) as [s' [Hs' Hshape]].
  rewrite Hs in Hs'. injection Hs' as <-. exact Hshape.
Qed.






(** 17 bits of three octets: the text is ["aeru"]. *)
Lemma sae_pk_base32_encode_text_witness :
  Z.of_nat (length (filter valid_char (list_ascii_of_string "aeru")))
  = (17 + 4) / 5
  /\ Z.of_nat (length (list_ascii_of_string "aeru")) = text_len ((17 + 4) / 5)
  /\ text_shape (list_ascii_of_string "aeru").
Proof.
  apply (sae_pk_base32_encode_text [Byte.x01; Byte.x23; Byte.x45] 17).
  - vm_compute. split; discriminate.
  - vm_compute. discriminate.
  - vm_compute. reflexivity.
Defined.

(** No bits to encode. *)
Lemma sae_pk_base32_encode_null_witness :
  sae_pk_base32_encode [] 0 = None.
Proof.
  apply (sae_pk_base32_encode_null [] 0).
  - vm_compute. split; discriminate.
  - left. reflexivity.
Defined.


(** ** What the decoder skips and how much it returns *)

Lemma decode_chars_filter (vals : list char) (block count pad : Z)
      (out : list u8) :
  decode_chars vals block count pad out
  = decode_chars (filter valid_char vals) block count pad out.
Proof.
  revert block count pad out.
  induction vals as [|x vals IH]; intros block count pad out; [reflexivity|].
  cbn [filter]. unfold valid_char at 1.
  destruct (byte.unsigned (dtable_at x) =? 0x80) eqn:E; cbn [negb].
  - cbn [decode_chars]. rewrite E. apply IH.
  - cbn [decode_chars]. rewrite E, !IH. reflexivity.
Qed.

Lemma filter_idem {A : Type} (f : A -> bool) (l : list A) :
  filter f (filter f l) = filter f l.
Proof.
  induction l as [|x l IH]; [reflexivity|]. cbn [filter].
  destruct (f x) eqn:E; [|exact IH]. cbn [filter]. rewrite E, IH. reflexivity.
Qed.

(** X5: [sae_pk_base32_decode] depends only on the alphabet characters and the
    ['='] of its input, in their order: ['-'] and any other character can
    be inserted or removed anywhere. *)
Theorem sae_pk_base32_decode_lenient (s1 s2 : list char) :
  filter valid_char s1 = filter valid_char s2 ->
  sae_pk_base32_decode s1 (Z.of_nat (length s1))
  = sae_pk_base32_decode s2 (Z.of_nat (length s2)).
Proof.
  intros H. unfold sae_pk_base32_decode.
  rewrite !decode_count_filter, H.
  destruct (Z.of_nat (length (filter valid_char s2)) =? 0); [reflexivity|].
  f_equal.
  rewrite !decode_loop_chars, !map_decode_val
    by (apply Z.mod_pos_bound; lia).
  rewrite (decode_chars_filter (s1 ++ _)), (decode_chars_filter (s2 ++ _)).
  rewrite !filter_app, H. reflexivity.
Qed.

Lemma sae_pk_base32_decode_lenient_witness :
  sae_pk_base32_decode (list_ascii_of_string "aaaa-aaaa")
                       (Z.of_nat (length (list_ascii_of_string "aaaa-aaaa")))
  = sae_pk_base32_decode (list_ascii_of_string "a-a a!a.aaaa")
                         (Z.of_nat (length (list_ascii_of_string "a-a a!a.aaaa"))).
Proof.
  apply (sae_pk_base32_decode_lenient (list_ascii_of_string "aaaa-aaaa")
                                      (list_ascii_of_string "a-a a!a.aaaa")).
  vm_compute. reflexivity.
Defined.

Lemma decode_chars_digits_length (vals rest : list char) (block count : Z)
      (out : list u8) :
  (forall x, In x vals -> valid_char x = true /\ (x =? "=")%char = false) ->
  0 <= count < 8 ->
  exists (block' : Z) (out' : list u8),
    decode_chars (vals ++ rest) block count 0 out
    = decode_chars rest block' ((count + Z.of_nat (length vals)) mod 8) 0 out'
    /\ Z.of_nat (length out')
       = Z.of_nat (length out) + 5 * ((count + Z.of_nat (length vals)) / 8).
Proof.
  revert block count out.
  induction vals as [|x vals IH]; intros block count out Hall Hc.
  - exists block, out. cbn [app length]. change (Z.of_nat 0) with 0.
    rewrite Z.add_0_r, Z.mod_small, Z.div_small by lia. split; [reflexivity|lia].
  - destruct (Hall x (or_introl eq_refl)) as [Hv He].
    assert (Hrest : forall y, In y vals ->
                              valid_char y = true /\ (y =? "=")%char = false)
      by (intros y Hy; apply Hall; right; exact Hy).
    cbn [app decode_chars]. unfold valid_char in Hv.
    destruct (byte.unsigned (dtable_at x) =? 0x80); [discriminate Hv|].
    rewrite He. change (0 =? 0) with true. cbn [negb].
    cbn [length]. rewrite Nat2Z.inj_succ.
    destruct (Z.eqb_spec (count + 1) 8) as [H8|H8].
    + match goal with
      | |- context [decode_chars (vals ++ rest) 0 0 0 ?o] =>
          destruct (IH 0 0 o Hrest ltac:(lia)) as [b' [o' [E L]]]
      end.
      exists b', o'. rewrite E. split.
      * f_equal. Z.div_mod_to_equations. lia.
      * rewrite L, length_app. cbn [length].
        Z.div_mod_to_equations. lia.
    + match goal with
      | |- context [decode_chars (vals ++ rest) ?b (count + 1) 0 out] =>
          destruct (IH b (count + 1) out Hrest ltac:(lia)) as [b' [o' [E L]]]
      end.
      exists b', o'. rewrite E. split.
      * f_equal. f_equal. lia.
      * rewrite L. f_equal. f_equal. f_equal. lia.
Qed.

Lemma decode_chars_padding_length (e : nat) (block count pad : Z)
      (out : list u8) :
  (0 < e)%nat -> count + Z.of_nat e = 8 -> 0 <= pad -> pad + Z.of_nat e <= 8 ->
  Z.of_nat (length (decode_chars (repeat "="%char e) block count pad out))
  = Z.of_nat (length out) + 5 - (pad + Z.of_nat e) * 5 / 8.
Proof.
  revert block count pad. induction e as [|e IH]; intros block count pad He Hc Hp Hpe;
    [lia|].
  cbn [repeat decode_chars].
  change (dtable_at "="%char) with (byte.of_Z 0).
  change (byte.unsigned (byte.of_Z 0) =? 128) with false. cbv iota.
  change ("=" =? "=")%char with true. cbv iota.
  destruct (Z.eqb_spec (count + 1) 8) as [H8|H8].
  - assert (e = 0%nat) by lia. subst e.
    destruct (Z.eqb_spec (pad + 1) 0) as [H|_]; [lia|]. cbn [negb].
    rewrite length_firstn, length_app. cbn [length].
    change (Z.of_nat 1) with 1.
    assert (0 <= (pad + 1) * 5 / 8 <= 5) by (Z.div_mod_to_equations; lia).
    lia.
  - rewrite IH by lia. f_equal. f_equal. f_equal. lia.
Qed.

Lemma decode_length_of_count (src : list char) :
  ~ In "="%char src ->
  (0 < length (filter valid_char src))%nat ->
  exists out : list u8,
    sae_pk_base32_decode src (Z.of_nat (length src)) = Some out
    /\ Z.of_nat (length out)
       = (5 * Z.of_nat (length (filter valid_char src)) + 7) / 8.
Proof.
  intros Hne Hpos. unfold sae_pk_base32_decode. rewrite decode_count_filter.
  set (c := Z.of_nat (length (filter valid_char src))).
  assert (Hc : 0 < c) by (unfold c; lia).
  destruct (Z.eqb_spec c 0) as [H0|_]; [lia|].
  eexists. split; [reflexivity|].
  pose proof (Z.mod_pos_bound c 8 eq_refl) as Hm.
  rewrite decode_loop_chars, map_decode_val by (apply Z.mod_pos_bound; lia).
  rewrite decode_chars_filter, filter_app, filter_valid_repeat_pad.
  destruct (decode_chars_digits_length (filter valid_char src)
              (repeat "="%char (Z.to_nat ((8 - c mod 8) mod 8))) 0 0 [])
    as [b' [o' [E L]]].
  { intros x Hx. apply filter_In in Hx. destruct Hx as [Hin Hv].
    split; [exact Hv|]. apply Ascii.eqb_neq. intros ->. exact (Hne Hin). }
  { lia. }
  rewrite E. fold c in L |- *. rewrite Z.add_0_l in *. cbn [length] in L.
  destruct (Z.eq_dec (c mod 8) 0) as [Hz|Hz].
  - rewrite Hz. change (Z.to_nat ((8 - 0) mod 8)) with 0%nat.
    cbn [repeat decode_chars]. rewrite L.
    Z.div_mod_to_equations. lia.
  - rewrite (Z.mod_small (8 - c mod 8) 8) by lia.
    rewrite decode_chars_padding_length by lia.
    rewrite L, Z2Nat.id by lia.
    Z.div_mod_to_equations. lia.
Qed.

(** X6: For an input without ['='] that holds [c > 0] alphabet characters,
    [sae_pk_base32_decode] returns [ceil(5 * c / 8)] octets. *)
Theorem sae_pk_base32_decode_length (src : list char) :
  ~ In "="%char src ->
  (0 < length (filter valid_char src))%nat ->
  exists out : list u8,
    sae_pk_base32_decode src (Z.of_nat (length src)) = Some out
    /\ Z.of_nat (length out)
       = (5 * Z.of_nat (length (filter valid_char src)) + 7) / 8.
Proof. exact (decode_length_of_count src). Qed.

Lemma sae_pk_base32_decode_length_witness :
  exists out : list u8,
    sae_pk_base32_decode (list_ascii_of_string "abc-d")
                         (Z.of_nat (length (list_ascii_of_string "abc-d")))
    = Some out
    /\ Z.of_nat (length out)
       = (5 * Z.of_nat (length (filter valid_char
                                       (list_ascii_of_string "abc-d"))) + 7) / 8.
Proof.
  apply (sae_pk_base32_decode_length (list_ascii_of_string "abc-d")).
  - cbv [list_ascii_of_string In]. intros H.
    repeat (destruct H as [H|H]; [discriminate H|]). exact H.
  - vm_compute. lia.
Defined.

(** ** From a valid password to the fingerprint check *)

Lemma valid_password_shape (p : list char) :
  ~ In NUL p -> sae_pk_valid_password p = true ->
  9 <= Z.of_nat (length p) /\ text_shape p.
Proof.
  intros Hn Hv. unfold sae_pk_valid_password in Hv.
  rewrite (os_strlen_no_nul p Hn) in Hv.
  destruct (Z.ltb_spec (Z.of_nat (length p)) 9) as [Hlt|Hge];
    [discriminate Hv|].
  split; [exact Hge|].
  assert (Hne : p <> []) by (intros ->; cbn in Hge; lia).
  destruct (valid_password_loop_spec p 0 Hn) as [[He Hall]|[He _]];
    rewrite He in Hv; [|discriminate Hv].
  rewrite Z.add_0_l in Hv.
  destruct (Z.of_nat (length p) =? 0); [discriminate Hv|].
  rewrite (char_at_last p Hne) in Hv. split.
  - intros i c Hi. specialize (Hall i c Hi). rewrite Z.add_0_l in Hall.
    exact Hall.
  - destruct (exists_last Hne) as [q [a ->]]. rewrite last_last in *.
    intros ->. discriminate Hv.
Qed.

Lemma position_ok_valid_char (pos : Z) (c : char) :
  position_ok pos c ->
  valid_char c = negb (pos mod 5 =? 4) /\ c <> "="%char.
Proof.
  unfold position_ok.
  destruct (Z.eqb_spec pos 0) as [->|Hp]; cbn [negb andb].
  - intros Hin. change (0 mod 5 =? 4) with false. cbn [negb].
    split.
    + rewrite valid_char_cases.
      apply is_alphabet_In in Hin. rewrite Hin. reflexivity.
    + intros ->. apply is_alphabet_In in Hin. vm_compute in Hin.
      discriminate Hin.
  - destruct (pos mod 5 =? 4); cbn [negb].
    + intros ->. split; [reflexivity | discriminate].
    + intros Hin. split.
      * rewrite valid_char_cases.
        apply is_alphabet_In in Hin. rewrite Hin. reflexivity.
      * intros ->. apply is_alphabet_In in Hin. vm_compute in Hin.
        discriminate Hin.
Qed.

Lemma positions_count (p : list char) (pos : Z) :
  0 <= pos ->
  (forall i c, nth_error p i = Some c -> position_ok (pos + Z.of_nat i) c) ->
  Z.of_nat (length (filter valid_char p))
  = Z.of_nat (length p) - ((pos + Z.of_nat (length p)) / 5 - pos / 5).
Proof.
  revert pos. induction p as [|c p IH]; intros pos Hp Hall.
  - cbn [length filter]. change (Z.of_nat 0) with 0. rewrite Z.add_0_r. lia.
  - pose proof (Hall 0%nat c eq_refl) as H0. rewrite Z.add_0_r in H0.
    destruct (position_ok_valid_char pos c H0) as [Hv _].
    cbn [filter]. rewrite Hv.
    assert (IH' : Z.of_nat (length (filter valid_char p))
                  = Z.of_nat (length p)
                    - ((pos + 1 + Z.of_nat (length p)) / 5 - (pos + 1) / 5)).
    { apply IH; [lia|]. intros i x Hi. specialize (Hall (S i) x Hi).
      replace (pos + 1 + Z.of_nat i) with (pos + Z.of_nat (S i)) by lia.
      exact Hall. }
    destruct (Z.eqb_spec (pos mod 5) 4); cbn [negb length];
      rewrite ?Nat2Z.inj_succ, IH'; Z.div_mod_to_equations; lia.
Qed.

Lemma text_shape_no_pad (p : list char) : text_shape p -> ~ In "="%char p.
Proof.
  intros [Hpos _] Hin. apply In_nth_error in Hin. destruct Hin as [i Hi].
  destruct (position_ok_valid_char _ _ (Hpos i _ Hi)) as [_ H].
  exact (H eq_refl).
Qed.

Section Password.

Context {X : Externals}.

(** X7: [sae_pk_set_password] fails and leaves the session as it is when there
    is no temporary data or the password is empty. *)
Theorem sae_pk_set_password_rejects (sae : sae_data) (password : list char) :
  tmp sae = None \/ os_strlen password = 0 ->
  sae_pk_set_password sae password = (-1, sae).
Proof.
  intros H. unfold sae_pk_set_password.
  destruct (tmp sae) as [t|]; [|reflexivity].
  destruct H as [H|H]; [discriminate H|]. rewrite H. reflexivity.
Qed.

Lemma set_password_valid_run
        (sae : sae_data) (t : sae_temporary_data) (password : list char) :
  tmp sae = Some t -> ~ In NUL password ->
  Z.of_nat (length password) < 2 ^ 61 ->
  sae_pk_valid_password password = true ->
  fst (sae_pk_set_password sae password) = 0
  /\ exists (t' : sae_temporary_data) (pw0 : list u8),
      tmp (snd (sae_pk_set_password sae password)) = Some t'
      /\ pw t' = Some pw0
      /\ lambda t' = Z.of_nat (length (filter valid_char password))
      /\ 8 <= lambda t'
      /\ Z.of_nat (length pw0) = (5 * lambda t' + 7) / 8.
Proof.
  intros Ht Hn Hlen Hv.
  destruct (valid_password_shape password Hn Hv) as [H9 Hshape].
  pose proof (positions_count password 0 ltac:(lia)) as Hcount.
  rewrite Z.add_0_l in Hcount.
  assert (Hc : Z.of_nat (length (filter valid_char password))
               = Z.of_nat (length password) - Z.of_nat (length password) / 5).
  { rewrite Hcount.
    - change (0 / 5) with 0. lia.
    - intros i c Hi. rewrite Z.add_0_l. apply Hshape. exact Hi. }
  destruct (decode_length_of_count password
              (text_shape_no_pad password Hshape)) as [out [Hd Hl]].
  { apply Nat2Z.inj_lt. rewrite Hc. Z.div_mod_to_equations. lia. }
  unfold sae_pk_set_password. rewrite Ht, (os_strlen_no_nul password Hn).
  destruct (Z.ltb_spec (Z.of_nat (length password)) 1) as [H|_]; [lia|].
  rewrite Hd. cbn [fst snd tmp]. split; [reflexivity|].
  eexists. exists out. split; [reflexivity|]. cbn [pw lambda].
  change (2 ^ 61) with 2305843009213693952 in Hlen.
  rewrite size_t_small
    by (change (2 ^ 64) with 18446744073709551616;
        Z.div_mod_to_equations; lia).
  rewrite Hl, Hc. repeat split. Z.div_mod_to_equations. lia.
Qed.

(** The run of the fingerprint check up to the comparison *)
Lemma sae_pk_valid_fingerprint_run
      (sae : sae_data) (t : sae_temporary_data) (pw0 m0 k_ap : list u8)
      (group0 : Z) (h : list u8) :
  tmp sae = Some t -> pw t = Some pw0 -> pw0 <> [] ->
  group0 = 19 \/ group0 = 20 \/ group0 = 21 ->
  (group0 = 20 -> CONFIG_SHA384 = true) ->
  (group0 = 21 -> CONFIG_SHA512 = true) ->
  0 <= lambda t -> 5 * lambda t + 38 <= SIZE_MAX ->
  spec_H_group group0
    (firstn (Z.to_nat (ssid_len t)) (ssid t) ++ m0 ++ k_ap) = Some h ->
  Z.of_nat (length h) = sae_group_2_hash_len group0 ->
  snd (sae_pk_valid_fingerprint sae m0 k_ap group0)
  = if spec_bits pw0 (lambda t) >? sae_group_2_hash_len group0 * 8
    then Ret false
    else
      snd (res <- os_memcmp_const (spec_trimmed h (spec_bits pw0 (lambda t)))
                    (spec_expected pw0)
                    (Z.of_nat (spec_byte_count (spec_bits pw0 (lambda t)))) ;;
           if negb (res =? 0) then ret false else ret true).
Proof.
  intros Ht Hpw Hne Hg H384 H512 Hl0 Hl1 HH Hlen.
  unfold SIZE_MAX in Hl1. change (2 ^ 64 - 1) with 18446744073709551615 in Hl1.
  unfold sae_pk_valid_fingerprint. rewrite Ht. cbn [deref]. rewrite bind_ret.
  rewrite Hpw.
  destruct (Z.ltb_spec (Z.of_nat (length pw0)) 1) as [H|_];
    [destruct pw0; [contradiction | cbn [length] in H; lia]|].
  rewrite snd_bind, (sae_hash_H_group group0 _ Hg H384 H512), HH.
  pose proof (spec_Sec_range pw0) as Hsec.
  replace (Z.shiftr (byte.unsigned (nth 0 pw0 Byte.x00)) 6 + 2)
    with (spec_Sec pw0) by (unfold spec_Sec; destruct pw0; reflexivity).
  rewrite size_t_small
    by (change (2 ^ 64) with 18446744073709551616; lia).
  fold (spec_bits pw0 (lambda t)).
  set (bits := spec_bits pw0 (lambda t)).
  assert (Hbits : 14 <= bits) by (unfold bits, spec_bits; lia).
  destruct (Z.gtb_spec bits (sae_group_2_hash_len group0 * 8)) as [Hgt|Hle];
    [reflexivity|].
  assert (Htrim :
    (if negb (bits mod 8 =? 0)
     then
       v <- read h (bits / 8) ;;
       ret (array_set h (Z.to_nat (bits / 8))
              (byte.of_Z
                 (Z.shiftl (Z.shiftr v (8 - bits mod 8))
                           (8 - bits mod 8))))
     else ret h) = ret (spec_trimmed h bits)).
  { destruct (Z.eqb_spec (bits mod 8) 0) as [Hz|Hnz]; cbn [negb].
    - unfold spec_trimmed. rewrite Hz. reflexivity.
    - assert (Hidx : 0 <= bits / 8 < Z.of_nat (length h))
        by (Z.div_mod_to_equations; lia).
      rewrite read_in_bounds by exact Hidx. rewrite bind_ret.
      rewrite trimmed_spec by lia. reflexivity. }
  rewrite Htrim. rewrite snd_bind. cbn [snd ret].
  replace (fingerprint_exp (spec_Sec pw0) pw0) with (spec_expected pw0)
    by (rewrite <- (fingerprint_exp_spec pw0 Hne); unfold spec_Sec;
        destruct pw0; reflexivity).
  replace ((bits + 7) / 8) with (Z.of_nat (spec_byte_count bits))
    by (unfold spec_byte_count; Z.div_mod_to_equations; lia).
  reflexivity.
Qed.

(** X10: After [sae_pk_set_password] with an accepted password the fingerprint
    check runs to completion for every modifier and key: the comparison
    stays inside both the digest and the expected fingerprint. *)
Theorem sae_pk_valid_fingerprint_completes
        (sae : sae_data) (t : sae_temporary_data) (password : list char)
        (m0 k_ap : list u8) (group0 : Z) (h : list u8) :
  tmp sae = Some t -> ~ In NUL password ->
  Z.of_nat (length password) < 2 ^ 61 ->
  sae_pk_valid_password password = true ->
  group0 = 19 \/ group0 = 20 \/ group0 = 21 ->
  (group0 = 20 -> CONFIG_SHA384 = true) ->
  (group0 = 21 -> CONFIG_SHA512 = true) ->
  spec_H_group group0
    (firstn (Z.to_nat (ssid_len t)) (ssid t) ++ m0 ++ k_ap) = Some h ->
  Z.of_nat (length h) = sae_group_2_hash_len group0 ->
  exists b : bool,
    snd (sae_pk_valid_fingerprint (snd (sae_pk_set_password sae password))
                                  m0 k_ap group0) = Ret b.
Proof.
  intros Ht Hn Hlen Hv Hg H384 H512 HH Hh.
  destruct (set_password_valid_run sae t password Ht Hn Hlen Hv)
    as [_ [t' [pw0 [Ht' [Hpw [Hlam [H8 Hpl]]]]]]].
  assert (Hssid : ssid t' = ssid t /\ ssid_len t' = ssid_len t).
  { unfold sae_pk_set_password in Ht'. rewrite Ht in Ht'.
    destruct (os_strlen password <? 1).
    - cbn [snd] in Ht'. rewrite Ht in Ht'. injection Ht' as <-.
      split; reflexivity.
    - cbn [snd tmp] in Ht'. injection Ht' as <-. split; reflexivity. }
  destruct Hssid as [Hs1 Hs2].
  assert (Hlr : 5 * lambda t' + 38 <= SIZE_MAX).
  { rewrite Hlam. pose proof (filter_length_le valid_char password).
    unfold SIZE_MAX. change (2 ^ 64 - 1) with 18446744073709551615.
    change (2 ^ 61) with 2305843009213693952 in Hlen. lia. }
  assert (Hne : pw0 <> [])
    by (intros ->; cbn [length] in Hpl; Z.div_mod_to_equations; lia).
  rewrite (sae_pk_valid_fingerprint_run _ t' pw0 m0 k_ap group0 h
             Ht' Hpw Hne Hg H384 H512 ltac:(lia) Hlr
             ltac:(rewrite Hs1, Hs2; exact HH) Hh).
  destruct (spec_bits pw0 (lambda t') >? sae_group_2_hash_len group0 * 8)
    eqn:Eb; [exists false; reflexivity|].
  rewrite Z.gtb_ltb in Eb. apply Z.ltb_ge in Eb.
  pose proof (spec_Sec_range pw0) as Hsec.
  destruct (os_memcmp_const_spec
              (spec_trimmed h (spec_bits pw0 (lambda t')))
              (spec_expected pw0)
              (spec_byte_count (spec_bits pw0 (lambda t'))))
    as [r [Hr _]].
  - rewrite length_spec_trimmed. unfold spec_byte_count, spec_bits in *.
    Z.div_mod_to_equations. lia.
  - unfold spec_expected. rewrite length_app, repeat_length, length_spec_shifted.
    unfold spec_byte_count, spec_bits in *. Z.div_mod_to_equations. lia.
  - rewrite snd_bind, Hr. cbn [snd ret].
    destruct (negb (r =? 0)); eexists; reflexivity.
Qed.

(** X8: With a password [sae_pk_valid_password] accepts, [sae_pk_set_password]
    succeeds; [lambda] becomes the number of alphabet characters of the
    password, at least 8, and [pw] holds [ceil(5 * lambda / 8)] octets. *)
Theorem sae_pk_set_password_valid
        (sae : sae_data) (t : sae_temporary_data) (password : list char) :
  tmp sae = Some t -> ~ In NUL password ->
  Z.of_nat (length password) < 2 ^ 61 ->
  sae_pk_valid_password password = true ->
  fst (sae_pk_set_password sae password) = 0
  /\ exists (t' : sae_temporary_data) (pw0 : list u8),
      tmp (snd (sae_pk_set_password sae password)) = Some t'
      /\ pw t' = Some pw0
      /\ lambda t' = Z.of_nat (length (filter valid_char password))
      /\ 8 <= lambda t'
      /\ Z.of_nat (length pw0) = (5 * lambda t' + 7) / 8.
Proof. exact (set_password_valid_run sae t password). Qed.

(** X9: A call that fails on a non-empty password without any alphabet
    character or ['='] has still replaced the session's password: [pw] is
    NULL afterwards, whatever it held before. *)
Theorem sae_pk_set_password_clears
        (sae : sae_data) (t : sae_temporary_data) (password : list char) :
  tmp sae = Some t -> ~ In NUL password -> password <> [] ->
  filter valid_char password = [] ->
  fst (sae_pk_set_password sae password) = -1
  /\ exists t' : sae_temporary_data,
      tmp (snd (sae_pk_set_password sae password)) = Some t'
      /\ pw t' = None.
Proof.
  intros Ht Hn Hne Hf. unfold sae_pk_set_password. rewrite Ht.
  rewrite (os_strlen_no_nul password Hn).
  destruct (Z.ltb_spec (Z.of_nat (length password)) 1) as [Hl|_].
  { destruct password; [contradiction | cbn [length] in Hl; lia]. }
  unfold sae_pk_base32_decode. rewrite decode_count_filter, Hf.
  cbn [length Z.of_nat Z.eqb fst snd tmp pw].
  split; [reflexivity|]. eexists. split; reflexivity.
Qed.

(** The bound the fingerprint statement asks for holds after
    [sae_pk_set_password] with a password [sae_pk_valid_password] accepts:
    the expected fingerprint holds the octets that are compared. *)
Lemma sae_pk_set_password_fingerprint_bound
      (sae : sae_data) (t : sae_temporary_data) (password : list char) :
  tmp sae = Some t -> ~ In NUL password ->
  Z.of_nat (length password) < 2 ^ 61 ->
  sae_pk_valid_password password = true ->
  exists (t' : sae_temporary_data) (pw0 : list u8),
    tmp (snd (sae_pk_set_password sae password)) = Some t'
    /\ pw t' = Some pw0 /\ pw0 <> []
    /\ Z.of_nat (spec_byte_count (spec_bits pw0 (lambda t')))
       <= spec_Sec pw0 + Z.of_nat (length pw0).
Proof.
  intros Ht Hn Hlen Hv.
  destruct (set_password_valid_run sae t password Ht Hn Hlen Hv)
    as [_ [t' [pw0 [Ht' [Hpw [Hlam [H8 Hpl]]]]]]].
  exists t', pw0. split; [exact Ht'|]. split; [exact Hpw|].
  pose proof (spec_Sec_range pw0) as Hsec.
  split.
  - intros ->. cbn [length] in Hpl. Z.div_mod_to_equations. lia.
  - unfold spec_byte_count, spec_bits. Z.div_mod_to_equations. lia.
Qed.

(** X21: The check bounds the compared octets by the digest only.  When
    [bits <= 8 * hash_len(group)] but the expected fingerprint, of
    [Sec + |pw|] octets, is shorter than the [ceil(bits / 8)] octets to
    compare, the comparison leaves the expected fingerprint and the call
    does not return. *)
Theorem sae_pk_valid_fingerprint_over_read
        (sae : sae_data) (t : sae_temporary_data) (pw0 m0 k_ap : list u8)
        (group0 : Z) (h : list u8) :
  tmp sae = Some t -> pw t = Some pw0 -> pw0 <> [] ->
  group0 = 19 \/ group0 = 20 \/ group0 = 21 ->
  (group0 = 20 -> CONFIG_SHA384 = true) ->
  (group0 = 21 -> CONFIG_SHA512 = true) ->
  0 <= lambda t -> 5 * lambda t + 38 <= SIZE_MAX ->
  spec_H_group group0
    (firstn (Z.to_nat (ssid_len t)) (ssid t) ++ m0 ++ k_ap) = Some h ->
  Z.of_nat (length h) = sae_group_2_hash_len group0 ->
  spec_bits pw0 (lambda t) <= 8 * sae_group_2_hash_len group0 ->
  spec_Sec pw0 + Z.of_nat (length pw0)
  < Z.of_nat (spec_byte_count (spec_bits pw0 (lambda t))) ->
  snd (sae_pk_valid_fingerprint sae m0 k_ap group0) = Fault.
Proof.
  intros Ht Hpw Hne Hg H384 H512 Hl0 Hl1 HH Hh Hbits Hshort.
  rewrite (sae_pk_valid_fingerprint_run sae t pw0 m0 k_ap group0 h
             Ht Hpw Hne Hg H384 H512 Hl0 Hl1 HH Hh).
  destruct (Z.gtb_spec (spec_bits pw0 (lambda t))
                       (sae_group_2_hash_len group0 * 8)) as [H|_]; [lia|].
  pose proof (spec_Sec_range pw0) as Hsec.
  rewrite snd_bind, os_memcmp_const_fault; [reflexivity|].
  right. unfold spec_expected.
  rewrite length_app, repeat_length, length_spec_shifted. lia.
Qed.

End Password.

(** ** The element the builder writes *)

Section BuilderRuns.

Context {X : Externals}.

Lemma length_sae_pk_inner (pk0 : sae_pk) (c sig : list u8) :
  Z.of_nat (length c) = Z.of_nat (length (m pk0)) + AES_BLOCK_SIZE ->
  Z.of_nat (length (sae_pk_inner pk0 c sig)) = inner_len pk0 sig.
Proof.
  intros Hc. unfold sae_pk_inner, inner_len.
  rewrite !length_app. cbn [length]. unfold AES_BLOCK_SIZE, u8 in *. lia.
Qed.

(** The run of [sae_write_confirm_pk] up to its test for room: [elem]
    holds the inner container. *)
Lemma sae_write_confirm_pk_elem
      (sae : sae_data) (t : sae_temporary_data) (pk0 : sae_pk)
      (buf : wpabuf) (tr : list event) (hash sig c : list u8) :
  tmp sae = Some t -> ap_pk t = Some pk0 ->
  kek_len t = 32 \/ kek_len t = 48 \/ kek_len t = 64 ->
  ec t <> None ->
  sae_pk_hash_sig_data sae (sae_group_2_hash_len (pk_group pk0)) true
                       (m pk0) (pubkey pk0) = (tr, Ret (Some hash)) ->
  crypto_ec_key_sign (key pk0)
    (firstn (Z.to_nat (sae_group_2_hash_len (pk_group pk0))) hash) = Some sig ->
  aes_siv_encrypt (firstn (Z.to_nat (kek_len t)) (kek t)) (m pk0) = Some c ->
  Z.of_nat (length c) = Z.of_nat (length (m pk0)) + AES_BLOCK_SIZE ->
  inner_len pk0 sig <= 1500 + Z.of_nat (length sig) ->
  snd (sae_write_confirm_pk sae buf)
  = if 1500 + Z.of_nat (length sig) - inner_len pk0 sig <? 6 + wpabuf_len buf
    then Ret (-1, buf)
    else
      snd (buf <- wpabuf_put_u8 buf WLAN_EID_VENDOR_SPECIFIC ;;
           buf <- wpabuf_put_u8 buf (4 + inner_len pk0 sig) ;;
           buf <- wpabuf_put_be32 buf SAE_PK_IE_VENDOR_TYPE ;;
           buf <- wpabuf_put_data buf (sae_pk_inner pk0 c sig) ;;
           ret (0, buf)).
Proof.
  intros Ht Hpk Hkek Hec Hhash Hsig Henc Hc Hfit.
  pose proof (length_sae_pk_inner pk0 c sig Hc) as Hin.
  unfold inner_len in *.
  unfold sae_write_confirm_pk. rewrite Ht, Hpk.
  replace (negb (kek_len t =? 32) && negb (kek_len t =? 48)
           && negb (kek_len t =? 64)) with false
    by (destruct Hkek as [-> | [-> | ->]]; reflexivity).
  destruct (ec t) as [e|]; [clear Hec | contradiction].
  rewrite Hhash. rewrite snd_bind. cbn [snd].
  unfold call. rewrite Hsig. rewrite snd_bind. cbn [snd].
  unfold wpabuf_put_u8, wpabuf_put_buf, wpabuf_put_be32, wpabuf_head.
  cbn [wpabuf_data].
  unfold wpabuf_len at 1. cbn [wpabuf_data].
  rewrite snd_bind_put_data by (buffer_lengths; lia).
  rewrite snd_bind_put by (buffer_lengths; lia).
  rewrite Henc. rewrite snd_bind. cbn [snd].
  replace (Z.to_nat (Z.of_nat (length (m pk0)) + AES_BLOCK_SIZE))
    with (length c) by lia.
  rewrite snd_bind, wpabuf_store_reserved. cbn [snd ret].
  do 9 (rewrite snd_bind_put_data by (buffer_lengths; lia)).
  rewrite !wpabuf_app_app. cbn [app].
  change (wpabuf_app (wpabuf_alloc (1500 + Z.of_nat (length sig))) ?d)
    with {| wpabuf_size := 1500 + Z.of_nat (length sig); wpabuf_data := d |}.
  match goal with
  | |- context [wpabuf_tailroom ?e] =>
      change e with {| wpabuf_size := 1500 + Z.of_nat (length sig);
                       wpabuf_data := sae_pk_inner pk0 c sig |}
  end.
  assert (Hel : wpabuf_len {| wpabuf_size := 1500 + Z.of_nat (length sig);
                              wpabuf_data := sae_pk_inner pk0 c sig |}
                = 1 + (Z.of_nat (length (m pk0)) + AES_BLOCK_SIZE) + 4
                  + Z.of_nat (length (pubkey pk0)) + 3 + Z.of_nat (length sig))
    by (unfold wpabuf_len; cbn [wpabuf_data]; exact Hin).
  unfold wpabuf_tailroom. cbn [wpabuf_size wpabuf_data]. rewrite !Hel.
  destruct (_ <? 6 + wpabuf_len buf); reflexivity.
Qed.

Lemma sae_write_confirm_pk_run
        (sae : sae_data) (t : sae_temporary_data) (pk0 : sae_pk)
        (buf : wpabuf) (tr : list event) (hash sig c : list u8) :
  tmp sae = Some t -> ap_pk t = Some pk0 ->
  kek_len t = 32 \/ kek_len t = 48 \/ kek_len t = 64 ->
  ec t <> None ->
  sae_pk_hash_sig_data sae (sae_group_2_hash_len (pk_group pk0)) true
                       (m pk0) (pubkey pk0) = (tr, Ret (Some hash)) ->
  crypto_ec_key_sign (key pk0)
    (firstn (Z.to_nat (sae_group_2_hash_len (pk_group pk0))) hash) = Some sig ->
  aes_siv_encrypt (firstn (Z.to_nat (kek_len t)) (kek t)) (m pk0) = Some c ->
  Z.of_nat (length c) = Z.of_nat (length (m pk0)) + AES_BLOCK_SIZE ->
  6 + wpabuf_len buf <= 1500 + Z.of_nat (length sig) - inner_len pk0 sig ->
  6 + inner_len pk0 sig <= wpabuf_tailroom buf ->
  snd (sae_write_confirm_pk sae buf)
  = Ret (0, wpabuf_app buf (sae_pk_element pk0 c sig)).
Proof.
  intros Ht Hpk Hkek Hec Hhash Hsig Henc Hc Htest Hroom.
  pose proof (length_sae_pk_inner pk0 c sig Hc) as Hin.
  assert (Hfit : inner_len pk0 sig <= 1500 + Z.of_nat (length sig))
    by (unfold wpabuf_len in Htest; lia).
  rewrite (sae_write_confirm_pk_elem sae t pk0 buf tr hash sig c)
    by assumption.
  destruct (Z.ltb_spec (1500 + Z.of_nat (length sig) - inner_len pk0 sig)
                       (6 + wpabuf_len buf)) as [H|_]; [lia|].
  unfold wpabuf_tailroom in Hroom.
  assert (0 <= inner_len pk0 sig) by (unfold inner_len, AES_BLOCK_SIZE; lia).
  unfold wpabuf_put_u8, wpabuf_put_be32.
  do 4 (rewrite snd_bind_put_data by (buffer_lengths; lia)).
  cbn [snd ret]. rewrite !wpabuf_app_app. unfold sae_pk_element.
  rewrite Hin. reflexivity.
Qed.

(** X12: The test for room compares the scratch buffer with the caller's
    buffer: once the frame already holds more than
    [1500 + |sig| - |inner| - 6] octets the function returns -1 and leaves
    the buffer as it is, whatever tailroom the caller provided. *)
Theorem sae_write_confirm_pk_long_frame
        (sae : sae_data) (t : sae_temporary_data) (pk0 : sae_pk)
        (buf : wpabuf) (tr : list event) (hash sig c : list u8) :
  tmp sae = Some t -> ap_pk t = Some pk0 ->
  kek_len t = 32 \/ kek_len t = 48 \/ kek_len t = 64 ->
  ec t <> None ->
  sae_pk_hash_sig_data sae (sae_group_2_hash_len (pk_group pk0)) true
                       (m pk0) (pubkey pk0) = (tr, Ret (Some hash)) ->
  crypto_ec_key_sign (key pk0)
    (firstn (Z.to_nat (sae_group_2_hash_len (pk_group pk0))) hash) = Some sig ->
  aes_siv_encrypt (firstn (Z.to_nat (kek_len t)) (kek t)) (m pk0) = Some c ->
  Z.of_nat (length c) = Z.of_nat (length (m pk0)) + AES_BLOCK_SIZE ->
  inner_len pk0 sig <= 1500 + Z.of_nat (length sig) ->
  1500 + Z.of_nat (length sig) - inner_len pk0 sig < 6 + wpabuf_len buf ->
  snd (sae_write_confirm_pk sae buf) = Ret (-1, buf).
Proof.
  intros Ht Hpk Hkek Hec Hhash Hsig Henc Hc Hfit Htest.
  rewrite (sae_write_confirm_pk_elem sae t pk0 buf tr hash sig c)
    by assumption.
  destruct (Z.ltb_spec (1500 + Z.of_nat (length sig) - inner_len pk0 sig)
                       (6 + wpabuf_len buf)) as [_|H]; [reflexivity | lia].
Qed.

(** X13: A failure of the transcript hash, of the signature or of the
    encryption makes the function return -1 with the caller's buffer as
    it was. *)
Theorem sae_write_confirm_pk_crypto_failure
        (sae : sae_data) (t : sae_temporary_data) (pk0 : sae_pk)
        (buf : wpabuf) (tr : list event) (r : option (list u8)) :
  tmp sae = Some t -> ap_pk t = Some pk0 ->
  kek_len t = 32 \/ kek_len t = 48 \/ kek_len t = 64 ->
  ec t <> None ->
  sae_pk_hash_sig_data sae (sae_group_2_hash_len (pk_group pk0)) true
                       (m pk0) (pubkey pk0) = (tr, Ret r) ->
  Z.of_nat (length (m pk0)) + AES_BLOCK_SIZE + 1 <= 1500 ->
  (r = None
   \/ (exists hash, r = Some hash /\
         crypto_ec_key_sign (key pk0)
           (firstn (Z.to_nat (sae_group_2_hash_len (pk_group pk0))) hash)
         = None)
   \/ aes_siv_encrypt (firstn (Z.to_nat (kek_len t)) (kek t)) (m pk0) = None) ->
  snd (sae_write_confirm_pk sae buf) = Ret (-1, buf).
Proof.
  intros Ht Hpk Hkek Hec Hhash Hm Hfail.
  unfold sae_write_confirm_pk. rewrite Ht, Hpk.
  replace (negb (kek_len t =? 32) && negb (kek_len t =? 48)
           && negb (kek_len t =? 64)) with false
    by (destruct Hkek as [-> | [-> | ->]]; reflexivity).
  destruct (ec t) as [e|]; [clear Hec | contradiction].
  rewrite Hhash. rewrite snd_bind. cbn [snd].
  destruct r as [hash|]; [|reflexivity].
  unfold call. rewrite snd_bind. cbn [snd].
  destruct (crypto_ec_key_sign (key pk0) _) as [sig|] eqn:Es; [|reflexivity].
  destruct Hfail as [H|[[hash' [H1 H2]]|Henc]]; [discriminate H| |].
  - injection H1 as <-. rewrite H2 in Es. discriminate Es.
  - unfold wpabuf_put_u8.
    unfold wpabuf_len at 1. cbn [wpabuf_data].
    rewrite snd_bind_put_data by (buffer_lengths; lia).
    rewrite snd_bind_put by (buffer_lengths; lia).
    rewrite Henc. rewrite snd_bind. reflexivity.
Qed.

(** X14: A key container whose group has no hash in this build -- a group
    other than 19, 20 and 21, group 20 without CONFIG_SHA384, group 21
    without CONFIG_SHA512 -- cannot be signed for: once the data to be
    signed is serialized the function returns -1 with the caller's buffer
    as it was. *)
Theorem sae_write_confirm_pk_no_hash
        (sae : sae_data) (t : sae_temporary_data) (pk0 : sae_pk)
        (buf : wpabuf) (d : option wpabuf) :
  tmp sae = Some t -> ap_pk t = Some pk0 ->
  kek_len t = 32 \/ kek_len t = 48 \/ kek_len t = 64 ->
  ec t <> None ->
  pk_group pk0 <> 19 ->
  (pk_group pk0 = 20 -> CONFIG_SHA384 = false) ->
  (pk_group pk0 = 21 -> CONFIG_SHA512 = false) ->
  snd (sae_pk_sig_data sae true (m pk0) (pubkey pk0)) = Ret d ->
  snd (sae_write_confirm_pk sae buf) = Ret (-1, buf).
Proof.
  intros Ht Hpk Hkek Hec H19 H20 H21 Hd.
  unfold sae_write_confirm_pk. rewrite Ht, Hpk.
  replace (negb (kek_len t =? 32) && negb (kek_len t =? 48)
           && negb (kek_len t =? 64)) with false
    by (destruct Hkek as [-> | [-> | ->]]; reflexivity).
  destruct (ec t) as [e|]; [clear Hec | contradiction].
  unfold sae_group_2_hash_len.
  destruct (Z.eqb_spec (pk_group pk0) 19); [contradiction|].
  destruct (Z.eqb_spec (pk_group pk0) 20) as [E20|].
  { unfold sae_pk_hash_sig_data. rewrite !snd_bind, Hd.
    destruct d as [sd|]; [|reflexivity].
    unfold sae_hash. rewrite (H20 E20). cbn [Z.eqb Pos.eqb andb].
    rewrite andb_false_r. reflexivity. }
  destruct (Z.eqb_spec (pk_group pk0) 21) as [E21|].
  { unfold sae_pk_hash_sig_data. rewrite !snd_bind, Hd.
    destruct d as [sd|]; [|reflexivity].
    unfold sae_hash. rewrite (H21 E21). cbn [Z.eqb Pos.eqb andb].
    rewrite !andb_false_r. reflexivity. }
  unfold sae_pk_hash_sig_data. rewrite !snd_bind, Hd.
  destruct d as [sd|]; [|reflexivity].
  unfold sae_hash. cbn [Z.eqb]. rewrite !andb_false_r. reflexivity.
Qed.

(** X11: When the test for room passes and the caller's buffer has room, the
    function returns 0 and appends the SAE-PK element: vendor specific
    header, EncryptedModifier, FILS Public Key element, FILS Key
    Confirmation element. *)
Theorem sae_write_confirm_pk_appends
        (sae : sae_data) (t : sae_temporary_data) (pk0 : sae_pk)
        (buf : wpabuf) (tr : list event) (hash sig c : list u8) :
  tmp sae = Some t -> ap_pk t = Some pk0 ->
  kek_len t = 32 \/ kek_len t = 48 \/ kek_len t = 64 ->
  ec t <> None ->
  sae_pk_hash_sig_data sae (sae_group_2_hash_len (pk_group pk0)) true
                       (m pk0) (pubkey pk0) = (tr, Ret (Some hash)) ->
  crypto_ec_key_sign (key pk0)
    (firstn (Z.to_nat (sae_group_2_hash_len (pk_group pk0))) hash) = Some sig ->
  aes_siv_encrypt (firstn (Z.to_nat (kek_len t)) (kek t)) (m pk0) = Some c ->
  Z.of_nat (length c) = Z.of_nat (length (m pk0)) + AES_BLOCK_SIZE ->
  6 + wpabuf_len buf <= 1500 + Z.of_nat (length sig) - inner_len pk0 sig ->
  6 + inner_len pk0 sig <= wpabuf_tailroom buf ->
  snd (sae_write_confirm_pk sae buf)
  = Ret (0, wpabuf_app buf (sae_pk_element pk0 c sig)).
Proof. exact (sae_write_confirm_pk_run sae t pk0 buf tr hash sig c). Qed.

End BuilderRuns.

(** ** The parser on the element the builder writes *)

Lemma read_nth (a : list u8) (i : Z) (v : u8) :
  0 <= i -> nth_error a (Z.to_nat i) = Some v ->
  read a i = ret (byte.unsigned v).
Proof.
  intros Hi Hn. unfold read. destruct (Z.ltb_spec i 0) as [H|_]; [lia|].
  rewrite Hn. reflexivity.
Qed.

Lemma read_app_r (a b : list u8) (i : Z) :
  Z.of_nat (length a) <= i -> read (a ++ b) i = read b (i - Z.of_nat (length a)).
Proof.
  intros Hi. unfold read.
  destruct (Z.ltb_spec i 0) as [H|_]; [lia|].
  destruct (Z.ltb_spec (i - Z.of_nat (length a)) 0) as [H|_]; [lia|].
  rewrite nth_error_app2 by lia.
  replace (Z.to_nat i - length a)%nat with (Z.to_nat (i - Z.of_nat (length a)))
    by lia.
  reflexivity.
Qed.

Lemma slice_app_r (a b : list u8) (off len : Z) :
  Z.of_nat (length a) <= off ->
  slice (a ++ b) off len = slice b (off - Z.of_nat (length a)) len.
Proof.
  intros Ho. unfold slice. rewrite length_app.
  destruct (Z.ltb_spec off 0) as [H|_]; [lia|].
  destruct (Z.ltb_spec (off - Z.of_nat (length a)) 0) as [H|_]; [lia|].
  cbn [orb]. destruct (len <? 0); [reflexivity|]. cbn [orb].
  replace (off - Z.of_nat (length a) + len >? Z.of_nat (length b))
    with (off + len >? Z.of_nat (length a + length b))
    by (destruct (Z.gtb_spec (off + len) (Z.of_nat (length a + length b))),
          (Z.gtb_spec (off - Z.of_nat (length a) + len) (Z.of_nat (length b)));
        reflexivity || lia).
  destruct (off + len >? Z.of_nat (length a + length b)); [reflexivity|].
  rewrite skipn_app, skipn_all2 by lia. cbn [app].
  replace (Z.to_nat off - length a)%nat
    with (Z.to_nat (off - Z.of_nat (length a))) by lia.
  reflexivity.
Qed.

Lemma slice_prefix (a b : list u8) :
  slice (a ++ b) 0 (Z.of_nat (length a)) = ret a.
Proof.
  unfold slice. rewrite length_app.
  destruct (Z.ltb_spec (Z.of_nat (length a)) 0) as [H|_]; [lia|].
  destruct (Z.gtb_spec (0 + Z.of_nat (length a))
                       (Z.of_nat (length a + length b))) as [H|_]; [lia|].
  cbn [Z.ltb orb]. change (Z.to_nat 0) with 0%nat. cbn [skipn].
  rewrite Nat2Z.id, firstn_app, firstn_all, Nat.sub_diag, firstn_0, app_nil_r.
  reflexivity.
Qed.

Lemma unsigned_of_Z_small (z : Z) :
  0 <= z < 256 -> byte.unsigned (byte.of_Z z) = z.
Proof.
  intros H. rewrite byte.unsigned_of_Z. unfold byte.wrap.
  apply Z.mod_small. exact H.
Qed.

Lemma read_skip4 (x1 x2 x3 x4 : u8) (b : list u8) (i : Z) :
  4 <= i -> read ([x1; x2; x3; x4] ++ b) i = read b (i - 4).
Proof. intros Hi. rewrite read_app_r by (cbn [length]; lia). reflexivity. Qed.

Lemma slice_skip4 (x1 x2 x3 x4 : u8) (b : list u8) (o l : Z) :
  4 <= o -> slice ([x1; x2; x3; x4] ++ b) o l = slice b (o - 4) l.
Proof. intros Ho. rewrite slice_app_r by (cbn [length]; lia). reflexivity. Qed.

Section ParserRuns.

Context {X : Externals}.

(** Where the parser finds what in the element *)
Lemma sae_pk_element_map (pk0 : sae_pk) (c sig : list u8) :
  Z.of_nat (length c) = 32 ->
  let ies := sae_pk_element pk0 c sig in
  let n := Z.of_nat (length (pubkey pk0)) in
  read ies 1
  = ret (byte.unsigned
           (byte.of_Z (4 + Z.of_nat (length (sae_pk_inner pk0 c sig)))))
  /\ read ies 6
     = ret (byte.unsigned (byte.of_Z (Z.of_nat (length (m pk0)) + AES_BLOCK_SIZE)))
  /\ slice ies 7 32 = ret c
  /\ read ies 39 = ret (byte.unsigned (byte.of_Z WLAN_EID_EXTENSION))
  /\ read ies 40 = ret (byte.unsigned (byte.of_Z (2 + n)))
  /\ read ies 41 = ret (byte.unsigned (byte.of_Z WLAN_EID_EXT_FILS_PUBLIC_KEY))
  /\ read ies 42 = ret (byte.unsigned (byte.of_Z 3))
  /\ slice ies 43 n = ret (pubkey pk0)
  /\ read ies (43 + n) = ret (byte.unsigned (byte.of_Z WLAN_EID_EXTENSION))
  /\ read ies (44 + n)
     = ret (byte.unsigned (byte.of_Z (1 + Z.of_nat (length sig))))
  /\ read ies (45 + n)
     = ret (byte.unsigned (byte.of_Z WLAN_EID_EXT_FILS_KEY_CONFIRM))
  /\ slice ies (46 + n) (Z.of_nat (length sig)) = ret sig.
Proof.
  intros Hc ies n. unfold ies, sae_pk_element.
  set (inner := sae_pk_inner pk0 c sig).
  split; [apply read_nth; [lia | reflexivity]|].
  assert (Hskip6 : forall i, 6 <= i ->
            read ([byte.of_Z WLAN_EID_VENDOR_SPECIFIC;
                   byte.of_Z (4 + Z.of_nat (length inner));
                   byte.of_Z (Z.shiftr SAE_PK_IE_VENDOR_TYPE 24);
                   byte.of_Z (Z.shiftr SAE_PK_IE_VENDOR_TYPE 16);
                   byte.of_Z (Z.shiftr SAE_PK_IE_VENDOR_TYPE 8);
                   byte.of_Z SAE_PK_IE_VENDOR_TYPE] ++ inner) i
            = read inner (i - 6))
    by (intros i Hi; rewrite read_app_r by (cbn [length]; lia); reflexivity).
  assert (Hslice6 : forall o l, 6 <= o ->
            slice ([byte.of_Z WLAN_EID_VENDOR_SPECIFIC;
                    byte.of_Z (4 + Z.of_nat (length inner));
                    byte.of_Z (Z.shiftr SAE_PK_IE_VENDOR_TYPE 24);
                    byte.of_Z (Z.shiftr SAE_PK_IE_VENDOR_TYPE 16);
                    byte.of_Z (Z.shiftr SAE_PK_IE_VENDOR_TYPE 8);
                    byte.of_Z SAE_PK_IE_VENDOR_TYPE] ++ inner) o l
            = slice inner (o - 6) l)
    by (intros o l Ho; rewrite slice_app_r by (cbn [length]; lia); reflexivity).
  rewrite !Hskip6, !Hslice6 by lia. clear Hskip6 Hslice6.
  unfold inner, sae_pk_inner. clear inner.
  split; [apply read_nth; [lia | reflexivity]|].
  (* behind the length octet *)
  assert (Hr1 : forall (b : list u8) i, 1 <= i ->
            read ([byte.of_Z (Z.of_nat (length (m pk0)) + AES_BLOCK_SIZE)] ++ b) i
            = read b (i - 1))
    by (intros b i Hi; rewrite read_app_r by (cbn [length]; lia); reflexivity).
  assert (Hs1 : forall (b : list u8) o l, 1 <= o ->
            slice ([byte.of_Z (Z.of_nat (length (m pk0)) + AES_BLOCK_SIZE)] ++ b) o l
            = slice b (o - 1) l)
    by (intros b o l Ho; rewrite slice_app_r by (cbn [length]; lia); reflexivity).
  rewrite !Hr1, !Hs1 by lia. clear Hr1 Hs1.
  split.
  { change (7 - 6 - 1) with 0. rewrite <- Hc. apply slice_prefix. }
  (* behind the encrypted modifier *)
  assert (Hr2 : forall (b : list u8) i, 32 <= i ->
            read (c ++ b) i = read b (i - 32))
    by (intros b i Hi; rewrite read_app_r by lia; rewrite Hc; reflexivity).
  assert (Hs2 : forall (b : list u8) o l, 32 <= o ->
            slice (c ++ b) o l = slice b (o - 32) l)
    by (intros b o l Ho; rewrite slice_app_r by lia; rewrite Hc; reflexivity).
  rewrite !Hr2, !Hs2 by lia. clear Hr2 Hs2.
  split; [apply read_nth; [lia | reflexivity]|].
  split; [apply read_nth; [lia | reflexivity]|].
  split; [apply read_nth; [lia | reflexivity]|].
  split; [apply read_nth; [lia | reflexivity]|].
  (* behind the header of the public key element *)
  assert (Hn : 0 <= n) by (unfold n; lia).
  do 3 (rewrite read_skip4 by lia). do 2 (rewrite slice_skip4 by lia).
  split.
  { replace (43 - 6 - 1 - 32 - 4) with 0 by lia. apply slice_prefix. }
  do 3 (rewrite (read_app_r (pubkey pk0)) by (fold n; lia)).
  rewrite (slice_app_r (pubkey pk0)) by (fold n; lia).
  fold n.
  split; [apply read_nth; [lia|];
          replace (43 + n - 6 - 1 - 32 - 4 - n) with 0 by lia; reflexivity|].
  split; [apply read_nth; [lia|];
          replace (44 + n - 6 - 1 - 32 - 4 - n) with 1 by lia; reflexivity|].
  split; [apply read_nth; [lia|];
          replace (45 + n - 6 - 1 - 32 - 4 - n) with 2 by lia; reflexivity|].
  rewrite slice_app_r by (cbn [length]; lia). cbn [length].
  replace (46 + n - 6 - 1 - 32 - 4 - n - Z.of_nat 3) with 0 by lia.
  rewrite <- (app_nil_r sig) at 1. apply slice_prefix.
Qed.

Ltac cond_false :=
  match goal with
  | |- context [if ?cond then ret (-1) else _] =>
      replace cond with false
        by (symmetry;
            repeat first
              [ apply orb_false_intro
              | apply negb_false_iff; apply Z.eqb_eq; (reflexivity || lia)
              | apply Z.ltb_ge; lia
              | rewrite Z.gtb_ltb; apply Z.ltb_ge; lia ])
  end.

(** The parser accepts the element [sae_pk_element pk0 c sig] when the
    collaborators accept its parts. *)
Lemma sae_check_confirm_pk_element
      (sae : sae_data) (t : sae_temporary_data) (pk0 : sae_pk)
      (c sig m' : list u8) (key' : crypto_ec_key) (hash' : list u8) :
  tmp sae = Some t -> pk sae = true -> ap_pk t = None ->
  kek_len t = 32 \/ kek_len t = 48 \/ kek_len t = 64 ->
  ec t <> None ->
  Z.of_nat (length (m pk0)) = SAE_PK_M_LEN ->
  Z.of_nat (length c) = SAE_PK_M_LEN + AES_BLOCK_SIZE ->
  1 <= Z.of_nat (length sig) ->
  4 + inner_len pk0 sig <= 255 ->
  get_vendor_ie (sae_pk_element pk0 c sig) SAE_PK_IE_VENDOR_TYPE = Some 0 ->
  aes_siv_decrypt (firstn (Z.to_nat (kek_len t)) (kek t)) c = Some m' ->
  crypto_ec_key_parse_pub (pubkey pk0) = Some key' ->
  crypto_ec_key_group key' = group sae ->
  snd (sae_pk_valid_fingerprint sae (firstn (Z.to_nat SAE_PK_M_LEN) m')
                                (pubkey pk0) (group sae)) = Ret true ->
  snd (sae_pk_hash_sig_data sae (sae_group_2_hash_len (group sae)) false
                            (firstn (Z.to_nat SAE_PK_M_LEN) m') (pubkey pk0))
  = Ret (Some hash') ->
  crypto_ec_key_verify_signature key'
    (firstn (Z.to_nat (sae_group_2_hash_len (group sae))) hash') sig = 1 ->
  snd (sae_check_confirm_pk sae (sae_pk_element pk0 c sig)) = Ret 0.
Proof.
  intros Ht Hpk Hap Hkek Hec Hm Hc Hsig Hlen Hie Hdec Hpub Hgrp Hfp Hhash Hver.
  assert (Hin : Z.of_nat (length (sae_pk_inner pk0 c sig)) = inner_len pk0 sig)
    by (apply length_sae_pk_inner; unfold SAE_PK_M_LEN in *; lia).
  unfold sae_check_confirm_pk. rewrite Ht, Hpk, Hap. cbn [negb orb].
  replace (negb (kek_len t =? 32) && negb (kek_len t =? 48)
           && negb (kek_len t =? 64)) with false
    by (destruct Hkek as [-> | [-> | ->]]; reflexivity).
  destruct (ec t) as [e|]; [clear Hec | contradiction].
  rewrite Hie.
  unfold inner_len, SAE_PK_M_LEN, AES_BLOCK_SIZE in *.
  destruct (sae_pk_element_map pk0 c sig ltac:(lia))
    as [R1 [R6 [S7 [R39 [R40 [R41 [R42 [S43 [RK0 [RK1 [RK2 S46]]]]]]]]]]].
  set (n := Z.of_nat (length (pubkey pk0))) in *.
  assert (Hn : 0 <= n) by (unfold n; lia).
  rewrite Hin, unsigned_of_Z_small in R1 by lia.
  unfold AES_BLOCK_SIZE in R6. rewrite unsigned_of_Z_small in R6 by lia.
  rewrite unsigned_of_Z_small in R40 by lia.
  rewrite unsigned_of_Z_small in RK1 by lia.
  change (byte.unsigned (byte.of_Z WLAN_EID_EXTENSION)) with 255 in *.
  change (byte.unsigned (byte.of_Z WLAN_EID_EXT_FILS_PUBLIC_KEY)) with 12 in *.
  change (byte.unsigned (byte.of_Z WLAN_EID_EXT_FILS_KEY_CONFIRM)) with 3 in *.
  change (byte.unsigned (byte.of_Z 3)) with 3 in *.
  unfold WLAN_EID_EXTENSION, WLAN_EID_EXT_FILS_PUBLIC_KEY,
    WLAN_EID_EXT_FILS_KEY_CONFIRM.
  change (0 + 2 + 4 + 1 + (16 + 16)) with 39.
  change (0 + 2 + 4 + 1) with 7. change (0 + 2 + 4) with 6.
  change (0 + 2) with 2. change (0 + 1) with 1.
  change (39 + 1) with 40. change (39 + 2) with 41. change (39 + 3) with 42.
  change (39 + 4) with 43.
  rewrite R1, bind_ret. cond_false.
  rewrite R6, bind_ret. cond_false. cond_false.
  rewrite R39, bind_ret. cond_false.
  rewrite R40, bind_ret. cond_false.
  rewrite R41, bind_ret. cond_false.
  rewrite R42, bind_ret. cond_false.
  replace (2 + n - 2) with n by lia. cond_false.
  rewrite RK0, bind_ret. cond_false.
  replace (43 + n + 1) with (44 + n) by lia.
  rewrite RK1, bind_ret. cond_false.
  replace (43 + n + 2) with (45 + n) by lia.
  rewrite RK2, bind_ret. cond_false.
  change (16 + 16) with 32. rewrite S7, bind_ret.
  rewrite snd_bind. unfold call at 1. cbn [snd]. rewrite Hdec.
  rewrite S43, bind_ret.
  rewrite snd_bind. unfold call at 1. cbn [snd]. rewrite Hpub.
  rewrite snd_bind. unfold call at 1. cbn [snd]. rewrite Hgrp.
  rewrite snd_bind, Hfp. cbn [negb].
  rewrite Z.eqb_refl. cbn [negb].
  rewrite snd_bind, Hhash.
  replace (43 + n + 3) with (46 + n) by lia.
  replace (1 + Z.of_nat (length sig) - 1) with (Z.of_nat (length sig)) by lia.
  rewrite S46, bind_ret.
  rewrite snd_bind. unfold call at 1. cbn [snd]. rewrite Hver. reflexivity.
Qed.

Lemma snd_bind_Ret_inv {A B : Type} (r : run A) (k : A -> run B) (v : B) :
  snd (bind r k) = Ret v -> exists a, snd r = Ret a /\ snd (k a) = Ret v.
Proof.
  rewrite snd_bind. destruct (snd r) as [a| |]; [|discriminate|discriminate].
  intros H. exists a. split; [reflexivity | exact H].
Qed.

Ltac run_bind H a Ha :=
  apply snd_bind_Ret_inv in H; destruct H as [a [Ha H]].

Ltac run_if H E :=
  match type of H with
  | snd (if ?cond then _ else _) = Ret _ =>
      destruct cond eqn:E; [cbn [snd ret] in H; discriminate H|]
  end.

Ltac run_call H :=
  let a := fresh "a" in
  let Ha := fresh "Ha" in
  apply snd_bind_Ret_inv in H; destruct H as [a [Ha H]];
  unfold call in Ha; cbn [snd] in Ha; injection Ha as Ha; subst a.

(** X16: The parser never accepts without verification.  When
    [sae_check_confirm_pk] returns 0 for a session that has SAE-PK
    enabled and no key container of its own, the element it found holds
    an EncryptedModifier that decrypted under the KEK, a key that parsed
    and belongs to the session's group, the fingerprint check passed for
    the decrypted modifier and that key, and the signature over the
    transcript hash verified with that key. *)
Theorem sae_check_confirm_pk_accepts
        (sae : sae_data) (t : sae_temporary_data) (ies : list u8) :
  tmp sae = Some t -> pk sae = true -> ap_pk t = None ->
  snd (sae_check_confirm_pk sae ies) = Ret 0 ->
  exists (off klen alen : Z) (encr m0 k_ap key_auth hash : list u8)
         (key0 : crypto_ec_key),
    get_vendor_ie ies SAE_PK_IE_VENDOR_TYPE = Some off
    /\ snd (slice ies (off + 7) 32) = Ret encr
    /\ aes_siv_decrypt (firstn (Z.to_nat (kek_len t)) (kek t)) encr = Some m0
    /\ snd (slice ies (off + 43) klen) = Ret k_ap
    /\ crypto_ec_key_parse_pub k_ap = Some key0
    /\ crypto_ec_key_group key0 = group sae
    /\ snd (sae_pk_valid_fingerprint sae (firstn (Z.to_nat SAE_PK_M_LEN) m0)
                                     k_ap (group sae)) = Ret true
    /\ snd (sae_pk_hash_sig_data sae (sae_group_2_hash_len (group sae)) false
                                 (firstn (Z.to_nat SAE_PK_M_LEN) m0) k_ap)
       = Ret (Some hash)
    /\ snd (slice ies (off + 46 + klen) alen) = Ret key_auth
    /\ crypto_ec_key_verify_signature key0
         (firstn (Z.to_nat (sae_group_2_hash_len (group sae))) hash) key_auth
       = 1.
Proof.
  intros Ht Hpk Hap H. unfold sae_check_confirm_pk in H.
  rewrite Ht, Hpk, Hap in H. cbn [negb orb] in H.
  run_if H Ekek.
  destruct (ec t) as [e|]; [|cbn [snd ret] in H; discriminate H].
  destruct (get_vendor_ie ies SAE_PK_IE_VENDOR_TYPE) as [off|] eqn:Hie;
    [|cbn [snd ret] in H; discriminate H].
  unfold SAE_PK_M_LEN, AES_BLOCK_SIZE in H.
  run_bind H l Hl. run_if H E1.
  run_bind H v Hv. run_if H E2. run_if H E3.
  run_bind H p0 Hp0. run_if H E4.
  run_bind H p1 Hp1. run_if H E5.
  run_bind H p2 Hp2. run_if H E6.
  run_bind H p3 Hp3. run_if H E7. run_if H E8.
  run_bind H q0 Hq0. run_if H E9.
  run_bind H q1 Hq1. run_if H E10.
  run_bind H q2 Hq2. run_if H E11.
  run_bind H encr Hencr. run_call H.
  destruct (aes_siv_decrypt _ encr) as [m0|] eqn:Hdec;
    [|cbn [snd ret] in H; discriminate H].
  run_bind H k_ap Hk. run_call H.
  destruct (crypto_ec_key_parse_pub k_ap) as [key0|] eqn:Hpub;
    [|cbn [snd ret] in H; discriminate H].
  run_call H.
  run_bind H ok Hok. run_if H E12. run_if H E13.
  run_bind H r Hr.
  destruct r as [hash|]; [|cbn [snd ret] in H; discriminate H].
  run_bind H key_auth Hka. run_call H. run_if H E14.
  apply negb_false_iff in E12, E13, E14. apply Z.eqb_eq in E13, E14.
  subst ok. rewrite E13 in *.
  exists off, (p1 - 2), (q1 - 1), encr, m0, k_ap, key_auth, hash, key0.
  split; [reflexivity|].
  replace (off + 7) with (off + 2 + 4 + 1) by lia.
  split; [exact Hencr|]. split; [exact Hdec|].
  replace (off + 43) with (off + 2 + 4 + 1 + (16 + 16) + 4) by lia.
  split; [exact Hk|]. split; [exact Hpub|]. split; [exact E13|].
  split; [exact Hok|]. split; [exact Hr|].
  replace (off + 46 + (p1 - 2))
    with (off + 2 + 4 + 1 + (16 + 16) + 4 + (p1 - 2) + 3) by lia.
  split; [exact Hka|]. exact E14.
Qed.

End ParserRuns.

(** ** The element built by the AP is accepted by the STA *)

Section RoundTrip.

Context {X : Externals}.

(** The two sides serialize the same transcript (shared with the
    statement on the signed data above). *)
Lemma sae_pk_hash_sig_data_roles
      (ap_side sta_side : sae_data) (ta ts : sae_temporary_data)
      (hash_len : Z) (m0 pubkey0 : list u8) :
  tmp ap_side = Some ta -> tmp sta_side = Some ts ->
  ec ta = ec ts -> prime_len ta = prime_len ts ->
  own_commit_element_ecc ta = peer_commit_element_ecc ts ->
  peer_commit_element_ecc ta = own_commit_element_ecc ts ->
  own_commit_scalar ta = peer_commit_scalar sta_side ->
  peer_commit_scalar ap_side = own_commit_scalar ts ->
  own_addr ta = peer_addr ts -> peer_addr ta = own_addr ts ->
  sae_pk_hash_sig_data sta_side hash_len false m0 pubkey0
  = sae_pk_hash_sig_data ap_side hash_len true m0 pubkey0.
Proof.
  intros Ha Hs Hec Hpl Hoe Hpe Hos Hps Hoa Hpa.
  unfold sae_pk_hash_sig_data, sae_pk_sig_data. rewrite Ha, Hs.
  cbn [deref]. rewrite !bind_ret. cbv iota.
  rewrite Hec, Hpl, Hoe, Hpe, Hos, Hps, Hoa, Hpa. reflexivity.
Qed.

(** X18: The AP writes its confirm element into an empty frame buffer with
    room for it; the STA, whose session mirrors the AP's (same curve, KEK
    and group, own and peer values exchanged), finds the element at the
    head of the frame.  If AES-SIV decryption under the KEK undoes the
    encryption, the transmitted key parses to a key of the group that
    verifies the AP's signature, and the fingerprint of modifier and key
    matches the password, then [sae_write_confirm_pk] returns 0 and
    [sae_check_confirm_pk] returns 0 on what it wrote. *)
Theorem sae_confirm_pk_round_trip
        (ap_side sta_side : sae_data) (ta ts : sae_temporary_data)
        (pk0 : sae_pk) (size : Z) (tr : list event) (hash sig c : list u8)
        (key' : crypto_ec_key) :
  tmp ap_side = Some ta -> ap_pk ta = Some pk0 ->
  kek_len ta = 32 \/ kek_len ta = 48 \/ kek_len ta = 64 ->
  ec ta <> None ->
  Z.of_nat (length (m pk0)) = SAE_PK_M_LEN ->
  sae_pk_hash_sig_data ap_side (sae_group_2_hash_len (pk_group pk0)) true
                       (m pk0) (pubkey pk0) = (tr, Ret (Some hash)) ->
  crypto_ec_key_sign (key pk0)
    (firstn (Z.to_nat (sae_group_2_hash_len (pk_group pk0))) hash) = Some sig ->
  aes_siv_encrypt (firstn (Z.to_nat (kek_len ta)) (kek ta)) (m pk0) = Some c ->
  Z.of_nat (length c) = Z.of_nat (length (m pk0)) + AES_BLOCK_SIZE ->
  1 <= Z.of_nat (length sig) -> 4 + inner_len pk0 sig <= 255 ->
  6 + inner_len pk0 sig <= size ->
  tmp sta_side = Some ts -> pk sta_side = true -> ap_pk ts = None ->
  group sta_side = pk_group pk0 ->
  kek_len ts = kek_len ta -> kek ts = kek ta ->
  ec ta = ec ts -> prime_len ta = prime_len ts ->
  own_commit_element_ecc ta = peer_commit_element_ecc ts ->
  peer_commit_element_ecc ta = own_commit_element_ecc ts ->
  own_commit_scalar ta = peer_commit_scalar sta_side ->
  peer_commit_scalar ap_side = own_commit_scalar ts ->
  own_addr ta = peer_addr ts -> peer_addr ta = own_addr ts ->
  get_vendor_ie (sae_pk_element pk0 c sig) SAE_PK_IE_VENDOR_TYPE = Some 0 ->
  aes_siv_decrypt (firstn (Z.to_nat (kek_len ta)) (kek ta)) c
  = Some (m pk0) ->
  crypto_ec_key_parse_pub (pubkey pk0) = Some key' ->
  crypto_ec_key_group key' = pk_group pk0 ->
  crypto_ec_key_verify_signature key'
    (firstn (Z.to_nat (sae_group_2_hash_len (pk_group pk0))) hash) sig = 1 ->
  snd (sae_pk_valid_fingerprint sta_side (m pk0) (pubkey pk0) (pk_group pk0))
  = Ret true ->
  exists frame : wpabuf,
    snd (sae_write_confirm_pk ap_side (wpabuf_alloc size)) = Ret (0, frame)
    /\ wpabuf_data frame = sae_pk_element pk0 c sig
    /\ snd (sae_check_confirm_pk sta_side (wpabuf_data frame)) = Ret 0.
Proof.
  intros Hta Hpk0 Hkek Hec Hm Hhash Hsign Henc Hc Hsig Hlen Hsize
         Hts Hpk Hap Hgrp Hkl Hk Hece Hpl Hoe Hpe Hos Hps Hoa Hpa
         Hie Hdec Hpub Hkg Hver Hfp.
  exists (wpabuf_app (wpabuf_alloc size) (sae_pk_element pk0 c sig)).
  assert (Hfirst : firstn (Z.to_nat SAE_PK_M_LEN) (m pk0) = m pk0).
  { apply firstn_all2. unfold u8 in *. lia. }
  split; [|split; [reflexivity|]].
  - apply (sae_write_confirm_pk_run ap_side ta pk0 _ tr hash sig c);
      try assumption.
    + rewrite wpabuf_len_alloc. lia.
    + unfold wpabuf_tailroom. rewrite wpabuf_len_alloc, wpabuf_size_alloc. lia.
  - change (wpabuf_data (wpabuf_app (wpabuf_alloc size)
                                    (sae_pk_element pk0 c sig)))
      with (sae_pk_element pk0 c sig).
    apply (sae_check_confirm_pk_element sta_side ts pk0 c sig (m pk0)
                                        key' hash); try assumption.
    + rewrite Hkl. exact Hkek.
    + rewrite <- Hece. exact Hec.
    + rewrite Hc, Hm. reflexivity.
    + rewrite Hkl, Hk. exact Hdec.
    + rewrite Hkg, Hgrp. reflexivity.
    + rewrite Hfirst, Hgrp. exact Hfp.
    + rewrite Hfirst, Hgrp.
      rewrite (sae_pk_hash_sig_data_roles ap_side sta_side ta ts) by assumption.
      rewrite Hhash. reflexivity.
    + rewrite Hgrp. exact Hver.
Qed.

End RoundTrip.

(** ** The key container parser *)

Section KeyContainer.

Context {X : Externals} {K : KeyExternals}.

Lemma colon_offset (pos : Z) :
  Z.land pos 1 = 0 -> pos / 2 = SAE_PK_M_LEN -> pos = 32.
Proof.
  intros Hodd Hlen. unfold SAE_PK_M_LEN in Hlen.
  change 1 with (Z.ones 1) in Hodd. rewrite Z.land_ones in Hodd by lia.
  change (2 ^ 1) with 2 in Hodd.
  pose proof (Z.div_mod pos 2 ltac:(lia)). lia.
Qed.

Lemma snd_key_bind {A B : Type} (r : key_run A) (k : A -> key_run B) :
  snd (key_bind r k)
  = match snd r with
    | Ret a => snd (k a)
    | Overflow => Overflow
    | Fault => Fault
    end.
Proof.
  destruct r as [t [a| |]]; cbn [key_bind snd]; [|reflexivity|reflexivity].
  destruct (k a). reflexivity.
Qed.

(** X19: [sae_parse_pk] returns NULL without a call to [hexstr2bin], to
    [base64_decode] or into the crypto library, unless the first colon of
    the text stands at offset 32, that is unless the hex dump in front
    of it has exactly twice [SAE_PK_M_LEN] characters. *)
Theorem sae_parse_pk_colon (val : list char) :
  os_strchr val ":"%char <> Some 32 ->
  sae_parse_pk val = ([], Ret None).
Proof.
  intros Hcolon. unfold sae_parse_pk.
  destruct (os_strchr val ":"%char) as [pos|]; [|reflexivity].
  destruct (Z.eqb_spec (Z.land pos 1) 0) as [Hodd|]; [|reflexivity].
  destruct (Z.eqb_spec (pos / 2) SAE_PK_M_LEN) as [Hlen|]; [|reflexivity].
  exfalso. apply Hcolon. f_equal. apply colon_offset; assumption.
Qed.

(** X20: A container returned by [sae_parse_pk] holds a modifier of exactly
    [SAE_PK_M_LEN] octets that starts with what [hexstr2bin] stored, the
    key parsed from the base64 text behind the colon at offset 32, the
    group of that key and its subject public key. *)
Theorem sae_parse_pk_accepts (val : list char) (pk0 : sae_pk) :
  snd (sae_parse_pk val) = Ret (Some pk0) ->
  os_strchr val ":"%char = Some 32
  /\ Z.of_nat (length (m pk0)) = SAE_PK_M_LEN
  /\ (exists d : list u8,
         hexstr2bin val SAE_PK_M_LEN = Some d
         /\ firstn (length d) (m pk0) = d)
  /\ (exists der : list u8,
         base64_decode (skipn 33 val) (os_strlen (skipn 33 val)) = Some der
         /\ crypto_ec_key_parse_priv der = Some (key pk0))
  /\ pk_group pk0 = crypto_ec_key_group (key pk0)
  /\ crypto_ec_key_get_subject_public_key (key pk0) = Some (pubkey pk0).
Proof.
  intros H. unfold sae_parse_pk in H.
  destruct (os_strchr val ":"%char) as [pos|];
    [|cbn [snd key_ret] in H; discriminate H].
  destruct (Z.eqb_spec (Z.land pos 1) 0) as [Hodd|];
    [|cbn [snd key_ret negb] in H; discriminate H].
  destruct (Z.eqb_spec (pos / 2) SAE_PK_M_LEN) as [Hlen|];
    [|cbn [snd key_ret negb] in H; discriminate H].
  cbn [negb] in H.
  assert (Hpos : pos = 32) by (apply colon_offset; assumption).
  subst pos. clear Hodd Hlen.
  change (32 / 2) with 16 in H. change (Z.to_nat (32 + 1)) with 33%nat in H.
  unfold SAE_PK_M_LEN.
  rewrite snd_key_bind in H.
  cbn [key_lift snd wpabuf_put wpabuf_alloc wpabuf_len wpabuf_data
       wpabuf_size length Z.of_nat Z.add Z.gtb Z.compare Pos.compare
       Pos.compare_cont ret] in H.
  rewrite snd_key_bind in H. cbn [key_call snd] in H.
  destruct (hexstr2bin val 16) as [d|] eqn:Hhex;
    [|cbn [snd key_ret] in H; discriminate H].
  rewrite snd_key_bind in H. unfold key_lift, wpabuf_store in H.
  cbn [wpabuf_len wpabuf_data wpabuf_size Z.ltb Z.compare orb app] in H.
  unfold wpabuf_len in H. cbn [wpabuf_data app] in H.
  rewrite repeat_length in H.
  destruct (0 + Z.of_nat (length d) >? Z.of_nat (Z.to_nat 16)) eqn:Efit;
    [cbn in H; discriminate H|].
  cbn [snd ret] in H.
  rewrite snd_key_bind in H. cbn [key_call snd] in H.
  destruct (base64_decode (skipn 33 val) (os_strlen (skipn 33 val)))
    as [der|] eqn:Hder; [|cbn [snd key_ret] in H; discriminate H].
  rewrite snd_key_bind in H. cbn [key_call snd] in H.
  destruct (crypto_ec_key_parse_priv der) as [k|] eqn:Hkey;
    [|cbn [snd key_ret] in H; discriminate H].
  rewrite snd_key_bind in H. cbn [key_call snd] in H.
  rewrite snd_key_bind in H. cbn [key_call snd] in H.
  destruct (crypto_ec_key_get_subject_public_key k) as [pub|] eqn:Hpub;
    [|cbn [snd key_ret] in H; discriminate H].
  cbn [snd key_ret] in H. injection H as <-.
  cbn [m key pk_group pubkey wpabuf_head wpabuf_data].
  rewrite Z.gtb_ltb in Efit. apply Z.ltb_ge in Efit.
  change (Z.to_nat 0) with 0%nat. cbn [firstn Nat.add app].
  split; [reflexivity|]. split.
  - rewrite length_app, length_skipn. cbn [length].
    change (Z.to_nat 16) with 16%nat in Efit. lia.
  - split.
    + exists d. split; [reflexivity|].
      rewrite firstn_app, firstn_all, Nat.sub_diag. cbn [firstn].
      apply app_nil_r.
    + split; [exists der; split; [reflexivity | exact Hkey]|].
      split; [reflexivity | exact Hpub].
Qed.

End KeyContainer.

(** ** The parser stays inside the frame *)

Section ParserBounds.

Context {X : Externals}.

Lemma slice_in_bounds (a : list u8) (off len : Z) :
  0 <= off -> 0 <= len -> off + len <= Z.of_nat (length a) ->
  slice a off len = ret (firstn (Z.to_nat len) (skipn (Z.to_nat off) a)).
Proof.
  intros Ho Hl Hb. unfold slice.
  destruct (Z.ltb_spec off 0) as [H|_]; [lia|].
  destruct (Z.ltb_spec len 0) as [H|_]; [lia|].
  destruct (Z.gtb_spec (off + len) (Z.of_nat (length a))) as [H|_]; [lia|].
  reflexivity.
Qed.

Ltac status_leaf :=
  solve [eexists; split; [reflexivity | left; reflexivity]
        | eexists; split; [reflexivity | right; reflexivity]].

Ltac status_if E :=
  match goal with
  | |- exists z, snd (if ?c then _ else _) = _ /\ _ =>
      destruct c eqn:E; [status_leaf|]
  end.

Ltac status_read ies v :=
  match goal with
  | |- exists z, snd (bind (read ies ?i) _) = _ /\ _ =>
      rewrite (snd_bind (read ies i)), (read_in_bounds ies i) by lia;
      cbn [snd ret];
      set (v := byte.unsigned (nth (Z.to_nat i) ies Byte.x00)) in *
  end.

(** X17: When the element found by [get_vendor_ie] lies inside the frame --
    its header and the [sae_pk[1]] octets behind it -- every octet
    [sae_check_confirm_pk] itself reads or hands to the crypto library
    lies inside the frame as well: provided the fingerprint check and the
    transcript hash complete, the function returns 0 or -1. *)
Theorem sae_check_confirm_pk_in_bounds
        (sae : sae_data) (t : sae_temporary_data) (ies : list u8) :
  tmp sae = Some t ->
  (forall off : Z,
      get_vendor_ie ies SAE_PK_IE_VENDOR_TYPE = Some off ->
      0 <= off /\ off + 1 < Z.of_nat (length ies)
      /\ off + 2 + byte.unsigned (nth (Z.to_nat (off + 1)) ies Byte.x00)
         <= Z.of_nat (length ies)) ->
  (forall (m0 k_ap : list u8) (g : Z),
      exists b : bool, snd (sae_pk_valid_fingerprint sae m0 k_ap g) = Ret b) ->
  (forall (hl : Z) (m0 k_ap : list u8),
      exists r : option (list u8),
        snd (sae_pk_hash_sig_data sae hl false m0 k_ap) = Ret r) ->
  snd (sae_check_confirm_pk sae ies) = Ret 0
  \/ snd (sae_check_confirm_pk sae ies) = Ret (-1).
Proof.
  intros Ht Hie Hfp Hh.
  cut (exists z : Z,
          snd (sae_check_confirm_pk sae ies) = Ret z /\ (z = 0 \/ z = -1)).
  { intros [z [-> [-> | ->]]]; [left | right]; reflexivity. }
  unfold sae_check_confirm_pk. rewrite Ht.
  status_if Eg. status_if Ekek.
  destruct (ec t) as [e|]; [|status_leaf].
  destruct (get_vendor_ie ies SAE_PK_IE_VENDOR_TYPE) as [off|] eqn:Eie;
    [|status_leaf].
  destruct (Hie off eq_refl) as [Ho [Ho1 Hend]].
  unfold SAE_PK_M_LEN, AES_BLOCK_SIZE. cbv zeta.
  status_read ies l. status_if E1. apply Z.ltb_ge in E1.
  status_read ies v. status_if E2. status_if E3. apply Z.ltb_ge in E3.
  status_read ies p0. status_if E4.
  status_read ies p1. status_if E5.
  apply orb_false_iff in E5. destruct E5 as [E5 E5'].
  apply Z.ltb_ge in E5. rewrite Z.gtb_ltb in E5'. apply Z.ltb_ge in E5'.
  status_read ies p2. status_if E6.
  status_read ies p3. status_if E7. status_if E8. apply Z.ltb_ge in E8.
  status_read ies q0. status_if E9.
  status_read ies q1. status_if E10.
  apply orb_false_iff in E10. destruct E10 as [E10 E10'].
  apply Z.ltb_ge in E10. rewrite Z.gtb_ltb in E10'. apply Z.ltb_ge in E10'.
  status_read ies q2. status_if E11.
  rewrite snd_bind, slice_in_bounds by lia. cbn [snd ret].
  rewrite snd_bind. unfold call at 1. cbn [snd].
  destruct (aes_siv_decrypt _ _) as [m0|]; [|status_leaf].
  rewrite snd_bind, slice_in_bounds by lia. cbn [snd ret].
  rewrite snd_bind. unfold call at 1. cbn [snd].
  destruct (crypto_ec_key_parse_pub _) as [key0|]; [|status_leaf].
  rewrite snd_bind. unfold call at 1. cbn [snd].
  rewrite snd_bind.
  match goal with
  | |- context [sae_pk_valid_fingerprint sae ?a ?b ?c] =>
      destruct (Hfp a b c) as [ok Hok]; rewrite Hok
  end.
  status_if E12. status_if E13.
  rewrite snd_bind.
  match goal with
  | |- context [sae_pk_hash_sig_data sae ?a false ?b ?c] =>
      destruct (Hh a b c) as [r Hr]; rewrite Hr
  end.
  destruct r as [hash|]; [|status_leaf].
  rewrite snd_bind, slice_in_bounds by lia. cbn [snd ret].
  rewrite snd_bind. unfold call at 1. cbn [snd].
  status_if E14. status_leaf.
Qed.

End ParserBounds.

(** ** The length octet of the element *)

Section ElementLength.

Context {X : Externals}.

(** X15: The element has no fragmentation: when the inner container exceeds
    251 octets, [sae_write_confirm_pk] still returns 0 and appends all
    [6 + inner_len] octets, but the length octet it writes behind the
    element identifier holds [(4 + inner_len) mod 256], less than the
    length of what follows. *)
Theorem sae_write_confirm_pk_length_wraps
        (sae : sae_data) (t : sae_temporary_data) (pk0 : sae_pk)
        (buf : wpabuf) (tr : list event) (hash sig c : list u8) :
  tmp sae = Some t -> ap_pk t = Some pk0 ->
  kek_len t = 32 \/ kek_len t = 48 \/ kek_len t = 64 ->
  ec t <> None ->
  sae_pk_hash_sig_data sae (sae_group_2_hash_len (pk_group pk0)) true
                       (m pk0) (pubkey pk0) = (tr, Ret (Some hash)) ->
  crypto_ec_key_sign (key pk0)
    (firstn (Z.to_nat (sae_group_2_hash_len (pk_group pk0))) hash) = Some sig ->
  aes_siv_encrypt (firstn (Z.to_nat (kek_len t)) (kek t)) (m pk0) = Some c ->
  Z.of_nat (length c) = Z.of_nat (length (m pk0)) + AES_BLOCK_SIZE ->
  6 + wpabuf_len buf <= 1500 + Z.of_nat (length sig) - inner_len pk0 sig ->
  6 + inner_len pk0 sig <= wpabuf_tailroom buf ->
  255 < 4 + inner_len pk0 sig ->
  exists frame : wpabuf,
    snd (sae_write_confirm_pk sae buf) = Ret (0, frame)
    /\ wpabuf_len frame = wpabuf_len buf + 6 + inner_len pk0 sig
    /\ byte.unsigned (nth (Z.to_nat (wpabuf_len buf + 1)) (wpabuf_data frame)
                          Byte.x00)
       = (4 + inner_len pk0 sig) mod 256
    /\ (4 + inner_len pk0 sig) mod 256 < 4 + inner_len pk0 sig.
Proof.
  intros Ht Hpk Hkek Hec Hhash Hsign Henc Hc Htest Hroom Hbig.
  exists (wpabuf_app buf (sae_pk_element pk0 c sig)).
  pose proof (length_sae_pk_inner pk0 c sig Hc) as Hin.
  split; [|split; [|split]].
  - apply (sae_write_confirm_pk_run sae t pk0 buf tr hash sig c);
      assumption.
  - rewrite wpabuf_len_app. unfold sae_pk_element.
    rewrite length_app. cbn [length]. unfold u8 in *. lia.
  - unfold wpabuf_app, wpabuf_len. cbn [wpabuf_data].
    rewrite app_nth2 by lia.
    replace (Z.to_nat (Z.of_nat (length (wpabuf_data buf)) + 1)
             - length (wpabuf_data buf))%nat with 1%nat by lia.
    unfold sae_pk_element. cbn [app nth].
    rewrite byte.unsigned_of_Z, Hin. reflexivity.
  - pose proof (Z.mod_pos_bound (4 + inner_len pk0 sig) 256 ltac:(lia)). lia.
Qed.

End ElementLength.

(** X3: The text [sae_pk_base32_encode] returns fits the [olen] characters of
    the buffer it allocated, so the zero behind the text is its
    terminator. *)
Theorem sae_pk_base32_encode_in_buffer
        (src : list u8) (len_bits : Z) (s : list char) :
  0 <= len_bits <= SIZE_MAX ->
  sae_pk_base32_encode src len_bits = Some s ->
  Z.of_nat (length s) <= encode_olen (size_t (len_bits + 7) / 8).
Proof. exact (sae_pk_base32_encode_fits src len_bits s). Qed.

(** 40 bits: nine characters in a buffer of eleven. *)
Lemma sae_pk_base32_encode_in_buffer_witness :
  Z.of_nat (length (list_ascii_of_string "aaaa-aaaa"))
  <= encode_olen (size_t (40 + 7) / 8).
Proof.
  apply (sae_pk_base32_encode_in_buffer (repeat Byte.x00 5) 40).
  - vm_compute. split; discriminate.
  - vm_compute. reflexivity.
Defined.

(** A public key of 250 octets: the inner container has 298 octets and
    the length octet holds 46. *)
Lemma sae_write_confirm_pk_length_wraps_witness :
  exists frame : wpabuf,
    snd (sae_write_confirm_pk
           (test_session 32
              (Some (@Build_sae_pk test_externals (repeat Byte.x00 16) 19 19
                                   (repeat Byte.x00 250))) true)
           (wpabuf_alloc 400)) = Ret (0, frame)
    /\ wpabuf_len frame = wpabuf_len (wpabuf_alloc 400) + 6 + 298
    /\ byte.unsigned
         (nth (Z.to_nat (wpabuf_len (wpabuf_alloc 400) + 1))
              (wpabuf_data frame) Byte.x00) = (4 + 298) mod 256
    /\ (4 + 298) mod 256 < 4 + 298.
Proof.
  apply (@sae_write_confirm_pk_length_wraps test_externals
           (test_session 32
              (Some (@Build_sae_pk test_externals (repeat Byte.x00 16) 19 19
                                   (repeat Byte.x00 250))) true)
           (test_tmp 32
              (Some (@Build_sae_pk test_externals (repeat Byte.x00 16) 19 19
                                   (repeat Byte.x00 250))))
           (@Build_sae_pk test_externals (repeat Byte.x00 16) 19 19
                          (repeat Byte.x00 250))
           (wpabuf_alloc 400)
           (fst (sae_pk_hash_sig_data
                   (test_session 32
                      (Some (@Build_sae_pk test_externals (repeat Byte.x00 16)
                                           19 19 (repeat Byte.x00 250))) true)
                   32 true (repeat Byte.x00 16) (repeat Byte.x00 250)))
           (repeat Byte.x00 32) (repeat Byte.x00 8) (repeat Byte.x00 32)).
  - reflexivity.
  - reflexivity.
  - left. reflexivity.
  - discriminate.
  - vm_compute. reflexivity.
  - reflexivity.
  - reflexivity.
  - reflexivity.
  - vm_compute. discriminate.
  - vm_compute. discriminate.
  - vm_compute. reflexivity.
Defined.

(** ** The statements above on the stand-ins *)

(** An empty password is refused and the session stays as it is. *)
Lemma sae_pk_set_password_rejects_witness :
  sae_pk_set_password (test_session 32 None true) []
  = (-1, test_session 32 None true).
Proof.
  apply (@sae_pk_set_password_rejects test_externals
           (test_session 32 None true) []).
  right. reflexivity.
Defined.

(** The password ["aaaa-aaaa"]: [lambda = 8] and five octets. *)
Lemma sae_pk_set_password_valid_witness :
  fst (sae_pk_set_password (test_session 32 None true)
                           (list_ascii_of_string "aaaa-aaaa")) = 0
  /\ exists (t' : @sae_temporary_data test_externals) (pw0 : list u8),
      tmp (snd (sae_pk_set_password (test_session 32 None true)
                                    (list_ascii_of_string "aaaa-aaaa")))
      = Some t'
      /\ pw t' = Some pw0
      /\ lambda t'
         = Z.of_nat (length (filter valid_char
                                    (list_ascii_of_string "aaaa-aaaa")))
      /\ 8 <= lambda t'
      /\ Z.of_nat (length pw0) = (5 * lambda t' + 7) / 8.
Proof.
  apply (@sae_pk_set_password_valid test_externals
           (test_session 32 None true) (test_tmp 32 None)
           (list_ascii_of_string "aaaa-aaaa")).
  - reflexivity.
  - intros H. repeat (destruct H as [H|H]; [discriminate H|]). exact H.
  - vm_compute. reflexivity.
  - vm_compute. reflexivity.
Defined.

(** The password ["-"] is refused and leaves no decoded password. *)
Lemma sae_pk_set_password_clears_witness :
  fst (sae_pk_set_password (test_session 32 None true)
                           (list_ascii_of_string "-")) = -1
  /\ exists t' : @sae_temporary_data test_externals,
      tmp (snd (sae_pk_set_password (test_session 32 None true)
                                    (list_ascii_of_string "-"))) = Some t'
      /\ pw t' = None.
Proof.
  apply (@sae_pk_set_password_clears test_externals
           (test_session 32 None true) (test_tmp 32 None)
           (list_ascii_of_string "-")).
  - reflexivity.
  - intros H. repeat (destruct H as [H|H]; [discriminate H|]). exact H.
  - discriminate.
  - reflexivity.
Defined.

(** After ["aaaa-aaaa"] the check of a 16 octet modifier and an eight
    octet key completes. *)
Lemma sae_pk_valid_fingerprint_completes_witness :
  exists b : bool,
    snd (sae_pk_valid_fingerprint
           (snd (sae_pk_set_password (test_session 32 None true)
                                     (list_ascii_of_string "aaaa-aaaa")))
           (repeat Byte.x00 16) (repeat Byte.x00 8) 19) = Ret b.
Proof.
  apply (@sae_pk_valid_fingerprint_completes test_externals
           (test_session 32 None true) (test_tmp 32 None)
           (list_ascii_of_string "aaaa-aaaa")
           (repeat Byte.x00 16) (repeat Byte.x00 8) 19 (repeat Byte.x00 32)).
  - reflexivity.
  - intros H. repeat (destruct H as [H|H]; [discriminate H|]). exact H.
  - vm_compute. reflexivity.
  - vm_compute. reflexivity.
  - left. reflexivity.
  - discriminate.
  - discriminate.
  - reflexivity.
  - reflexivity.
Defined.

(** A buffer of 100 octets takes the 62 octets of the element. *)
Lemma sae_write_confirm_pk_appends_witness :
  snd (sae_write_confirm_pk (test_session 32 (Some test_pk) true)
                            (wpabuf_alloc 100))
  = Ret (0, wpabuf_app (wpabuf_alloc 100)
                       (sae_pk_element test_pk (repeat Byte.x00 32)
                                       (repeat Byte.x00 8))).
Proof.
  apply (@sae_write_confirm_pk_appends test_externals
           (test_session 32 (Some test_pk) true)
           (test_tmp 32 (Some test_pk)) test_pk (wpabuf_alloc 100)
           (fst (sae_pk_hash_sig_data (test_session 32 (Some test_pk) true)
                   32 true (repeat Byte.x00 16) (repeat Byte.x00 8)))
           (repeat Byte.x00 32) (repeat Byte.x00 8) (repeat Byte.x00 32)).
  - reflexivity.
  - reflexivity.
  - left. reflexivity.
  - discriminate.
  - vm_compute. reflexivity.
  - reflexivity.
  - reflexivity.
  - reflexivity.
  - vm_compute. discriminate.
  - vm_compute. discriminate.
Defined.

(** A frame that already holds 1450 octets is not extended. *)
Lemma sae_write_confirm_pk_long_frame_witness :
  snd (sae_write_confirm_pk
         (test_session 32 (Some test_pk) true)
         {| wpabuf_size := 2000; wpabuf_data := repeat Byte.x00 1450 |})
  = Ret (-1, {| wpabuf_size := 2000; wpabuf_data := repeat Byte.x00 1450 |}).
Proof.
  apply (@sae_write_confirm_pk_long_frame test_externals
           (test_session 32 (Some test_pk) true)
           (test_tmp 32 (Some test_pk)) test_pk
           {| wpabuf_size := 2000; wpabuf_data := repeat Byte.x00 1450 |}
           (fst (sae_pk_hash_sig_data (test_session 32 (Some test_pk) true)
                   32 true (repeat Byte.x00 16) (repeat Byte.x00 8)))
           (repeat Byte.x00 32) (repeat Byte.x00 8) (repeat Byte.x00 32)).
  - reflexivity.
  - reflexivity.
  - left. reflexivity.
  - discriminate.
  - vm_compute. reflexivity.
  - reflexivity.
  - reflexivity.
  - reflexivity.
  - vm_compute. discriminate.
  - vm_compute. reflexivity.
Defined.

(** Signing fails for the key 0 of the second stand-in. *)
Lemma sae_write_confirm_pk_crypto_failure_witness :
  snd (sae_write_confirm_pk (test_session_ap (Some (test_pk_sta 0 19)))
                            (wpabuf_alloc 100))
  = Ret (-1, wpabuf_alloc 100).
Proof.
  apply (@sae_write_confirm_pk_crypto_failure test_externals_sta
           (test_session_ap (Some (test_pk_sta 0 19)))
           (test_tmp_ap (Some (test_pk_sta 0 19))) (test_pk_sta 0 19)
           (wpabuf_alloc 100)
           (fst (sae_pk_hash_sig_data
                   (test_session_ap (Some (test_pk_sta 0 19)))
                   32 true (repeat Byte.x00 16) (repeat Byte.x00 8)))
           (Some (repeat Byte.x00 32))).
  - reflexivity.
  - reflexivity.
  - left. reflexivity.
  - discriminate.
  - vm_compute. reflexivity.
  - vm_compute. discriminate.
  - right. left. exists (repeat Byte.x00 32). split; reflexivity.
Defined.

(** A group 20 container in a build without SHA-384. *)
Lemma sae_write_confirm_pk_no_hash_witness :
  snd (sae_write_confirm_pk (test_session_ap (Some (test_pk_sta 20 20)))
                            (wpabuf_alloc 100))
  = Ret (-1, wpabuf_alloc 100).
Proof.
  apply (@sae_write_confirm_pk_no_hash test_externals_sta
           (test_session_ap (Some (test_pk_sta 20 20)))
           (test_tmp_ap (Some (test_pk_sta 20 20))) (test_pk_sta 20 20)
           (wpabuf_alloc 100)
           (match snd (sae_pk_sig_data
                         (test_session_ap (Some (test_pk_sta 20 20)))
                         true (repeat Byte.x00 16) (repeat Byte.x00 8)) with
            | Ret d => d
            | _ => None
            end)).
  - reflexivity.
  - reflexivity.
  - left. reflexivity.
  - discriminate.
  - discriminate.
  - intros _. reflexivity.
  - discriminate.
  - vm_compute. reflexivity.
Defined.

(** The element of the second stand-in's AP, accepted by its STA. *)
Lemma sae_check_confirm_pk_accepts_witness :
  exists (off klen alen : Z) (encr m0 k_ap key_auth hash : list u8)
         (key0 : @crypto_ec_key test_externals_sta),
    @get_vendor_ie test_externals_sta (sae_pk_element (test_pk_sta 19 19) (repeat Byte.x00 32)
                                  (repeat Byte.x00 8))
                  SAE_PK_IE_VENDOR_TYPE = Some off
    /\ snd (slice (sae_pk_element (test_pk_sta 19 19) (repeat Byte.x00 32)
                                  (repeat Byte.x00 8)) (off + 7) 32)
       = Ret encr
    /\ @aes_siv_decrypt test_externals_sta (firstn (Z.to_nat (kek_len test_tmp_sta))
                               (kek test_tmp_sta)) encr = Some m0
    /\ snd (slice (sae_pk_element (test_pk_sta 19 19) (repeat Byte.x00 32)
                                  (repeat Byte.x00 8)) (off + 43) klen)
       = Ret k_ap
    /\ @crypto_ec_key_parse_pub test_externals_sta k_ap = Some key0
    /\ @crypto_ec_key_group test_externals_sta key0 = group test_session_sta
    /\ snd (sae_pk_valid_fingerprint test_session_sta
              (firstn (Z.to_nat SAE_PK_M_LEN) m0) k_ap
              (group test_session_sta)) = Ret true
    /\ snd (sae_pk_hash_sig_data test_session_sta
              (sae_group_2_hash_len (group test_session_sta)) false
              (firstn (Z.to_nat SAE_PK_M_LEN) m0) k_ap) = Ret (Some hash)
    /\ snd (slice (sae_pk_element (test_pk_sta 19 19) (repeat Byte.x00 32)
                                  (repeat Byte.x00 8)) (off + 46 + klen) alen)
       = Ret key_auth
    /\ @crypto_ec_key_verify_signature test_externals_sta key0
         (firstn (Z.to_nat (sae_group_2_hash_len (group test_session_sta)))
                 hash) key_auth = 1.
Proof.
  apply (@sae_check_confirm_pk_accepts test_externals_sta
           test_session_sta test_tmp_sta
           (sae_pk_element (test_pk_sta 19 19) (repeat Byte.x00 32)
                           (repeat Byte.x00 8))).
  - reflexivity.
  - reflexivity.
  - reflexivity.
  - vm_compute. reflexivity.
Defined.

(** The second stand-in's AP and STA: the element written into a frame of
    100 octets is accepted. *)
Lemma sae_confirm_pk_round_trip_witness :
  exists frame : wpabuf,
    snd (sae_write_confirm_pk (test_session_ap (Some (test_pk_sta 19 19)))
                              (wpabuf_alloc 100)) = Ret (0, frame)
    /\ wpabuf_data frame
       = sae_pk_element (test_pk_sta 19 19) (repeat Byte.x00 32)
                        (repeat Byte.x00 8)
    /\ snd (sae_check_confirm_pk test_session_sta (wpabuf_data frame))
       = Ret 0.
Proof.
  apply (@sae_confirm_pk_round_trip test_externals_sta
           (test_session_ap (Some (test_pk_sta 19 19))) test_session_sta
           (test_tmp_ap (Some (test_pk_sta 19 19))) test_tmp_sta
           (test_pk_sta 19 19) 100
           (fst (sae_pk_hash_sig_data
                   (test_session_ap (Some (test_pk_sta 19 19)))
                   32 true (repeat Byte.x00 16) (repeat Byte.x00 8)))
           (repeat Byte.x00 32) (repeat Byte.x00 8) (repeat Byte.x00 32) 19).
  - reflexivity.
  - reflexivity.
  - left. reflexivity.
  - discriminate.
  - reflexivity.
  - vm_compute. reflexivity.
  - reflexivity.
  - reflexivity.
  - reflexivity.
  - vm_compute. discriminate.
  - vm_compute. discriminate.
  - vm_compute. discriminate.
  - reflexivity.
  - reflexivity.
  - reflexivity.
  - reflexivity.
  - reflexivity.
  - reflexivity.
  - reflexivity.
  - reflexivity.
  - reflexivity.
  - reflexivity.
  - reflexivity.
  - reflexivity.
  - reflexivity.
  - reflexivity.
  - reflexivity.
  - reflexivity.
  - reflexivity.
  - reflexivity.
  - reflexivity.
  - vm_compute. reflexivity.
Defined.

(** A text whose colon stands at offset 2 is refused. *)
Lemma sae_parse_pk_colon_witness :
  @sae_parse_pk test_externals test_key_externals
                (list_ascii_of_string "00:AA") = ([], Ret None).
Proof.
  apply (@sae_parse_pk_colon test_externals test_key_externals
           (list_ascii_of_string "00:AA")).
  vm_compute. discriminate.
Defined.

(** 32 hex digits, a colon and a key text parse to [test_pk]. *)
Lemma sae_parse_pk_accepts_witness :
  os_strchr (list_ascii_of_string "00000000000000000000000000000000:AA")
            ":"%char = Some 32
  /\ Z.of_nat (length (m test_pk)) = SAE_PK_M_LEN
  /\ (exists d : list u8,
         @hexstr2bin test_externals test_key_externals
           (list_ascii_of_string "00000000000000000000000000000000:AA")
           SAE_PK_M_LEN = Some d
         /\ firstn (length d) (m test_pk) = d)
  /\ (exists der : list u8,
         @base64_decode test_externals test_key_externals
           (skipn 33 (list_ascii_of_string
                        "00000000000000000000000000000000:AA"))
           (os_strlen (skipn 33 (list_ascii_of_string
                                   "00000000000000000000000000000000:AA")))
         = Some der
         /\ @crypto_ec_key_parse_priv test_externals test_key_externals der
            = Some (key test_pk))
  /\ pk_group test_pk = crypto_ec_key_group (key test_pk)
  /\ @crypto_ec_key_get_subject_public_key test_externals test_key_externals
       (key test_pk) = Some (pubkey test_pk).
Proof.
  apply (@sae_parse_pk_accepts test_externals test_key_externals
           (list_ascii_of_string "00000000000000000000000000000000:AA")
           test_pk).
  vm_compute. reflexivity.
Defined.

(** The callees complete on the second stand-in, whatever modifier and
    key they are given. *)
Lemma test_session_sta_fingerprint (m0 k_ap : list u8) (g : Z) :
  exists b : bool,
    snd (sae_pk_valid_fingerprint test_session_sta m0 k_ap g) = Ret b.
Proof.
  unfold sae_pk_valid_fingerprint, sae_group_2_hash_len, sae_hash.
  destruct (g =? 19); [|destruct (g =? 20); [|destruct (g =? 21)]];
    vm_compute; eexists; reflexivity.
Qed.

Lemma test_session_sta_transcript (hl : Z) (m0 k_ap : list u8) :
  exists r : option (list u8),
    snd (sae_pk_hash_sig_data test_session_sta hl false m0 k_ap) = Ret r.
Proof.
  rewrite (@sae_pk_hash_sig_data_roles test_externals_sta
             (test_session_ap None) test_session_sta
             (test_tmp_ap None) test_tmp_sta hl m0 k_ap
             eq_refl eq_refl eq_refl eq_refl eq_refl eq_refl eq_refl
             eq_refl eq_refl eq_refl).
  pose proof (@sae_pk_sig_data_layout test_externals_sta
                (test_session_ap None) (test_tmp_ap None) tt m0 k_ap
                (repeat Byte.x02 32) (repeat Byte.x03 32)
                (repeat Byte.x04 32) (repeat Byte.x05 32)
                (repeat Byte.x01 32) (repeat Byte.x06 32)
                eq_refl eq_refl eq_refl eq_refl eq_refl eq_refl
                eq_refl eq_refl eq_refl eq_refl eq_refl eq_refl) as H.
  unfold sig_data_octets in H. unfold sae_pk_hash_sig_data.
  rewrite snd_bind.
  destruct (snd (sae_pk_sig_data (test_session_ap None) true m0 k_ap))
    as [[b|]| |]; try discriminate H.
  unfold sae_hash.
  destruct (hl =? 32); [eexists; reflexivity|].
  change (@CONFIG_SHA384 test_externals_sta) with false.
  change (@CONFIG_SHA512 test_externals_sta) with true.
  cbn [andb]. destruct (hl =? 64); eexists; reflexivity.
Qed.

(** The element of 62 octets as the whole frame. *)
Lemma sae_check_confirm_pk_in_bounds_witness :
  snd (sae_check_confirm_pk test_session_sta
         (sae_pk_element (test_pk_sta 19 19) (repeat Byte.x00 32)
                         (repeat Byte.x00 8))) = Ret 0
  \/ snd (sae_check_confirm_pk test_session_sta
            (sae_pk_element (test_pk_sta 19 19) (repeat Byte.x00 32)
                            (repeat Byte.x00 8))) = Ret (-1).
Proof.
  apply (@sae_check_confirm_pk_in_bounds test_externals_sta
           test_session_sta test_tmp_sta
           (sae_pk_element (test_pk_sta 19 19) (repeat Byte.x00 32)
                           (repeat Byte.x00 8))).
  - reflexivity.
  - intros off H. injection H as <-. vm_compute.
    repeat split; solve [reflexivity | discriminate].
  - exact test_session_sta_fingerprint.
  - exact test_session_sta_transcript.
Defined.

(** [sae_pk_set_password] accepts ["a----"]: one decoded octet and
    [lambda = 4], so [bits = 34] asks for five octets of an expected
    fingerprint that has three. *)
Lemma sae_pk_valid_fingerprint_over_read_witness :
  fst (sae_pk_set_password (test_session 32 None true)
                           (list_ascii_of_string "a----")) = 0
  /\ snd (sae_pk_valid_fingerprint
            (snd (sae_pk_set_password (test_session 32 None true)
                                      (list_ascii_of_string "a----")))
            (repeat Byte.x00 16) (repeat Byte.x00 8) 19) = Fault.
Proof.
  split; [vm_compute; reflexivity|].
  eapply (@sae_pk_valid_fingerprint_over_read test_externals
            _ _ [Byte.x00] (repeat Byte.x00 16) (repeat Byte.x00 8) 19
            (repeat Byte.x00 32)).
  - vm_compute. reflexivity.
  - reflexivity.
  - discriminate.
  - left. reflexivity.
  - discriminate.
  - discriminate.
  - vm_compute. discriminate.
  - vm_compute. discriminate.
  - reflexivity.
  - reflexivity.
  - vm_compute. discriminate.
  - vm_compute. reflexivity.
Defined.
